(** * tgtg scanner: a shallow embedding of the polling core

    The development follows the Python sources of [tgtg_scanner]:

    - [scanner.py]            -> [Module Scanner]
    - [tgtg.py]               -> [Module TgtgClient]
    - [models/item.py]        -> [Module Item]
    - [models/notifier.py]    -> [Module Notifier]
    - [notifiers/webhook.py]  -> [Module WebHook] (with [Module Py] for the
                                 pieces of [re] and [str] it relies on)
    - [notifiers/__init__.py] -> [Module Notifiers]

    Python integers are [Z], Python [str] is [string], [None]-able values are
    [option], dictionaries are [gmap].  A [string] stands for a [str]
    character by character, each [ascii] being one code point below 256, so
    that [String.length] is [len]; text with other characters is outside
    the model.  Code that mutates its object and may
    raise is written in a small state-and-exception monad, so that the state
    reached at the moment an exception escapes stays observable. *)

From Stdlib Require Import ZArith List String Ascii Bool Lia.
From stdpp Require Import base option gmap strings pretty.
Import ListNotations.

Local Open Scope string_scope.
Local Open Scope list_scope.
Local Open Scope Z_scope.

(** ** Exceptions *)

(** Arguments handed to an exception constructor. *)
Inductive arg : Type :=
| AInt (n : Z)
| AStr (s : string).

(** Modelled from the spec: [models/errors.py] is not among the sources.  The
    classes below are the ones the sources import by name from [..models];
    following the error taxonomy of the spec (section 7) they are kept
    pairwise distinct.  [KeyError], [TypeError] and [ValueError] are the
    Python builtins; every constructor stands for an instance of
    [Exception] (what only [BaseException] covers, a keyboard interrupt or
    an exit, is not modelled).  [ExternalError] stands for whatever a
    collaborator outside the modelled code (HTTP transport, prometheus
    client, a delivery backend, the operating system) raises. *)
Inductive exn : Type :=
| TgtgAPIError (args : list arg)
| TgtgLoginError (args : list arg)
| TgtgPollingError (args : list arg)
| TGTGConfigurationError (args : list arg)
| WebHookConfigurationError
| KeyError (key : string)
| TypeError
| ValueError (message : string)
| ExternalError (what : string).

Definition is_TgtgLoginError (e : exn) : bool :=
  match e with TgtgLoginError _ => true | _ => false end.

Definition is_TgtgPollingError (e : exn) : bool :=
  match e with TgtgPollingError _ => true | _ => false end.

Definition is_TgtgAPIError (e : exn) : bool :=
  match e with TgtgAPIError _ => true | _ => false end.

(** ** The state-and-exception monad *)

Inductive result (A : Type) : Type :=
| Ok (a : A)
| Raise (e : exn).
Arguments Ok {A} a.
Arguments Raise {A} e.

Definition is_Ok {A} (r : result A) : bool :=
  match r with Ok _ => true | Raise _ => false end.

Definition M (S A : Type) : Type := S -> result A * S.

Definition ret {S A} (a : A) : M S A := fun s => (Ok a, s).

Definition bind {S A B} (m : M S A) (k : A -> M S B) : M S B :=
  fun s => match m s with
           | (Ok a, s') => k a s'
           | (Raise e, s') => (Raise e, s')
           end.

Definition raise {S A} (e : exn) : M S A := fun s => (Raise e, s).

Definition get {S} : M S S := fun s => (Ok s, s).

Definition modify {S} (f : S -> S) : M S unit := fun s => (Ok tt, f s).

(** [try: body / except Exception as err: handler err]. *)
Definition try_except {S A} (body : M S A) (handler : exn -> M S A) : M S A :=
  fun s => match body s with
           | (Ok a, s') => (Ok a, s')
           | (Raise e, s') => handler e s'
           end.

(** [try: body / finally: final]: [final] always runs; an exception raised by
    [final] replaces the pending outcome. *)
Definition try_finally {S A} (body : M S A) (final : M S unit) : M S A :=
  fun s => match body s with
           | (r, s') =>
               match final s' with
               | (Ok _, s'') => (r, s'')
               | (Raise e, s'') => (Raise e, s'')
               end
           end.

(** Lifting the answer of a collaborator: [None] when the call returns,
    [Some e] when it raises [e]. *)
Definition outcome {S} (o : option exn) : M S unit :=
  match o with None => ret tt | Some e => raise e end.

Declare Scope monad_scope.
Delimit Scope monad_scope with monad.
Notation "'let!' x ':=' c1 'in' c2" := (bind c1 (fun x => c2))
  (at level 10, x name, c1 at level 100, c2 at level 200) : monad_scope.
Notation "c1 '>>' c2" := (bind c1 (fun _ => c2))
  (at level 190, right associativity) : monad_scope.
Local Open Scope monad_scope.

(** ** models/item.py *)

Module Item.

(** The attributes of an [Item] that the modelled code reads.  [price] is a
    float in the source and [pickupdate] a property computed from the pickup
    interval, the local clock and the time zone; both reach the modelled code
    only through [str], so the record carries their printed form.
    [other_attrs] gives the printed form of every further attribute the
    Python object answers to ([interval_start], [ATTRS], [__class__], ...),
    [None] where [hasattr] is false. *)
Record t : Type := mk {
  item_id : string;
  items_available : Z;
  display_name : string;
  price : string;
  currency : string;
  pickupdate : string;
  other_attrs : string -> option string
}.

(** [Item.ATTRS] *)
Definition ATTRS : list string :=
  ["item_id"; "items_available"; "display_name";
   "price"; "currency"; "pickupdate"].

(** [str(getattr(item, name))], guarded by [hasattr(item, name)]: [None]
    when the object has no such attribute. *)
Definition getattr_str (item : t) (name : string) : option string :=
  if String.eqb name "item_id" then Some (item_id item)
  else if String.eqb name "items_available" then Some (pretty (items_available item))
  else if String.eqb name "display_name" then Some (display_name item)
  else if String.eqb name "price" then Some (price item)
  else if String.eqb name "currency" then Some (currency item)
  else if String.eqb name "pickupdate" then Some (pickupdate item)
  else other_attrs item name.

End Item.

(** ** models/metrics.py *)

Module Metrics.

(** The three prometheus collectors; labelled ones are keyed by
    [(item_id, display_name)]. *)
Record t : Type := mk {
  item_count : gmap (string * string) Z;
  get_favorites_errors : Z;
  send_notifications : gmap (string * string) Z
}.

Definition empty : t := mk ∅ 0 ∅.

Definition item_count_set (k : string * string) (v : Z) (m : t) : t :=
  mk (<[k := v]> (item_count m)) (get_favorites_errors m) (send_notifications m).

Definition get_favorites_errors_inc (m : t) : t :=
  mk (item_count m) (get_favorites_errors m + 1) (send_notifications m).

Definition send_notifications_inc (k : string * string) (m : t) : t :=
  mk (item_count m) (get_favorites_errors m)
     (<[k := default 0 (send_notifications m !! k) + 1]> (send_notifications m)).

End Metrics.

(** ** scanner.py *)

Module Scanner.

(** What the collaborators called from [_check_item] do during one call:
    [None] when the call returns, [Some e] when it raises [e]. *)
Record effects : Type := mk_effects {
  send_messages_raises : option exn;
  send_notifications_inc_raises : option exn;
  item_count_set_raises : option exn
}.

Definition quiet : effects := mk_effects None None None.

(** The fields of [Scanner] the modelled methods touch ([amounts],
    [metrics]) and the trace they leave on the collaborators: the items
    handed to [_send_messages], the [(page_size, page)] arguments of the
    [get_items] calls, and the "new amount" log lines. *)
Record t : Type := mk {
  amounts : gmap string Z;
  metrics : Metrics.t;
  sent : list Item.t;
  get_items_calls : list (Z * Z);
  new_amount_log : list (string * Z)
}.

Definition init : t := mk ∅ Metrics.empty [] [] [].

Definition set_amounts (f : gmap string Z -> gmap string Z) (s : t) : t :=
  mk (f (amounts s)) (metrics s) (sent s) (get_items_calls s) (new_amount_log s).

Definition set_metrics (f : Metrics.t -> Metrics.t) (s : t) : t :=
  mk (amounts s) (f (metrics s)) (sent s) (get_items_calls s) (new_amount_log s).

Definition add_sent (item : Item.t) (s : t) : t :=
  mk (amounts s) (metrics s) (sent s ++ [item]) (get_items_calls s) (new_amount_log s).

Definition add_get_items_call (c : Z * Z) (s : t) : t :=
  mk (amounts s) (metrics s) (sent s) (get_items_calls s ++ [c]) (new_amount_log s).

Definition add_new_amount_log (l : string * Z) (s : t) : t :=
  mk (amounts s) (metrics s) (sent s) (get_items_calls s) (new_amount_log s ++ [l]).

(** [self.amounts[key]] *)
Definition amounts_getitem (key : string) : M t Z :=
  fun s => match amounts s !! key with
           | Some a => (Ok a, s)
           | None => (Raise (KeyError key), s)
           end.

(** [self.amounts[key] = v] *)
Definition amounts_setitem (key : string) (v : Z) : M t unit :=
  modify (set_amounts (insert key v)).

Definition labels (item : Item.t) : string * string :=
  (Item.item_id item, Item.display_name item).

(** [_send_messages]: hands the item to the notifiers. *)
Definition _send_messages (fx : effects) (item : Item.t) : M t unit :=
  modify (add_sent item) >> outcome (send_messages_raises fx).

(** [self.metrics.send_notifications.labels(..).inc()] *)
Definition send_notifications_inc (fx : effects) (item : Item.t) : M t unit :=
  outcome (send_notifications_inc_raises fx) >>
  modify (set_metrics (Metrics.send_notifications_inc (labels item))).

(** [self.metrics.item_count.labels(..).set(item.items_available)] *)
Definition item_count_set (fx : effects) (item : Item.t) : M t unit :=
  outcome (item_count_set_raises fx) >>
  modify (set_metrics (Metrics.item_count_set (labels item) (Item.items_available item))).

(** [Scanner._check_item] *)
Definition _check_item (fx : effects) (item : Item.t) : M t unit :=
  try_finally
    (try_except
       (let! a := amounts_getitem (Item.item_id item) in
        (if (a =? 0) && (Item.items_available item >? a)
         then _send_messages fx item >> send_notifications_inc fx item
         else ret tt) >>
        item_count_set fx item)
       (fun _ => amounts_setitem (Item.item_id item) (Item.items_available item)))
    (let! a := amounts_getitem (Item.item_id item) in
     if negb (a =? Item.items_available item)
     then modify (add_new_amount_log (Item.display_name item, Item.items_available item)) >>
          amounts_setitem (Item.item_id item) (Item.items_available item)
     else ret tt).

Section Favorites.

(** The raw item records ([dict]) returned by the API. *)
Context {Data : Type}.

(** [self.tgtg_client.get_items(favorites_only=True, page_size=.., page=..)]
    seen from the scanner: the answer to the [n]-th call (counted from 0)
    for the given page size and page, a list of records or an exception. *)
Variable get_items : nat -> Z -> Z -> result (list Data).

(** The local variables of [_get_favorites]. *)
Record locals : Type := mk_locals {
  items : list Data;
  page : Z;
  error_count : Z
}.

Definition page_size : Z := 100.

Inductive flow : Type := Break | Continue.

(** The body of the [while] loop: one [try]/[except].  The handler bumps
    the local counter and the prometheus counter. *)
Definition loop_body (l : locals) : M t (locals * flow) :=
  fun s =>
    let answer := get_items (length (get_items_calls s)) page_size (page l) in
    let s1 := add_get_items_call (page_size, page l) s in
    match answer with
    | Ok new_items =>
        let items' := items l ++ new_items in
        if Z.of_nat (length new_items) <? page_size
        then (Ok (mk_locals items' (page l) (error_count l), Break), s1)
        else (Ok (mk_locals items' (page l + 1) (error_count l), Continue), s1)
    | Raise _ =>
        (Ok (mk_locals (items l) (page l) (error_count l + 1), Continue),
         set_metrics Metrics.get_favorites_errors_inc s1)
    end.

(** [while True and error_count < 5: ...; return items].  The loop need
    not terminate (a server may answer full pages forever), hence the
    fuel; [None] is "out of fuel". *)
Fixpoint loop (fuel : nat) (l : locals) : M t (option (list Data)) :=
  match fuel with
  | O => ret None
  | S fuel' =>
      if error_count l <? 5
      then let! step := loop_body l in
           match step with
           | (l', Break) => ret (Some (items l'))
           | (l', Continue) => loop fuel' l'
           end
      else ret (Some (items l))
  end.

(** [Scanner._get_favorites] *)
Definition _get_favorites (fuel : nat) : M t (option (list Data)) :=
  loop fuel (mk_locals [] 1 0).

End Favorites.

End Scanner.

(** ** tgtg.py *)

Module TgtgClient.

Definition AUTH_BY_EMAIL_ENDPOINT : string := "auth/v3/authByEmail".
Definition AUTH_POLLING_ENDPOINT : string := "auth/v3/authByRequestPollingId".
Definition REFRESH_ENDPOINT : string := "auth/v3/token/refresh".
Definition DEFAULT_ACCESS_TOKEN_LIFETIME : Z := 3600 * 4.
Definition DEFAULT_MAX_POLLING_TRIES : Z := 24.
Definition DEFAULT_POLLING_WAIT_TIME : Z := 5.

(** [HTTPStatus.OK], [HTTPStatus.ACCEPTED], [HTTPStatus.TOO_MANY_REQUESTS] *)
Definition OK : Z := 200.
Definition ACCEPTED : Z := 202.
Definition TOO_MANY_REQUESTS : Z := 429.

(** A POST: the endpoint (relative to the base URL) and the JSON body. *)
Record Request : Type := mk_request {
  endpoint : string;
  json : list (string * option string)
}.

(** A decoded JSON value that the client subscripts with a key:
    [NotADict] for [null], a number, a string or a list, where [v[key]]
    raises [TypeError]; [Dict field] for an object, [field] being what it
    holds under the key the client reads ([None]: the key is absent). *)
Inductive json_object (A : Type) : Type :=
| NotADict
| Dict (field : option A).
Arguments NotADict {A}.
Arguments Dict {A} field.

(** A response: status, raw content, and the keys of [response.json()] that
    the client reads ([None]: the key is absent).  [json_startup_data] is
    the value under ["startup_data"], read through [["user"]] and then
    [["user_id"]]. *)
Record Response : Type := mk_response {
  status_code : Z;
  content : string;
  json_state : option string;
  json_polling_id : option string;
  json_access_token : option string;
  json_refresh_token : option string;
  json_startup_data : option (json_object (json_object string))
}.

(** The startup data of a login answer, with the user id in place. *)
Definition startup_data (user_id : string)
  : option (json_object (json_object string)) :=
  Some (Dict (Some (Dict (Some user_id)))).

(** [d[key]] on the decoded body. *)
Definition getitem {S A} (key : string) (v : option A) : M S A :=
  match v with
  | Some x => ret x
  | None => raise (KeyError key)
  end.

(** [v[key]] on a value inside the decoded body. *)
Definition subscript {S A} (v : json_object A) (key : string) : M S A :=
  match v with
  | Dict field => getitem key field
  | NotADict => raise TypeError
  end.

(** The attributes of [TgtgClient] that [login], [_refresh_token] and
    [start_polling] read or write.  [last_time_token_refreshed] is a
    [datetime], kept as microseconds since an arbitrary epoch. *)
Record t : Type := mk {
  email : option string;
  access_token : option string;
  refresh_token : option string;
  user_id : option string;
  last_time_token_refreshed : option Z;
  access_token_lifetime : Z;
  max_polling_tries : Z;
  polling_wait_time : Z;
  device_type : string
}.

(** [TgtgClient.__init__]: plain attribute assignments (the user agent, the
    proxies and the [requests] session play no role below).  It validates
    nothing; the result type records that it cannot raise. *)
Definition __init__ (email access_token refresh_token user_id : option string)
    (access_token_lifetime max_polling_tries polling_wait_time : Z) : result t :=
  Ok (mk email access_token refresh_token user_id None
         access_token_lifetime max_polling_tries polling_wait_time "ANDROID").

(** The client together with its environment: the wall clock
    ([datetime.datetime.now()], in microseconds), the requests posted so far,
    the durations [time.sleep] has slept (in seconds), and what [time.sleep]
    does on this platform with a duration that is not negative: [None] when
    it sleeps and returns, [Some e] when it raises [e] ([OverflowError] or
    [OSError] for a duration its clock cannot hold). *)
Record state : Type := mk_state {
  self : t;
  clock : Z;
  requests : list Request;
  sleeps : list Z;
  time_sleep : Z -> option exn
}.

Definition set_self (f : t -> t) (s : state) : state :=
  mk_state (f (self s)) (clock s) (requests s) (sleeps s) (time_sleep s).

Definition set_access_token (v : string) (c : t) : t :=
  mk (email c) (Some v) (refresh_token c) (user_id c) (last_time_token_refreshed c)
     (access_token_lifetime c) (max_polling_tries c) (polling_wait_time c) (device_type c).

Definition set_refresh_token (v : string) (c : t) : t :=
  mk (email c) (access_token c) (Some v) (user_id c) (last_time_token_refreshed c)
     (access_token_lifetime c) (max_polling_tries c) (polling_wait_time c) (device_type c).

Definition set_user_id (v : string) (c : t) : t :=
  mk (email c) (access_token c) (refresh_token c) (Some v) (last_time_token_refreshed c)
     (access_token_lifetime c) (max_polling_tries c) (polling_wait_time c) (device_type c).

Definition set_last_time_token_refreshed (v : Z) (c : t) : t :=
  mk (email c) (access_token c) (refresh_token c) (user_id c) (Some v)
     (access_token_lifetime c) (max_polling_tries c) (polling_wait_time c) (device_type c).

(** Truth value of a [str]-or-[None]. *)
Definition truthy (o : option string) : bool :=
  match o with
  | Some s => negb (String.eqb s "")
  | None => false
  end.

(** [str(x)] of a [str]-or-[None], as an f-string prints it. *)
Definition str (o : option string) : string := default "None" o.

(** [TgtgClient._already_logged] *)
Definition _already_logged (c : t) : bool :=
  truthy (access_token c) && truthy (refresh_token c) && truthy (user_id c).

(** [timedelta.seconds]: the seconds field of the normalised
    (days, seconds, microseconds) triple, always in [0, 86400). *)
Definition timedelta_seconds (delta : Z) : Z := (delta / 1000000) mod 86400.

(** [time.sleep(seconds)]: a negative duration raises [ValueError]; any
    other is slept, unless the platform refuses it. *)
Definition sleep (seconds : Z) : M state unit :=
  if seconds <? 0
  then raise (ValueError "sleep length must be non-negative")
  else fun s =>
         match time_sleep s seconds with
         | Some e => (Raise e, s)
         | None =>
             (Ok tt, mk_state (self s) (clock s + seconds * 1000000)
                              (requests s) (sleeps s ++ [seconds]) (time_sleep s))
         end.

Section Server.

(** The provider: its response to the [n]-th request (counted from 0). *)
Variable server : nat -> Response.

(** [TgtgClient._request] *)
Definition _request (endpoint : string) (json : list (string * option string))
  : M state Response :=
  fun s => (Ok (server (length (requests s))),
            mk_state (self s) (clock s)
                     (requests s ++ [mk_request endpoint json]) (sleeps s)
                     (time_sleep s)).

(** [TgtgClient._refresh_token] *)
Definition _refresh_token : M state unit :=
  let! s := get in
  if match last_time_token_refreshed (self s) with
     | Some last =>
         timedelta_seconds (clock s - last) <=? access_token_lifetime (self s)
     | None => false
     end
  then ret tt
  else
    let! response :=
      _request REFRESH_ENDPOINT [("refresh_token", refresh_token (self s))] in
    if status_code response =? OK
    then
      let! a := getitem "access_token" (json_access_token response) in
      modify (set_self (set_access_token a)) >>
      let! r := getitem "refresh_token" (json_refresh_token response) in
      modify (set_self (set_refresh_token r)) >>
      let! s' := get in
      modify (set_self (set_last_time_token_refreshed (clock s')))
    else raise (TgtgAPIError [AInt (status_code response); AStr (content response)]).

(** The [for _ in range(...)] loop of [start_polling] with [tries] rounds
    left, followed by the statement after the loop. *)
Fixpoint poll (tries : nat) (polling_id : string) : M state unit :=
  match tries with
  | O =>
      let! s := get in
      raise (TgtgPollingError
               [AStr ("Max retries ("
                      +:+ pretty (max_polling_tries (self s) * polling_wait_time (self s))
                      +:+ " seconds) reached. Try again.")])
  | S tries' =>
      let! s := get in
      let! response :=
        _request AUTH_POLLING_ENDPOINT
                 [("device_type", Some (device_type (self s)));
                  ("email", email (self s));
                  ("request_polling_id", Some polling_id)] in
      if status_code response =? ACCEPTED
      then sleep (polling_wait_time (self s)) >> poll tries' polling_id
      else if status_code response =? OK
      then
        let! a := getitem "access_token" (json_access_token response) in
        modify (set_self (set_access_token a)) >>
        let! r := getitem "refresh_token" (json_refresh_token response) in
        modify (set_self (set_refresh_token r)) >>
        let! s' := get in
        modify (set_self (set_last_time_token_refreshed (clock s'))) >>
        let! startup := getitem "startup_data" (json_startup_data response) in
        let! user := subscript startup "user" in
        let! u := subscript user "user_id" in
        modify (set_self (set_user_id u))
      else if status_code response =? TOO_MANY_REQUESTS
      then raise (TgtgAPIError [AStr "429 - Too many requests. Try again later."])
      else raise (TgtgLoginError [AInt (status_code response); AStr (content response)])
  end.

(** [TgtgClient.start_polling] *)
Definition start_polling (polling_id : string) : M state unit :=
  let! s := get in
  poll (Z.to_nat (max_polling_tries (self s))) polling_id.

(** [TgtgClient.login] *)
Definition login : M state unit :=
  let! s := get in
  if negb (truthy (email (self s))
           || truthy (access_token (self s)) && truthy (refresh_token (self s))
              && truthy (user_id (self s)))
  then raise (TGTGConfigurationError
                [AStr "You must provide at least email or access_token, refresh_token and user_id"])
  else if _already_logged (self s)
  then _refresh_token
  else
    let! response :=
      _request AUTH_BY_EMAIL_ENDPOINT
               [("device_type", Some (device_type (self s)));
                ("email", email (self s))] in
    if status_code response =? OK
    then
      let! st := getitem "state" (json_state response) in
      if String.eqb st "TERMS"
      then raise (TgtgPollingError
                    [AStr ("This email " +:+ str (email (self s))
                           +:+ " is not linked to a tgtg account. "
                           +:+ "Please signup with this email first.")])
      else if String.eqb st "WAIT"
      then let! polling_id := getitem "polling_id" (json_polling_id response) in
           start_polling polling_id
      else raise (TgtgLoginError [AInt (status_code response); AStr (content response)])
    else if status_code response =? 429
    then raise (TgtgAPIError [AStr "429 - Too many requests. Try again later."])
    else raise (TgtgLoginError [AInt (status_code response); AStr (content response)]).

End Server.

End TgtgClient.

(** ** The pieces of Python's [str] and [re] used by the notifiers *)

Module Py.

(** Truth value of a [str]. *)
Definition truthy (s : string) : bool := negb (String.eqb s "").

(** Truth value of a [str]-or-[None]. *)
Definition truthy_opt (o : option string) : bool :=
  match o with Some s => truthy s | None => false end.

(** The character class [[a-zA-Z0-9_]]. *)
Definition is_word_char (c : ascii) : bool :=
  let n := nat_of_ascii c in
  ((97 <=? n) && (n <=? 122) || (65 <=? n) && (n <=? 90)
   || (48 <=? n) && (n <=? 57) || (n =? 95))%nat.

(** The longest prefix of word characters, and what follows it. *)
Fixpoint span_word (s : string) : string * string :=
  match s with
  | String c s' =>
      if is_word_char c
      then let '(w, rest) := span_word s' in (String c w, rest)
      else ("", s)
  | "" => ("", "")
  end.

(** The text [${{name}}]. *)
Definition placeholder (name : string) : string := "${{" +:+ name +:+ "}}".

(** [s] without the prefix [p], when [p] is a prefix of [s]. *)
Fixpoint strip_prefix (p s : string) : option string :=
  match p, s with
  | "", _ => Some s
  | String a p', String b s' => if Ascii.eqb a b then strip_prefix p' s' else None
  | String _ _, "" => None
  end.

(** A match of the pattern [\${{([a-zA-Z0-9_]+)}}] anchored at the start of
    [s]: group 1 and the text after the match.  The greedy run of word
    characters is the only candidate: a shorter run is followed by a word
    character, never by [}]. *)
Definition match_placeholder (s : string) : option (string * string) :=
  match strip_prefix "${{" s with
  | Some s1 =>
      match span_word s1 with
      | (String c w, rest) =>
          match strip_prefix "}}" rest with
          | Some s2 => Some (String c w, s2)
          | None => None
          end
      | ("", _) => None
      end
  | None => None
  end.

(** A match object: [group(0)] and [group(1)]. *)
Record Match : Type := mk_match {
  group0 : string;
  group1 : string
}.

(** [re.finditer]: the non-overlapping matches, scanning left to right;
    the search resumes right after a match, and one character further
    where there is none.  Every step consumes a character, so the length
    of the string is fuel enough. *)
Fixpoint finditer_from (fuel : nat) (s : string) : list Match :=
  match fuel with
  | O => []
  | S fuel' =>
      match match_placeholder s with
      | Some (name, rest) =>
          mk_match (placeholder name) name :: finditer_from fuel' rest
      | None =>
          match s with
          | String _ s' => finditer_from fuel' s'
          | "" => []
          end
      end
  end.

(** [re.finditer(r"\${{([a-zA-Z0-9_]+)}}", s)] *)
Definition finditer (s : string) : list Match :=
  finditer_from (String.length s) s.

(** [str.replace] for a non-empty [old]: every non-overlapping occurrence,
    left to right. *)
Fixpoint replace_from (fuel : nat) (old new s : string) : string :=
  match fuel with
  | O => s
  | S fuel' =>
      match strip_prefix old s with
      | Some rest => new +:+ replace_from fuel' old new rest
      | None =>
          match s with
          | String c s' => String c (replace_from fuel' old new s')
          | "" => ""
          end
      end
  end.

(** [str.replace] for an empty [old]: [new] goes before every character
    and at the end. *)
Fixpoint intersperse (new s : string) : string :=
  match s with
  | "" => new
  | String c s' => new +:+ String c (intersperse new s')
  end.

(** [s.replace(old, new)] *)
Definition replace (s old new : string) : string :=
  match old with
  | "" => intersperse new s
  | _ => replace_from (String.length s) old new s
  end.

End Py.

(** ** models/notifier.py *)

Module Notifier.

Section Backend.

(** The state of the delivery backends (mail server, HTTP endpoints...). *)
Context {B : Type}.

(** A notifier: the class name, the [enabled] flag and the overridden
    [_send]. *)
Record t : Type := mk {
  name : string;
  enabled : bool;
  _send : Item.t -> M B unit
}.

(** The backends together with what the dispatch leaves behind: the
    [_send] calls made, in order, and the errors logged. *)
Record world : Type := mk_world {
  backend : B;
  invoked : list (string * Item.t);
  error_log : list exn
}.

Definition call_send (n : t) (item : Item.t) : M world unit :=
  fun w =>
    let '(r, b) := _send n item (backend w) in
    (r, mk_world b (invoked w ++ [(name n, item)]) (error_log w)).

Definition log_error (err : exn) : M world unit :=
  modify (fun w => mk_world (backend w) (invoked w) (error_log w ++ [err])).

(** [Notifier.send] *)
Definition send (n : t) (item : Item.t) : M world unit :=
  if enabled n
  then try_except (call_send n item) (fun err => log_error err)
  else ret tt.

End Backend.

Arguments t B : clear implicits.
Arguments world B : clear implicits.

End Notifier.

(** ** notifiers/webhook.py *)

Module WebHook.

(** [WebHookConfig]: [url] and [body] default to [None]. *)
Record Config : Type := mk_config {
  enabled : bool;
  url : option string;
  method : string;
  body : option string;
  type : string;
  timeout : Z
}.

(** [re.finditer(pattern, x)] for a [str]-or-[None]. *)
Definition finditer {S} (x : option string) : M S (list Py.Match) :=
  match x with
  | Some s => ret (Py.finditer s)
  | None => raise TypeError
  end.

(** [for match in ...: if not match.group(1) in Item.ATTRS: raise ...] *)
Fixpoint check_matches {S} (ms : list Py.Match) : M S unit :=
  match ms with
  | [] => ret tt
  | m :: ms' =>
      if negb (bool_decide (Py.group1 m ∈ Item.ATTRS))
      then raise WebHookConfigurationError
      else check_matches ms'
  end.

(** [WebHook._init] *)
Definition _init {S} (cfg : Config) : M S unit :=
  if negb (Py.truthy (method cfg)) || negb (Py.truthy_opt (url cfg))
  then raise WebHookConfigurationError
  else
    let! ms := finditer (body cfg) in
    check_matches ms >>
    let! ms' := finditer (url cfg) in
    check_matches ms'.

(** [WebHook.__init__], through [Notifier.__init__] and the [enabled]
    setter: [_init] runs when the channel is enabled. *)
Definition __init__ {S} (cfg : Config) : M S Config :=
  (if enabled cfg then _init cfg else ret tt) >> ret cfg.

(** The substitution loop of [_send]: for every match of the template,
    [text = text.replace(match.group(0), str(getattr(item, match.group(1))))]
    when the item has the attribute. *)
Definition substitute (item : Item.t) (ms : list Py.Match) (text : string) : string :=
  fold_left
    (fun text m =>
       match Item.getattr_str item (Py.group1 m) with
       | Some v => Py.replace text (Py.group0 m) v
       | None => text
       end)
    ms text.

(** The arguments of [requests.request]. *)
Record HttpRequest : Type := mk_http {
  http_method : string;
  http_url : string;
  http_timeout : Z;
  http_data : option string;
  http_headers : list (string * string)
}.

Section Http.

(** [requests.request(...)] followed by [raise_for_status()]: [None]
    when both return, [Some e] when one of them raises [e]. *)
Variable http : HttpRequest -> option exn.

(** [WebHook._send]; the state is the list of requests made.  The
    [Content-Length] header is [str(len(body))], the number of characters
    of the body. *)
Definition _send (cfg : Config) (item : Item.t) : M (list HttpRequest) unit :=
  let! ms := finditer (url cfg) in
  let url' := substitute item ms (default "" (url cfg)) in
  let headers := [("Content-Type", type cfg)] in
  let '(body', headers') :=
    match body cfg with
    | Some b =>
        if Py.truthy b
        then let b' := substitute item (Py.finditer b) b in
             (Some b', headers ++ [("Content-Length", pretty (String.length b'))])
        else (None, headers)
    | None => (None, headers)
    end in
  let req := mk_http (method cfg) url' (timeout cfg) body' headers' in
  modify (fun out => out ++ [req]) >>
  outcome (http req).

(** The webhook as one of the notifiers. *)
Definition notifier (cfg : Config) : Notifier.t (list HttpRequest) :=
  Notifier.mk "WebHook" (enabled cfg) (_send cfg).

End Http.

End WebHook.

(** ** notifiers/__init__.py *)

Module Notifiers.

Section Backend.

Context {B : Type}.

(** The five notifiers, in the order of the attributes of [Notifiers]. *)
Record t : Type := mk {
  push_safer : Notifier.t B;
  smtp : Notifier.t B;
  ifttt : Notifier.t B;
  webhook : Notifier.t B;
  telegram : Notifier.t B
}.

(** [Notifiers.send] *)
Definition send (ns : t) (item : Item.t) : M (Notifier.world B) unit :=
  Notifier.send (push_safer ns) item >>
  Notifier.send (smtp ns) item >>
  Notifier.send (ifttt ns) item >>
  Notifier.send (webhook ns) item >>
  Notifier.send (telegram ns) item.

(** The notifiers in dispatch order. *)
Definition channels (ns : t) : list (Notifier.t B) :=
  [push_safer ns; smtp ns; ifttt ns; webhook ns; telegram ns].

End Backend.

Arguments t B : clear implicits.

End Notifiers.

(** ** Notions used to state the properties *)

Module Spec.

(** A rising edge: the count recorded before was exactly 0 and the new
    count is positive. *)
Definition rising_edge (recorded : option Z) (count : Z) : bool :=
  match recorded with
  | Some prior => (prior =? 0) && (0 <? count)
  | None => false
  end.

(** The count of the most recent observation of [id] among the earlier
    observations (oldest first), if there is one. *)
Fixpoint last_observed (id : string) (earlier : list Item.t) : option Z :=
  match earlier with
  | [] => None
  | item :: later =>
      match last_observed id later with
      | Some c => Some c
      | None =>
          if String.eqb (Item.item_id item) id
          then Some (Item.items_available item)
          else None
      end
  end.

(** The count on record for [id] right before an observation: that of its
    most recent earlier observation, else what the tracker started with. *)
Definition recorded_before (initial : gmap string Z) (earlier : list Item.t)
    (id : string) : option Z :=
  match last_observed id earlier with
  | Some c => Some c
  | None => initial !! id
  end.

(** Did a call of [_check_item] hand its item to [_send_messages]? *)
Definition notified (before after : Scanner.t) : bool :=
  negb (length (Scanner.sent after) =? length (Scanner.sent before))%nat.

(** A run of [Scanner._check_item] over successive observations, each with
    the behaviour of the collaborators during that call: for every step,
    whether it notified and how the call ended; and the final state. *)
Fixpoint check_items (obs : list (Scanner.effects * Item.t)) (s : Scanner.t)
  : list (bool * result unit) * Scanner.t :=
  match obs with
  | [] => ([], s)
  | (fx, item) :: rest =>
      let '(r, s1) := Scanner._check_item fx item s in
      let '(rs, s2) := check_items rest s1 in
      ((notified s s1, r) :: rs, s2)
  end.

(** The flags of a run of [_check_item]: was [_send_messages] called? *)
Definition notifications (obs : list (Scanner.effects * Item.t)) (s : Scanner.t)
  : list bool :=
  map fst (fst (check_items obs s)).

(** The requests for pages [first], [first + 1], ... [first + n - 1]. *)
Fixpoint page_requests (first : Z) (n : nat) : list (Z * Z) :=
  match n with
  | O => []
  | S n' => (Scanner.page_size, first) :: page_requests (first + 1) n'
  end.

(** The body posted by one polling attempt. *)
Definition polling_request (c : TgtgClient.t) (polling_id : string)
  : TgtgClient.Request :=
  TgtgClient.mk_request TgtgClient.AUTH_POLLING_ENDPOINT
    [("device_type", Some (TgtgClient.device_type c));
     ("email", TgtgClient.email c);
     ("request_polling_id", Some polling_id)].

(** The body posted when the email is submitted. *)
Definition email_request (c : TgtgClient.t) : TgtgClient.Request :=
  TgtgClient.mk_request TgtgClient.AUTH_BY_EMAIL_ENDPOINT
    [("device_type", Some (TgtgClient.device_type c));
     ("email", TgtgClient.email c)].

(** The body posted by a token refresh. *)
Definition refresh_request (c : TgtgClient.t) : TgtgClient.Request :=
  TgtgClient.mk_request TgtgClient.REFRESH_ENDPOINT
    [("refresh_token", TgtgClient.refresh_token c)].

(** The state after [k] polling attempts answered "still pending": [k]
    requests posted, each followed by a sleep of [polling_wait_time]. *)
Definition after_pending (k : nat) (polling_id : string) (s : TgtgClient.state)
  : TgtgClient.state :=
  let wait := TgtgClient.polling_wait_time (TgtgClient.self s) in
  TgtgClient.mk_state
    (TgtgClient.self s)
    (TgtgClient.clock s + Z.of_nat k * (wait * 1000000))
    (TgtgClient.requests s ++ repeat (polling_request (TgtgClient.self s) polling_id) k)
    (TgtgClient.sleeps s ++ repeat wait k)
    (TgtgClient.time_sleep s).

(** The state with one more request posted. *)
Definition posted (req : TgtgClient.Request) (s : TgtgClient.state) : TgtgClient.state :=
  TgtgClient.mk_state (TgtgClient.self s) (TgtgClient.clock s)
                      (TgtgClient.requests s ++ [req]) (TgtgClient.sleeps s)
                      (TgtgClient.time_sleep s).

(** The client once a login was confirmed at time [now]. *)
Definition logged_in (a r u : string) (now : Z) (c : TgtgClient.t) : TgtgClient.t :=
  TgtgClient.mk (TgtgClient.email c) (Some a) (Some r) (Some u) (Some now)
    (TgtgClient.access_token_lifetime c) (TgtgClient.max_polling_tries c)
    (TgtgClient.polling_wait_time c) (TgtgClient.device_type c).

(** The client once a refresh succeeded at time [now]. *)
Definition refreshed (a r : string) (now : Z) (c : TgtgClient.t) : TgtgClient.t :=
  TgtgClient.mk (TgtgClient.email c) (Some a) (Some r) (TgtgClient.user_id c) (Some now)
    (TgtgClient.access_token_lifetime c) (TgtgClient.max_polling_tries c)
    (TgtgClient.polling_wait_time c) (TgtgClient.device_type c).

(** The message of the error raised when polling is exhausted. *)
Definition max_retries_message (c : TgtgClient.t) : string :=
  "Max retries ("
  +:+ pretty (TgtgClient.max_polling_tries c * TgtgClient.polling_wait_time c)
  +:+ " seconds) reached. Try again.".

(** Elapsed time, in microseconds, since the last refresh. *)
Definition elapsed (s : TgtgClient.state) (last : Z) : Z := TgtgClient.clock s - last.

(** [response.json()["startup_data"]["user"]["user_id"]]: the user id, or
    the exception of the first subscript that fails. *)
Definition user_id_of (response : TgtgClient.Response) : result string :=
  match TgtgClient.json_startup_data response with
  | None => Raise (KeyError "startup_data")
  | Some TgtgClient.NotADict => Raise TypeError
  | Some (TgtgClient.Dict None) => Raise (KeyError "user")
  | Some (TgtgClient.Dict (Some TgtgClient.NotADict)) => Raise TypeError
  | Some (TgtgClient.Dict (Some (TgtgClient.Dict None))) => Raise (KeyError "user_id")
  | Some (TgtgClient.Dict (Some (TgtgClient.Dict (Some u)))) => Ok u
  end.

(** The backends after [_send] ran on each of the channels in turn,
    whatever each of them returned or raised. *)
Definition delivered {B} (channels : list (Notifier.t B)) (item : Item.t) (b : B) : B :=
  fold_left (fun b n => snd (Notifier._send n item b)) channels b.

(** The exceptions the [_send] of the channels raised on the way, in
    order. *)
Fixpoint raised {B} (channels : list (Notifier.t B)) (item : Item.t) (b : B) : list exn :=
  match channels with
  | [] => []
  | n :: rest =>
      match Notifier._send n item b with
      | (Ok _, b') => raised rest item b'
      | (Raise e, b') => e :: raised rest item b'
      end
  end.

(** [Notifier.send] on each channel of a list in turn. *)
Fixpoint send_each {B} (channels : list (Notifier.t B)) (item : Item.t)
  : M (Notifier.world B) unit :=
  match channels with
  | [] => ret tt
  | n :: rest => Notifier.send n item >> send_each rest item
  end.

End Spec.

(** Templates as the operator writes them: literal text and placeholders. *)

Module Template.

Inductive segment : Type :=
| Text (s : string)
| Hole (name : string).

Definition t : Type := list segment.

(** The template as a string. *)
Fixpoint show (tpl : t) : string :=
  match tpl with
  | [] => ""
  | Text s :: rest => s +:+ show rest
  | Hole name :: rest => Py.placeholder name +:+ show rest
  end.

(** One pass over the template: every placeholder that names an attribute
    of the item gives way to the value of the attribute, every other piece
    stays as it is. *)
Fixpoint fill (item : Item.t) (tpl : t) : string :=
  match tpl with
  | [] => ""
  | Text s :: rest => s +:+ fill item rest
  | Hole name :: rest =>
      default (Py.placeholder name) (Item.getattr_str item name) +:+ fill item rest
  end.

(** The placeholder names, in order. *)
Fixpoint holes (tpl : t) : list string :=
  match tpl with
  | [] => []
  | Text _ :: rest => holes rest
  | Hole name :: rest => name :: holes rest
  end.

Fixpoint dollar_free (s : string) : bool :=
  match s with
  | "" => true
  | String c s' => negb (Ascii.eqb c "$") && dollar_free s'
  end.

Fixpoint all_word (s : string) : bool :=
  match s with
  | "" => true
  | String c s' => Py.is_word_char c && all_word s'
  end.

(** A placeholder name: one or more word characters. *)
Definition is_name (s : string) : bool :=
  match s with
  | "" => false
  | _ => all_word s
  end.

Definition segment_ok (sg : segment) : bool :=
  match sg with
  | Text s => dollar_free s
  | Hole name => is_name name
  end.

(** A template whose every [$] starts a placeholder. *)
Definition well_formed (tpl : t) : bool := forallb segment_ok tpl.

(** An item none of whose printed attributes contains a [$]. *)
Definition plain (item : Item.t) : Prop :=
  forall name v, Item.getattr_str item name = Some v -> dollar_free v = true.

(** The template after the placeholder [name] was replaced by [v]. *)
Definition subst (name v : string) (tpl : t) : t :=
  map (fun sg =>
         match sg with
         | Hole m => if String.eqb m name then Text v else Hole m
         | Text s => Text s
         end) tpl.

(** One round of the substitution loop, on templates. *)
Definition step (item : Item.t) (tpl : t) (name : string) : t :=
  match Item.getattr_str item name with
  | Some v => subst name v tpl
  | None => tpl
  end.

Definition hole_match (name : string) : Py.Match :=
  Py.mk_match (Py.placeholder name) name.

(** The request [WebHook._send] is expected to make for the URL template
    [url] and the optional body template [body]. *)
Definition request (cfg : WebHook.Config) (item : Item.t) (url : t) (body : option t)
  : WebHook.HttpRequest :=
  WebHook.mk_http (WebHook.method cfg) (fill item url) (WebHook.timeout cfg)
    (fill item <$> body)
    (("Content-Type", WebHook.type cfg)
     :: match body with
        | Some b => [("Content-Length", pretty (String.length (fill item b)))]
        | None => []
        end).

End Template.

(** ** Concrete data for the examples *)

Module Examples.

Definition bakery (count : Z) : Item.t :=
  Item.mk "A" count "Bakery" "3.5" "EUR" "undefined" (fun _ => None).

Definition bakery_counts (counts : list Z) : list (Scanner.effects * Item.t) :=
  map (fun c => (Scanner.quiet, bakery c)) counts.

Definition dispatch_fails : Scanner.effects :=
  Scanner.mk_effects (Some (ExternalError "notifiers")) None None.

Definition bakery_seen_empty : Scanner.t :=
  Scanner.set_amounts (insert "A" 0) Scanner.init.

(** A favorites listing of 240 records: two full pages and one of 40;
    any further request raises. *)
Definition listing_240 (n : nat) (page_size page : Z) : result (list nat) :=
  match n with
  | 0%nat => Ok (seq 0 100)
  | 1%nat => Ok (seq 100 100)
  | 2%nat => Ok (seq 200 40)
  | _ => Raise (ExternalError "unexpected request")
  end.

(** A provider whose listing endpoint always fails. *)
Definition listing_down (n : nat) (page_size page : Z) : result (list nat) :=
  Raise (TgtgAPIError [AInt 500; AStr "Internal Server Error"]).

(** Provider responses. *)
Definition pending : TgtgClient.Response :=
  TgtgClient.mk_response 202 "" None None None None None.

Definition confirmed : TgtgClient.Response :=
  TgtgClient.mk_response 200 "" None None (Some "access-1") (Some "refresh-1")
                         (TgtgClient.startup_data "user-1").

Definition terms : TgtgClient.Response :=
  TgtgClient.mk_response 200 "" (Some "TERMS") None None None None.

Definition too_many_requests : TgtgClient.Response :=
  TgtgClient.mk_response 429 "slow down" None None None None None.

Definition wait_for_mail : TgtgClient.Response :=
  TgtgClient.mk_response 200 "" (Some "WAIT") (Some "poll-1") None None None.

Definition always (r : TgtgClient.Response) (n : nat) : TgtgClient.Response := r.

(** Pending on the first attempt, confirmed on the second. *)
Definition confirmed_on_second (n : nat) : TgtgClient.Response :=
  match n with
  | 0%nat => pending
  | _ => confirmed
  end.

(** A client that only knows its email: three polling attempts, no wait. *)
Definition email_only : TgtgClient.t :=
  TgtgClient.mk (Some "me@example.org") None None None None 14400 3 0 "ANDROID".

(** A client with nothing at all. *)
Definition nothing : TgtgClient.t :=
  TgtgClient.mk None None None None None 14400 24 5 "ANDROID".

(** A credentialed client whose tokens were refreshed at time 0. *)
Definition credentialed : TgtgClient.t :=
  TgtgClient.mk None (Some "access-0") (Some "refresh-0") (Some "user-0") (Some 0)
                14400 24 5 "ANDROID".

(** A platform whose [time.sleep] holds durations of up to 2^63
    nanoseconds. *)
Definition clock_limit (seconds : Z) : option exn :=
  if 9223372036 <? seconds then Some (ExternalError "OverflowError") else None.

Definition at_time (c : TgtgClient.t) (now : Z) : TgtgClient.state :=
  TgtgClient.mk_state c now [] [] clock_limit.

(** One day and ten seconds, in microseconds. *)
Definition a_day_and_ten_seconds : Z := (86400 + 10) * 1000000.

(** Notifiers over a backend that counts deliveries: one that delivers
    and one whose [_send] raises. *)
Definition delivering (name : string) (enabled : bool) : Notifier.t nat :=
  Notifier.mk name enabled (fun _ n => (Ok tt, S n)).

Definition failing (name : string) (enabled : bool) : Notifier.t nat :=
  Notifier.mk name enabled (fun _ n => (Raise (ExternalError name), n)).

(** Four enabled channels, of which the mail one fails, and a disabled one. *)
Definition one_failing : Notifiers.t nat :=
  Notifiers.mk (delivering "PushSafer" true) (failing "SMTP" true)
               (delivering "IFTTT" false) (delivering "WebHook" true)
               (delivering "Telegram" true).

(** A store whose display name happens to read like a placeholder. *)
Definition odd_name : Item.t :=
  Item.mk "A" 3 "${{items_available}}" "3.5" "EUR" "undefined" (fun _ => None).

Definition name_and_count : Template.t :=
  [Template.Hole "display_name"; Template.Text ": "; Template.Hole "items_available"].

Definition hook (body : option string) : WebHook.Config :=
  WebHook.mk_config true (Some "https://example.org/hook") "POST" body "text/plain" 60.

Definition bogus_hook : WebHook.Config :=
  WebHook.mk_config true (Some "https://example.org/${{bogus}}") "POST"
                    (Some "${{display_name}}") "text/plain" 60.

(** An enabled webhook with a URL and nothing else set: the body keeps its
    default, [None]. *)
Definition bogus_url_only : WebHook.Config :=
  WebHook.mk_config true (Some "https://example.org/${{bogus}}") "GET" None "text/plain" 60.

Definition url_only : WebHook.Config :=
  WebHook.mk_config true (Some "https://example.org/${{display_name}}") "GET" None
                    "text/plain" 60.

Definition reachable (req : WebHook.HttpRequest) : option exn := None.

End Examples.

(** ** Further notions for the tracker and the page loops *)

Module Trace.

(** Does the [try] block of [_check_item] run to its end?  On a rising edge
    it calls the notifiers and both metrics, otherwise the gauge only. *)
Definition try_block_returns (fx : Scanner.effects) (edge : bool) : bool :=
  (if edge
   then bool_decide (Scanner.send_messages_raises fx = None)
        && bool_decide (Scanner.send_notifications_inc_raises fx = None)
   else true)
  && bool_decide (Scanner.item_count_set_raises fx = None).

(** Is a "new amount" line due?  The item had a count on record, the new
    count differs, and the [try] block ran to its end. *)
Definition new_amount_due (fx : Scanner.effects) (recorded : option Z) (count : Z) : bool :=
  match recorded with
  | Some prior =>
      negb (prior =? count) && try_block_returns fx (Spec.rising_edge recorded count)
  | None => false
  end.

(** An exception other than the [KeyError] of a missing key. *)
Definition not_KeyError (e : exn) : Prop := forall key, e <> KeyError key.

(** The state with the clock moved by a number of whole days. *)
Definition days_later (days : Z) (s : TgtgClient.state) : TgtgClient.state :=
  TgtgClient.mk_state (TgtgClient.self s) (TgtgClient.clock s + days * 86400000000)
                      (TgtgClient.requests s) (TgtgClient.sleeps s)
                      (TgtgClient.time_sleep s).

Section Pages.

Context {Data : Type}.
Variable get_items : nat -> Z -> Z -> result (list Data).

(** The answers to a run of [get_items] calls, the first of which is the
    [n]-th call made. *)
Fixpoint answers (n : nat) (calls : list (Z * Z)) : list (result (list Data)) :=
  match calls with
  | [] => []
  | (size, page) :: rest => get_items n size page :: answers (S n) rest
  end.

(** The records of the answers that are not exceptions, in order. *)
Fixpoint fetched (ans : list (result (list Data))) : list Data :=
  match ans with
  | [] => []
  | Ok records :: rest => records ++ fetched rest
  | Raise _ :: rest => fetched rest
  end.

(** The number of answers that are exceptions. *)
Fixpoint failures (ans : list (result (list Data))) : Z :=
  match ans with
  | [] => 0
  | Ok _ :: rest => failures rest
  | Raise _ :: rest => 1 + failures rest
  end.

(** The pages a loop asks for when it starts at [page], moves on after an
    answer and stays after an exception. *)
Fixpoint pages_retrying (page : Z) (ans : list (result (list Data))) : list Z :=
  match ans with
  | [] => []
  | a :: rest => page :: pages_retrying (if is_Ok a then page + 1 else page) rest
  end.

End Pages.

End Trace.

(** ** helper.py *)

Module Helper.

Section Favorites.

Context {Data : Type}.
Variable get_items : nat -> Z -> Z -> result (list Data).

(** The body of the [while True] loop of [Helper.favorites], with its
    [finally: page += 1]; the error is logged and dropped.  [None]: the
    loop goes on; [Some items]: it was left by [break]. *)
Definition loop_body (items : list Data) (page : Z)
  : M Scanner.t (list Data * Z * Scanner.flow) :=
  fun s =>
    let answer := get_items (length (Scanner.get_items_calls s)) Scanner.page_size page in
    let s1 := Scanner.add_get_items_call (Scanner.page_size, page) s in
    match answer with
    | Ok new_items =>
        if Z.of_nat (length new_items) <? Scanner.page_size
        then (Ok (items ++ new_items, page + 1, Scanner.Break), s1)
        else (Ok (items ++ new_items, page + 1, Scanner.Continue), s1)
    | Raise _ => (Ok (items, page + 1, Scanner.Continue), s1)
    end.

(** [while True: ...; return items], with fuel: the loop has no bound of
    its own. *)
Fixpoint loop (fuel : nat) (items : list Data) (page : Z)
  : M Scanner.t (option (list Data)) :=
  match fuel with
  | O => ret None
  | S fuel' =>
      let! step := loop_body items page in
      match step with
      | (items', _, Scanner.Break) => ret (Some items')
      | (items', page', Scanner.Continue) => loop fuel' items' page'
      end
  end.

(** [Helper.favorites] *)
Definition favorites (fuel : nat) : M Scanner.t (option (list Data)) :=
  loop fuel [] 1.

End Favorites.

(** The helper while it edits the favorites: the scanner it extends and
    the [(item_id, is_favorite)] arguments of the [set_favorite] calls made
    on the client. *)
Record state : Type := mk_state {
  scanner : Scanner.t;
  set_favorite_calls : list (string * bool)
}.

Section Removal.

Context {Data : Type}.

(** The client seen from the helper: the answers to the [n]-th [get_items]
    and to the [n]-th [set_favorite] call; and [item["item"]["item_id"]]
    of a record, a [KeyError] when a key is absent. *)
Variable get_items : nat -> Z -> Z -> result (list Data).
Variable tgtg_client_set_favorite : nat -> string -> bool -> result unit.
Variable item_id_of : Data -> result string.

Definition call_set_favorite (item_id : string) (is_favorite : bool) : M state unit :=
  fun s =>
    (tgtg_client_set_favorite (length (set_favorite_calls s)) item_id is_favorite,
     mk_state (scanner s) (set_favorite_calls s ++ [(item_id, is_favorite)])).

(** [Helper.set_favorite] *)
Definition set_favorite (item_id : string) : M state unit :=
  call_set_favorite item_id true.

(** [Helper.unset_favorite] *)
Definition unset_favorite (item_id : string) : M state unit :=
  call_set_favorite item_id false.

(** [[item["item"]["item_id"] for item in records]] *)
Fixpoint item_ids_of (records : list Data) : result (list string) :=
  match records with
  | [] => Ok []
  | item :: rest =>
      match item_id_of item with
      | Ok item_id =>
          match item_ids_of rest with
          | Ok ids => Ok (item_id :: ids)
          | Raise e => Raise e
          end
      | Raise e => Raise e
      end
  end.

(** [for item_id in item_ids: self.unset_favorite(item_id)] *)
Fixpoint unset_each (item_ids : list string) : M state unit :=
  match item_ids with
  | [] => ret tt
  | item_id :: rest => unset_favorite item_id >> unset_each rest
  end.

(** [Helper.remove_all_favorites]; the fuel is that of [favorites]. *)
Definition remove_all_favorites (fuel : nat) : M state (option unit) :=
  fun s =>
    match favorites get_items fuel (scanner s) with
    | (Ok (Some records), sc) =>
        match item_ids_of records with
        | Ok item_ids =>
            (unset_each item_ids >> ret (Some tt)) (mk_state sc (set_favorite_calls s))
        | Raise e => (Raise e, mk_state sc (set_favorite_calls s))
        end
    | (Ok None, sc) => (Ok None, mk_state sc (set_favorite_calls s))
    | (Raise e, sc) => (Raise e, mk_state sc (set_favorite_calls s))
    end.

End Removal.

End Helper.

(** ** tgtg.py: the item operations *)

Module Api.

(** The values of the JSON bodies the item operations post. *)
Inductive jvalue : Type :=
| JNull
| JStr (s : string)
| JInt (n : Z)
| JBool (b : bool)
| JFloat (printed : string)
| JStrings (l : list string)
| JOrigin (latitude longitude : string).

(** The value as the request log keeps it: [None] for [null], the text of
    the value otherwise. *)
Definition print (v : jvalue) : option string :=
  match v with
  | JNull => None
  | JStr s => Some s
  | JInt n => Some (pretty n)
  | JBool true => Some "true"
  | JBool false => Some "false"
  | JFloat printed => Some printed
  | JStrings l => Some ("[" +:+ String.concat "," l +:+ "]")
  | JOrigin latitude longitude =>
      Some ("{latitude: " +:+ latitude +:+ ", longitude: " +:+ longitude +:+ "}")
  end.

Definition of_option (o : option string) : jvalue :=
  match o with Some s => JStr s | None => JNull end.

(** The keyword arguments of [get_items]; floats are kept as printed. *)
Record Filter : Type := mk_filter {
  latitude : string;
  longitude : string;
  radius : Z;
  page_size : Z;
  page : Z;
  discover : bool;
  favorites_only : bool;
  item_categories : option (list string);
  diet_categories : option (list string);
  pickup_earliest : option string;
  pickup_latest : option string;
  search_phrase : option string;
  with_stock_only : bool;
  hidden_only : bool;
  we_care_only : bool
}.

(** The defaults of the signature. *)
Definition defaults : Filter :=
  mk_filter "0.0" "0.0" 21 20 1 false true None None None None None false false false.

(** [get_items(favorites_only=True, page_size=.., page=..)], as the scanner
    calls it. *)
Definition favorites_page (page_size page : Z) : Filter :=
  mk_filter "0.0" "0.0" 21 page_size page false true None None None None None
            false false false.

(** The [data] dictionary of [get_items], in the order of the source. *)
Definition get_items_data (c : TgtgClient.t) (f : Filter) : list (string * jvalue) :=
  [("user_id", of_option (TgtgClient.user_id c));
   ("origin", JOrigin (latitude f) (longitude f));
   ("radius", JInt (radius f));
   ("page_size", JInt (page_size f));
   ("page", JInt (page f));
   ("discover", JBool (discover f));
   ("favorites_only", JBool (favorites_only f));
   ("item_categories", JStrings (default [] (item_categories f)));
   ("diet_categories", JStrings (default [] (diet_categories f)));
   ("pickup_earliest", of_option (pickup_earliest f));
   ("pickup_latest", of_option (pickup_latest f));
   ("search_phrase", of_option (search_phrase f));
   ("with_stock_only", JBool (with_stock_only f));
   ("hidden_only", JBool (hidden_only f));
   ("we_care_only", JBool (we_care_only f))].

Definition body (data : list (string * jvalue)) : list (string * option string) :=
  map (fun kv => (fst kv, print (snd kv))) data.

Definition SIGNUP_BY_EMAIL_ENDPOINT : string := "auth/v3/signUpByEmail".

(** The keys of the [login_response] of a signup answer that the client
    reads ([None]: the key is absent; [login_user_id] is
    [["startup_data"]["user"]["user_id"]]). *)
Record LoginResponse : Type := mk_login_response {
  login_access_token : option string;
  login_refresh_token : option string;
  login_user_id : option string
}.

Section Server.

(** The item records ([dict]) of the API. *)
Context {Data : Type}.

Variable server : nat -> TgtgClient.Response.

(** [response.json()["items"]], [None] when the key is absent, and
    [response.json()] of an item lookup. *)
Variable json_items : TgtgClient.Response -> option (list Data).
Variable json_item : TgtgClient.Response -> Data.

(** [urljoin(self._get_url(API_ITEM_ENDPOINT), path)] for the base URL of
    the client; [item_url ""] is the endpoint itself. *)
Variable item_url : string -> string.

(** [response.json()["login_response"]] of a signup answer, [None] when
    the key is absent. *)
Variable json_login_response : TgtgClient.Response -> option LoginResponse.

Definition login_response_of (response : TgtgClient.Response)
  : M TgtgClient.state LoginResponse :=
  match json_login_response response with
  | Some l => ret l
  | None => raise (KeyError "login_response")
  end.

Definition api_error {A} (response : TgtgClient.Response) : M TgtgClient.state A :=
  raise (TgtgAPIError [AInt (TgtgClient.status_code response);
                       AStr (TgtgClient.content response)]).

(** [TgtgClient.get_items] *)
Definition get_items (f : Filter) : M TgtgClient.state (list Data) :=
  TgtgClient.login server >>
  let! s := get in
  let! response :=
    TgtgClient._request server (item_url "")
                        (body (get_items_data (TgtgClient.self s) f)) in
  if TgtgClient.status_code response =? TgtgClient.OK
  then match json_items response with
       | Some items => ret items
       | None => raise (KeyError "items")
       end
  else api_error response.

(** [TgtgClient.get_item] *)
Definition get_item (item_id : string) : M TgtgClient.state Data :=
  TgtgClient.login server >>
  let! s := get in
  let! response :=
    TgtgClient._request server (item_url item_id)
                        [("user_id", TgtgClient.user_id (TgtgClient.self s));
                         ("origin", None)] in
  if TgtgClient.status_code response =? TgtgClient.OK
  then ret (json_item response)
  else api_error response.

(** [TgtgClient.set_favorite] *)
Definition set_favorite (item_id : string) (is_favorite : bool)
  : M TgtgClient.state unit :=
  TgtgClient.login server >>
  let! response :=
    TgtgClient._request server (item_url (item_id +:+ "/setFavorite"))
                        [("is_favorite", print (JBool is_favorite))] in
  if negb (TgtgClient.status_code response =? TgtgClient.OK)
  then api_error response
  else ret tt.

(** [TgtgClient.credentials]: access token, refresh token, user id. *)
Definition credentials
  : M TgtgClient.state (option string * option string * option string) :=
  TgtgClient.login server >>
  let! s := get in
  ret (TgtgClient.access_token (TgtgClient.self s),
       TgtgClient.refresh_token (TgtgClient.self s),
       TgtgClient.user_id (TgtgClient.self s)).

(** [TgtgClient.signup_by_email]; it returns [self]. *)
Definition signup_by_email (email name country_id : string)
    (newsletter_opt_in push_notification_opt_in : bool) : M TgtgClient.state unit :=
  let! s := get in
  let! response :=
    TgtgClient._request server SIGNUP_BY_EMAIL_ENDPOINT
      [("country_id", Some country_id);
       ("device_type", Some (TgtgClient.device_type (TgtgClient.self s)));
       ("email", Some email);
       ("name", Some name);
       ("newsletter_opt_in", print (JBool newsletter_opt_in));
       ("push_notification_opt_in", print (JBool push_notification_opt_in))] in
  if TgtgClient.status_code response =? TgtgClient.OK
  then
    let! l := login_response_of response in
    let! a := TgtgClient.getitem "access_token" (login_access_token l) in
    modify (TgtgClient.set_self (TgtgClient.set_access_token a)) >>
    let! l := login_response_of response in
    let! r := TgtgClient.getitem "refresh_token" (login_refresh_token l) in
    modify (TgtgClient.set_self (TgtgClient.set_refresh_token r)) >>
    let! s' := get in
    modify (TgtgClient.set_self
              (TgtgClient.set_last_time_token_refreshed (TgtgClient.clock s'))) >>
    let! l := login_response_of response in
    let! u := TgtgClient.getitem "user_id" (login_user_id l) in
    modify (TgtgClient.set_self (TgtgClient.set_user_id u))
  else api_error response.

End Server.

End Api.

(** ** scanner.py: one round of the application loop *)

Module Job.

(** [access_token], [refresh_token], [user_id] *)
Definition Credentials : Type := (option string * option string * option string)%type.

(** The scanner during [_job], with the trace of what the job calls
    besides: the ids handed to [tgtg_client.get_item], the items handed to
    [_check_item] and the credentials handed to [config.save_tokens]. *)
Record state : Type := mk_state {
  scanner : Scanner.t;
  get_item_calls : list string;
  checked : list Item.t;
  saved : list Credentials
}.

Definition set_scanner (sc : Scanner.t) (s : state) : state :=
  mk_state sc (get_item_calls s) (checked s) (saved s).

Definition add_get_item_call (item_id : string) (s : state) : state :=
  mk_state (scanner s) (get_item_calls s ++ [item_id]) (checked s) (saved s).

Definition add_checked (item : Item.t) (s : state) : state :=
  mk_state (scanner s) (get_item_calls s) (checked s ++ [item]) (saved s).

Definition add_saved (c : Credentials) (s : state) : state :=
  mk_state (scanner s) (get_item_calls s) (checked s) (saved s ++ [c]).

(** A method of the scanner, run on the scanner of the job. *)
Definition lift {A} (m : M Scanner.t A) : M state A :=
  fun s => let '(r, sc) := m (scanner s) in (r, set_scanner sc s).

(** [for x in xs: body(x)] *)
Fixpoint for_each {A} (xs : list A) (body : A -> M state unit) : M state unit :=
  match xs with
  | [] => ret tt
  | x :: rest => body x >> for_each rest body
  end.

(** The number of calls the job has made to the API client. *)
Definition api_calls (s : state) : nat :=
  (length (get_item_calls s) + length (Scanner.get_items_calls (scanner s)))%nat.

Section Job.

(** The raw item records ([dict]) returned by the API. *)
Context {Data : Type}.

(** The collaborators, seen from the scanner: the answer of the client to
    the [n]-th [get_item] call and to the [n]-th [get_items] call (counted
    from 0), a record or an exception; [Item(data)], which raises when the
    record lacks a key; what the notifiers and the metrics do during the
    [n]-th call of [_check_item]; and the credentials the client holds
    after its [n]-th call. *)
Variable get_item : nat -> string -> result Data.
Variable get_items : nat -> Z -> Z -> result (list Data).
Variable new_item : Data -> result Item.t.
Variable fx : nat -> Scanner.effects.
Variable client_credentials : nat -> Credentials.

(** [self.tgtg_client.get_item(item_id)] *)
Definition tgtg_client_get_item (item_id : string) : M state Data :=
  fun s => (get_item (length (get_item_calls s)) item_id, add_get_item_call item_id s).

(** [Item(data)] *)
Definition Item (data : Data) : M state Item.t :=
  fun s => (new_item data, s).

(** [self._check_item(item)] *)
Definition _check_item (item : Item.t) : M state unit :=
  fun s => lift (Scanner._check_item (fx (length (checked s))) item) (add_checked item s).

(** [self.config.save_tokens(...)] with the credentials of the client;
    both halves of [save_tokens] catch what they raise. *)
Definition save_tokens : M state unit :=
  fun s => (Ok tt, add_saved (client_credentials (api_calls s)) s).

(** [Scanner._job] for the given [self.item_ids]; the fuel is that of
    [_get_favorites], [None] when it runs out. *)
Definition _job (fuel : nat) (item_ids : list string) : M state (option unit) :=
  for_each item_ids
    (fun item_id =>
       try_except
         (if negb (String.eqb item_id "")
          then let! data := tgtg_client_get_item item_id in
               let! item := Item data in
               _check_item item
          else ret tt)
         (fun _ => ret tt)) >>
  let! favorites := lift (Scanner._get_favorites get_items fuel) in
  match favorites with
  | None => ret None
  | Some records =>
      for_each records
        (fun data =>
           try_except
             (let! item := Item data in _check_item item)
             (fun _ => ret tt)) >>
      save_tokens >>
      ret (Some tt)
  end.





End Job.

End Job.

(** ** models/config.py: the token store *)

Module Config.

(** [os.path.join(a, b)] on a POSIX system. *)
Fixpoint ends_with_slash (s : string) : bool :=
  match s with
  | EmptyString => false
  | String c EmptyString => Ascii.eqb c "/"
  | String _ rest => ends_with_slash rest
  end.

Definition starts_with_slash (s : string) : bool :=
  match s with
  | String c _ => Ascii.eqb c "/"
  | EmptyString => false
  end.

Definition path_join (a b : string) : string :=
  if starts_with_slash b then b
  else if negb (Py.truthy a) || ends_with_slash a then a +:+ b
  else a +:+ "/" +:+ b.

(** What reading a file in text mode makes of its content: a carriage
    return, with the line feed that follows it when there is one, comes back
    as one line feed.  (Writing in text mode changes nothing on a POSIX
    system.) *)
Fixpoint universal_newlines (s : string) : string :=
  match s with
  | EmptyString => EmptyString
  | String c rest =>
      if Ascii.eqb c "013"
      then match rest with
           | String c' rest' =>
               if Ascii.eqb c' "010"
               then String "010" (universal_newlines rest')
               else String "010" (universal_newlines rest)
           | EmptyString => String "010" EmptyString
           end
      else String c (universal_newlines rest)
  end.

(** No carriage return in the text. *)
Fixpoint cr_free (s : string) : bool :=
  match s with
  | EmptyString => true
  | String c rest => negb (Ascii.eqb c "013") && cr_free rest
  end.

(** The attributes of [Config] that the token store reads or writes:
    [_file], [_token_path], and the credentials of [tgtg]. *)
Record t : Type := mk {
  _file : option string;
  _token_path : option string;
  access_token : option string;
  refresh_token : option string;
  user_id : option string
}.

(** The configuration and the files on disk, by path: distinct paths are
    distinct files (no links between the token files). *)
Record world : Type := mk_world {
  self : t;
  disk : gmap string string
}.

Definition set_self (f : t -> t) (w : world) : world := mk_world (f (self w)) (disk w).

Definition set_disk (f : gmap string string -> gmap string string) (w : world) : world :=
  mk_world (self w) (f (disk w)).

Definition set_access_token (v : string) (c : t) : t :=
  mk (_file c) (_token_path c) (Some v) (refresh_token c) (user_id c).

Definition set_refresh_token (v : string) (c : t) : t :=
  mk (_file c) (_token_path c) (access_token c) (Some v) (user_id c).

Definition set_user_id (v : string) (c : t) : t :=
  mk (_file c) (_token_path c) (access_token c) (refresh_token c) (Some v).

Section Files.

(** The paths [open] refuses (missing directory, permissions), and the
    texts the encoding of the files can hold. *)
Variable denied : string -> bool.
Variable encodable : string -> bool.

(** The [configparser] half of [save_tokens]: it rewrites [config.ini] and
    may raise. *)
Variable ini_save :
  string -> option string -> option string -> option string
  -> M (gmap string string) unit.

(** An action on the files, run on the disk of the world. *)
Definition on_disk {A} (m : M (gmap string string) A) : M world A :=
  fun w => let '(r, d) := m (disk w) in (r, mk_world (self w) d).

(** [with open(path, 'r') as f: f.read()], in text mode. *)
Definition read_file (path : string) : M world string :=
  fun w =>
    if denied path then (Raise (ExternalError "PermissionError"), w)
    else match disk w !! path with
         | Some text => (Ok (universal_newlines text), w)
         | None => (Raise (ExternalError "FileNotFoundError"), w)
         end.

(** [with open(path, 'w') as f: f.write(data)]: opening truncates the
    file; writing [None] raises [TypeError] and writing a text the encoding
    cannot hold raises [UnicodeEncodeError], both with the file left
    empty. *)
Definition write_file (path : string) (data : option string) : M world unit :=
  fun w =>
    if denied path then (Raise (ExternalError "PermissionError"), w)
    else match data with
         | Some text =>
             if encodable text
             then (Ok tt, set_disk (insert path text) w)
             else (Raise (ExternalError "UnicodeEncodeError"),
                   set_disk (insert path "") w)
         | None => (Raise TypeError, set_disk (insert path "") w)
         end.

(** [Config._load_tokens] *)
Definition _load_tokens : M world unit :=
  let! w := get in
  match _token_path (self w) with
  | Some token_path =>
      if Py.truthy token_path
      then try_except
             (let! a := read_file (path_join token_path "accessToken") in
              modify (set_self (set_access_token a)) >>
              let! r := read_file (path_join token_path "refreshToken") in
              modify (set_self (set_refresh_token r)) >>
              let! u := read_file (path_join token_path "userID") in
              modify (set_self (set_user_id u)))
             (fun _ => ret tt)
      else ret tt
  | None => ret tt
  end.

(** [Config.save_tokens] *)
Definition save_tokens (access_token refresh_token user_id : option string)
  : M world unit :=
  let! w := get in
  (match _file (self w) with
   | Some file =>
       if Py.truthy file
       then try_except (on_disk (ini_save file access_token refresh_token user_id))
                       (fun _ => ret tt)
       else ret tt
   | None => ret tt
   end) >>
  let! w := get in
  match _token_path (self w) with
  | Some token_path =>
      if Py.truthy token_path
      then try_except
             (write_file (path_join token_path "accessToken") access_token >>
              write_file (path_join token_path "refreshToken") refresh_token >>
              write_file (path_join token_path "userID") user_id)
             (fun _ => ret tt)
      else ret tt
  | None => ret tt
  end.

End Files.

End Config.

(** ** models/item.py: the pickup label *)

Module Pickup.

(** A local [datetime] as far as [pickupdate] reads it: the day number of
    its date ([date().toordinal()]; two dates are equal exactly when their
    day numbers are, and their difference in days is that of the day
    numbers) and the [month], [day], [hour] and [minute] fields. *)
Record datetime : Type := mk {
  ordinal : Z;
  month : Z;
  day : Z;
  hour : Z;
  minute : Z
}.

(** ["%02d" % n] *)
Definition fmt_02d (n : Z) : string :=
  let s := pretty n in
  if (String.length s <? 2)%nat then "0" +:+ s else s.

(** The local [prange] of [pickupdate]. *)
Definition prange (pfrom pto : datetime) : string :=
  fmt_02d (hour pfrom) +:+ ":" +:+ fmt_02d (minute pfrom) +:+ " - "
  +:+ fmt_02d (hour pto) +:+ ":" +:+ fmt_02d (minute pto).

(** [Item.pickupdate] at local time [now]; [interval] is
    [(interval_start, interval_end)] when the item has them. *)
Definition pickupdate (now : datetime) (interval : option (datetime * datetime)) : string :=
  match interval with
  | Some (pfrom, pto) =>
      if ordinal now =? ordinal pfrom
      then "Today, " +:+ prange pfrom pto
      else if ordinal pfrom - ordinal now =? 1
      then "Tomorrow, " +:+ prange pfrom pto
      else pretty (day pfrom) +:+ "/" +:+ pretty (month pfrom) +:+ ", " +:+ prange pfrom pto
  | None => "undefined"
  end.

(** Clock fields in their ranges. *)
Definition on_the_clock (d : datetime) : Prop :=
  0 <= hour d < 24 /\ 0 <= minute d < 60.

End Pickup.

(** ** Concrete data for further examples *)

Module MoreExamples.

(** A listing whose second page cannot be fetched: 100 records, an error,
    then 40 records. *)
Definition listing_gap (n : nat) (page_size page : Z) : result (list nat) :=
  match n with
  | 0%nat => Ok (seq 0 100)
  | 1%nat => Raise (TgtgAPIError [AInt 502; AStr "Bad Gateway"])
  | _ => Ok (seq 200 40)
  end.

(** A provider for the whole login by email: the email is accepted, the
    first polling attempt is pending, the second is confirmed. *)
Definition mail_login (n : nat) : TgtgClient.Response :=
  match n with
  | 0%nat => Examples.wait_for_mail
  | 1%nat => Examples.pending
  | _ => Examples.confirmed
  end.

(** The email is accepted and the login confirmed at once, by an answer
    whose startup data is [null]. *)
Definition mail_login_null_startup (n : nat) : TgtgClient.Response :=
  match n with
  | 0%nat => Examples.wait_for_mail
  | _ => TgtgClient.mk_response 200 "" None None (Some "access-1") (Some "refresh-1")
                                (Some TgtgClient.NotADict)
  end.

Definition unavailable : TgtgClient.Response :=
  TgtgClient.mk_response 503 "Service Unavailable" None None None None None.

(** Pending once, then rate limited. *)
Definition pending_then_limited (n : nat) : TgtgClient.Response :=
  match n with
  | 0%nat => Examples.pending
  | _ => Examples.too_many_requests
  end.

(** A credentialed client with a token lifetime of two days. *)
Definition long_lived : TgtgClient.t :=
  TgtgClient.mk None (Some "access-0") (Some "refresh-0") (Some "user-0") (Some 0)
                172800 24 5 "ANDROID".

(** Three days, in microseconds. *)
Definition three_days : Z := 3 * 86400 * 1000000.

(** Five hours, in microseconds. *)
Definition five_hours : Z := 5 * 3600 * 1000000.

(** The decoded bodies of the item endpoint in the examples. *)
Definition no_items (r : TgtgClient.Response) : option (list nat) := Some [].
Definition no_item (r : TgtgClient.Response) : nat := 0%nat.
Definition item_path (path : string) : string := "item/v7/" +:+ path.

(** A job over two configured ids and one favorite: the first lookup
    fails, the second gives record 7; the favorites are the single record
    8; record 8 lacks a key, record 7 is the bakery with 3 items. *)
Definition lookup_second (n : nat) (item_id : string) : result nat :=
  match n with
  | 0%nat => Raise (TgtgAPIError [AInt 404; AStr "Not Found"])
  | _ => Ok 7%nat
  end.

Definition one_favorite (n : nat) (page_size page : Z) : result (list nat) := Ok [8%nat].

Definition item_of_record (data : nat) : result Item.t :=
  match data with
  | 7%nat => Ok (Examples.bakery 3)
  | _ => Raise (KeyError "display_name")
  end.

Definition stored : Job.Credentials := (Some "access-0", Some "refresh-0", Some "user-0").

Definition job_start : Job.state := Job.mk_state Scanner.init [] [] [].

(** A configuration from the environment with a token directory, on an
    empty disk where every path can be opened. *)
Definition from_environment : Config.world :=
  Config.mk_world (Config.mk None (Some "/tokens") None None None) ∅.

Definition open_disk (path : string) : bool := false.

Definition any_text (text : string) : bool := true.

Definition no_ini (file : string) (a r u : option string)
  : M (gmap string string) unit := ret tt.

(** A signup answer with its login response. *)
Definition signed_up : TgtgClient.Response :=
  TgtgClient.mk_response 200 "{...}" None None None None None.

Definition welcome (r : TgtgClient.Response) : option Api.LoginResponse :=
  Some (Api.mk_login_response (Some "access-1") (Some "refresh-1") (Some "user-1")).

(** Three favorites, records 1, 2 and 3 with ids "1", "2" and "3"; the
    second removal is refused. *)
Definition three_favorites (n : nat) (page_size page : Z) : result (list nat) :=
  Ok [1%nat; 2%nat; 3%nat].

Definition id_of_record (data : nat) : result string := Ok (pretty data).

Definition second_refused (n : nat) (item_id : string) (is_favorite : bool) : result unit :=
  match n with
  | 1%nat => Raise (TgtgAPIError [AInt 403; AStr "Forbidden"])
  | _ => Ok tt
  end.

Definition helper_start : Helper.state := Helper.mk_state Scanner.init [].

(** An evening pickup on the 5th of March, seen the day before. *)
Definition evening_start : Pickup.datetime := Pickup.mk 738950 3 5 18 0.
Definition evening_end : Pickup.datetime := Pickup.mk 738950 3 5 18 30.
Definition day_before : Pickup.datetime := Pickup.mk 738949 3 4 9 5.

End MoreExamples.

(** * Properties *)

Ltac unfold_monad :=
  unfold try_finally, try_except, bind, ret, raise, modify, get, outcome in *.

(** ** The item check of [scanner.py] *)

Section CheckItem.

Import Scanner.

(** One call of [_check_item], whatever the collaborators do: it returns,
    the count on record is the observed one, and [_send_messages] was
    called exactly on a rising edge. *)
Lemma check_item_run fx item s :
  exists s',
    _check_item fx item s = (Ok tt, s')
    /\ amounts s' = <[Item.item_id item := Item.items_available item]> (amounts s)
    /\ sent s' =
         (if Spec.rising_edge (amounts s !! Item.item_id item) (Item.items_available item)
          then sent s ++ [item] else sent s)
    /\ get_items_calls s' = get_items_calls s.
Proof.
  destruct fx as [o1 o2 o3], s as [am me se ca lo].
  unfold _check_item, _send_messages, send_notifications_inc,
    item_count_set, amounts_getitem, amounts_setitem, Spec.rising_edge.
  unfold_monad.
  cbn [amounts sent get_items_calls send_messages_raises
       send_notifications_inc_raises item_count_set_raises].
  generalize (Item.items_available item) (Item.item_id item); intros n id.
  destruct (am !! id) as [a|] eqn:Ha; cbn -[Z.eqb Z.gtb Z.ltb].
  2:{ rewrite lookup_insert_eq, Z.eqb_refl. cbn. eauto 10. }
  destruct (Z.eqb_spec a 0) as [->|Hne]; cbn -[Z.eqb Z.gtb Z.ltb].
  - rewrite Z.gtb_ltb.
    destruct (Z.ltb_spec 0 n) as [Hgt|Hle]; cbn -[Z.eqb Z.gtb Z.ltb].
    + destruct o1, o2, o3; cbn -[Z.eqb Z.gtb Z.ltb];
        rewrite ?lookup_insert_eq, ?Ha, ?Z.eqb_refl; cbn -[Z.eqb Z.gtb Z.ltb];
        try (destruct (Z.eqb_spec 0 n); [lia|]); cbn; eauto 10.
    + destruct o3; cbn -[Z.eqb Z.gtb Z.ltb];
        rewrite ?lookup_insert_eq, ?Ha, ?Z.eqb_refl; cbn -[Z.eqb Z.gtb Z.ltb].
      * eauto 10.
      * destruct (Z.eqb_spec 0 n) as [<-|]; cbn.
        -- rewrite insert_id; eauto 10.
        -- eauto 10.
  - destruct o3; cbn -[Z.eqb Z.gtb Z.ltb];
      rewrite ?lookup_insert_eq, ?Ha, ?Z.eqb_refl; cbn -[Z.eqb Z.gtb Z.ltb].
    + eauto 10.
    + destruct (Z.eqb_spec a n) as [<-|]; cbn.
      * rewrite insert_id; eauto 10.
      * eauto 10.
Qed.

Lemma notified_rising_edge fx item s :
  Spec.notified s (snd (_check_item fx item s))
  = Spec.rising_edge (amounts s !! Item.item_id item) (Item.items_available item).
Proof.
  destruct (check_item_run fx item s) as (s' & -> & _ & Hsent & _).
  unfold Spec.notified; cbn [snd]. rewrite Hsent.
  destruct (Spec.rising_edge _ _).
  - rewrite length_app; cbn [length].
    destruct (Nat.eqb_spec (length (sent s) + 1) (length (sent s))); [lia | reflexivity].
  - now rewrite Nat.eqb_refl.
Qed.

Lemma rising_edge_true recorded count :
  Spec.rising_edge recorded count = true <-> recorded = Some 0 /\ 0 < count.
Proof.
  unfold Spec.rising_edge. destruct recorded as [prior|].
  - rewrite andb_true_iff, Z.eqb_eq, Z.ltb_lt.
    split; [intros [-> ?]; auto | intros [[= ->] ?]; auto].
  - split; [discriminate | intros [[=] _]].
Qed.

(** Recording an observation first is the same as having it as the oldest
    earlier observation. *)
Lemma recorded_before_cons m item earlier id :
  Spec.recorded_before (<[Item.item_id item := Item.items_available item]> m) earlier id
  = Spec.recorded_before m (item :: earlier) id.
Proof.
  unfold Spec.recorded_before; cbn [Spec.last_observed].
  destruct (Spec.last_observed id earlier); [reflexivity|].
  destruct (String.eqb_spec (Item.item_id item) id) as [->|Hne].
  - apply lookup_insert_eq.
  - now apply lookup_insert_ne.
Qed.

Lemma notifications_lookup obs : forall s k fx item,
  obs !! k = Some (fx, item) ->
  Spec.notifications obs s !! k
  = Some (Spec.rising_edge
            (Spec.recorded_before (amounts s) (map snd (take k obs)) (Item.item_id item))
            (Item.items_available item)).
Proof.
  unfold Spec.notifications.
  induction obs as [|[fx0 item0] obs IH]; intros s k fx item Hk; [discriminate|].
  cbn [Spec.check_items].
  pose proof (notified_rising_edge fx0 item0 s) as Hn.
  destruct (check_item_run fx0 item0 s) as (s1 & Hrun & Ham & _).
  rewrite Hrun in *; cbn [snd] in Hn.
  destruct (Spec.check_items obs s1) as [rs s2] eqn:Hrest.
  destruct k as [|k]; cbn in Hk |- *.
  - injection Hk as -> ->. now rewrite Hn.
  - specialize (IH s1 k fx item Hk). rewrite Hrest in IH; cbn [fst] in IH.
    rewrite <- recorded_before_cons, <- Ham. exact IH.
Qed.

(** The count the tracker holds for an item after a run is the one
    [Spec.recorded_before] reads off the observations. *)
Lemma amounts_after_check_items obs : forall s id,
  amounts (snd (Spec.check_items obs s)) !! id
  = Spec.recorded_before (amounts s) (map snd obs) id.
Proof.
  induction obs as [|[fx0 item0] obs IH]; intros s id; [reflexivity|].
  cbn [Spec.check_items].
  destruct (check_item_run fx0 item0 s) as (s1 & Hrun & Ham & _). rewrite Hrun.
  specialize (IH s1 id).
  destruct (Spec.check_items obs s1) as [rs s2]. cbn [snd map] in *.
  now rewrite IH, Ham, recorded_before_cons.
Qed.

End CheckItem.



(** C10. Every call of the item check returns normally and leaves the
    observed count on record for the item, whatever was on record before
    (nothing, on a first observation) and whether or not the notifiers or the
    metrics raise; so after a rising edge, also one whose dispatch raised, the
    next check of the same item does not notify again: the non-zero count is
    on record. *)
Theorem check_item_records_count :
  forall (fx : Scanner.effects) (item : Item.t) (s : Scanner.t),
  exists s' : Scanner.t,
    Scanner._check_item fx item s = (Ok tt, s')
    /\ Scanner.amounts s' !! Item.item_id item = Some (Item.items_available item)
    /\ (forall (fx' : Scanner.effects) (item' : Item.t),
           Item.item_id item' = Item.item_id item ->
           Item.items_available item <> 0 ->
           Spec.notified s' (snd (Scanner._check_item fx' item' s')) = false).
Proof.
  intros fx item s.
  destruct (check_item_run fx item s) as (s' & Hrun & Ham & _).
  exists s'. split; [exact Hrun|].
  assert (Scanner.amounts s' !! Item.item_id item = Some (Item.items_available item)) as Hrec
    by (rewrite Ham; apply lookup_insert_eq).
  split; [exact Hrec|].
  intros fx' item' Hid Hne.
  rewrite notified_rising_edge, Hid, Hrec. cbn.
  now destruct (Z.eqb_spec (Item.items_available item) 0).
Qed.

Lemma check_item_records_count_witness :
  exists s' : Scanner.t,
    Scanner._check_item Examples.dispatch_fails (Examples.bakery 3) Examples.bakery_seen_empty = (Ok tt, s')
    /\ Scanner.sent s' = [Examples.bakery 3]
    /\ Scanner.amounts s' !! "A" = Some 3
    /\ Spec.notified s' (snd (Scanner._check_item Scanner.quiet (Examples.bakery 5) s')) = false.
Proof.
  destruct (check_item_records_count Examples.dispatch_fails (Examples.bakery 3) Examples.bakery_seen_empty)
    as (s' & Hrun & Hrec & Hnext).
  exists s'. split; [exact Hrun|].
  split; [injection Hrun as <-; reflexivity|].
  split; [exact Hrec|].
  apply Hnext; [reflexivity | cbn; lia].
Defined.

(** ** The favorites loop of [scanner.py] *)

Section FavoritesLoop.

Import Scanner.

Context {Data : Type}.
Variable get_items : nat -> Z -> Z -> result (list Data).

(** An iteration whose fetch returns a full page: the page is appended and
    the next page is requested. *)
Lemma loop_full_page fuel l s p :
  error_count l < 5 ->
  get_items (length (get_items_calls s)) page_size (page l) = Ok p ->
  page_size <= Z.of_nat (length p) ->
  loop get_items (S fuel) l s
  = loop get_items fuel (mk_locals (items l ++ p) (page l + 1) (error_count l))
         (add_get_items_call (page_size, page l) s).
Proof.
  intros He Hget Hlen. cbn [loop].
  destruct (Z.ltb_spec (error_count l) 5); [|lia].
  unfold bind, loop_body. rewrite Hget.
  destruct (Z.ltb_spec (Z.of_nat (length p)) page_size); [lia | reflexivity].
Qed.

(** An iteration whose fetch returns a short page ends the loop. *)
Lemma loop_short_page fuel l s p :
  error_count l < 5 ->
  get_items (length (get_items_calls s)) page_size (page l) = Ok p ->
  Z.of_nat (length p) < page_size ->
  loop get_items (S fuel) l s
  = (Ok (Some (items l ++ p)), add_get_items_call (page_size, page l) s).
Proof.
  intros He Hget Hlen. cbn [loop].
  destruct (Z.ltb_spec (error_count l) 5); [|lia].
  unfold bind, loop_body. rewrite Hget.
  destruct (Z.ltb_spec (Z.of_nat (length p)) page_size); [reflexivity | lia].
Qed.

(** An iteration whose fetch raises: same items, same page, one more
    error, on the local counter and on the metric. *)
Lemma loop_fetch_error fuel l s :
  error_count l < 5 ->
  is_Ok (get_items (length (get_items_calls s)) page_size (page l)) = false ->
  loop get_items (S fuel) l s
  = loop get_items fuel (mk_locals (items l) (page l) (error_count l + 1))
         (set_metrics Metrics.get_favorites_errors_inc
            (add_get_items_call (page_size, page l) s)).
Proof.
  intros He Hget. cbn [loop].
  destruct (Z.ltb_spec (error_count l) 5); [|lia].
  unfold bind, loop_body.
  destruct (get_items _ _ _); [discriminate | reflexivity].
Qed.

(** Once five errors are counted the loop is over. *)
Lemma loop_error_bound fuel l s :
  5 <= error_count l ->
  loop get_items (S fuel) l s = (Ok (Some (items l)), s).
Proof.
  intros He. cbn [loop].
  destruct (Z.ltb_spec (error_count l) 5); [lia | reflexivity].
Qed.

Lemma loop_pages (full : list (list Data)) : forall (last : list Data) l s fuel,
  error_count l < 5 ->
  (forall (i : nat) p, full !! i = Some p ->
     get_items (length (get_items_calls s) + i)%nat page_size (page l + Z.of_nat i) = Ok p
     /\ page_size <= Z.of_nat (length p)) ->
  get_items (length (get_items_calls s) + length full)%nat page_size
            (page l + Z.of_nat (length full)) = Ok last ->
  Z.of_nat (length last) < page_size ->
  (length full < fuel)%nat ->
  exists s',
    loop get_items fuel l s = (Ok (Some (items l ++ concat full ++ last)), s')
    /\ get_items_calls s'
       = get_items_calls s ++ Spec.page_requests (page l) (S (length full))
    /\ amounts s' = amounts s /\ metrics s' = metrics s /\ sent s' = sent s.
Proof.
  induction full as [|p full IH]; intros last l s fuel He Hfull Hlast Hshort Hfuel.
  - destruct fuel as [|fuel]; [cbn in Hfuel; lia|].
    cbn [length] in Hlast. rewrite Nat.add_0_r, Z.add_0_r in Hlast.
    rewrite (loop_short_page fuel l s last He Hlast Hshort).
    eexists; split; [reflexivity|]. cbn. auto.
  - destruct fuel as [|fuel]; [cbn in Hfuel; lia|].
    destruct (Hfull 0%nat p eq_refl) as [Hget Hlen].
    rewrite Nat.add_0_r, Z.add_0_r in Hget.
    rewrite (loop_full_page fuel l s p He Hget Hlen).
    edestruct (IH last (mk_locals (items l ++ p) (page l + 1) (error_count l))
                  (add_get_items_call (page_size, page l) s) fuel)
      as (s' & Hrun & Hcalls & Ham & Hme & Hsent); cbn [error_count page items]; auto.
    + intros i q Hq. cbn [get_items_calls add_get_items_call].
      rewrite length_app; cbn [length].
      destruct (Hfull (S i) q Hq) as [Hg Hl].
      replace (length (get_items_calls s) + 1 + i)%nat
        with (length (get_items_calls s) + S i)%nat by lia.
      replace (page l + 1 + Z.of_nat i) with (page l + Z.of_nat (S i)) by lia.
      auto.
    + cbn [get_items_calls add_get_items_call].
      rewrite length_app; cbn [length].
      cbn [length] in Hlast.
      replace (length (get_items_calls s) + 1 + length full)%nat
        with (length (get_items_calls s) + S (length full))%nat by lia.
      replace (page l + 1 + Z.of_nat (length full))
        with (page l + Z.of_nat (S (length full))) by lia.
      exact Hlast.
    + cbn [length] in Hfuel. lia.
    + exists s'. split.
      * rewrite Hrun. cbn [concat items]. rewrite <- ?List.app_assoc. reflexivity.
      * rewrite Hcalls, Ham, Hme, Hsent. cbn. rewrite <- List.app_assoc. auto.
Qed.

Lemma loop_errors (n : nat) : forall l s fuel,
  Z.to_nat (5 - error_count l) = n ->
  (forall i : nat, (i < n)%nat ->
     is_Ok (get_items (length (get_items_calls s) + i)%nat page_size (page l)) = false) ->
  (n < fuel)%nat ->
  exists s',
    loop get_items fuel l s = (Ok (Some (items l)), s')
    /\ get_items_calls s' = get_items_calls s ++ repeat (page_size, page l) n
    /\ Metrics.get_favorites_errors (metrics s')
       = Metrics.get_favorites_errors (metrics s) + Z.of_nat n
    /\ amounts s' = amounts s /\ sent s' = sent s.
Proof.
  induction n as [|n IH]; intros l s fuel Hn Herr Hfuel.
  - destruct fuel as [|fuel]; [lia|].
    rewrite loop_error_bound by lia.
    exists s. rewrite app_nil_r, Z.add_0_r. auto.
  - destruct fuel as [|fuel]; [lia|].
    assert (error_count l < 5) as He by lia.
    pose proof (Herr 0%nat ltac:(lia)) as H0. rewrite Nat.add_0_r in H0.
    rewrite (loop_fetch_error fuel l s He H0).
    edestruct (IH (mk_locals (items l) (page l) (error_count l + 1))
                  (set_metrics Metrics.get_favorites_errors_inc
                     (add_get_items_call (page_size, page l) s)) fuel)
      as (s' & Hrun & Hcalls & Hme & Ham & Hsent); cbn [error_count page items].
    + lia.
    + intros i Hi. cbn [get_items_calls set_metrics add_get_items_call].
      rewrite length_app; cbn [length].
      replace (length (get_items_calls s) + 1 + i)%nat
        with (length (get_items_calls s) + S i)%nat by lia.
      apply Herr. lia.
    + lia.
    + exists s'. split; [exact Hrun|].
      rewrite Hcalls, Hme, Ham, Hsent. cbn. rewrite <- List.app_assoc.
      repeat split; auto. lia.
Qed.

End FavoritesLoop.

(** C2. The favorites fetch starts at page 1 with page size 100 and asks for
    the pages one after the other; as long as the provider answers pages of at
    least 100 records it appends them and moves on, and the first shorter page
    ends the fetch, which returns every record received, in order.  It issues
    one request per page, none after the short one. *)
Theorem get_favorites_pagination :
  forall (Data : Type) (get_items : nat -> Z -> Z -> result (list Data))
         (full : list (list Data)) (last : list Data) (s : Scanner.t) (fuel : nat),
    (forall (i : nat) (p : list Data), full !! i = Some p ->
       get_items (length (Scanner.get_items_calls s) + i)%nat 100 (1 + Z.of_nat i) = Ok p
       /\ 100 <= Z.of_nat (length p)) ->
    get_items (length (Scanner.get_items_calls s) + length full)%nat 100
              (1 + Z.of_nat (length full)) = Ok last ->
    Z.of_nat (length last) < 100 ->
    (length full < fuel)%nat ->
    exists s' : Scanner.t,
      Scanner._get_favorites get_items fuel s = (Ok (Some (concat full ++ last)), s')
      /\ Scanner.get_items_calls s'
         = Scanner.get_items_calls s ++ Spec.page_requests 1 (S (length full))
      /\ Scanner.amounts s' = Scanner.amounts s
      /\ Scanner.metrics s' = Scanner.metrics s.
Proof.
  intros Data get_items full last s fuel Hfull Hlast Hshort Hfuel.
  destruct (loop_pages get_items full last (Scanner.mk_locals [] 1 0) s fuel)
    as (s' & Hrun & Hcalls & Ham & Hme & _); cbn; auto; try lia.
  exists s'. auto.
Qed.

(** The scenario of the specification: two full pages and a page of 40 give
    240 records after three requests, for pages 1, 2 and 3. *)
Lemma get_favorites_pagination_witness :
  exists s' : Scanner.t,
    Scanner._get_favorites Examples.listing_240 10 Scanner.init = (Ok (Some (seq 0 240)), s')
    /\ length (seq 0 240) = 240%nat
    /\ Scanner.get_items_calls s' = [(100, 1); (100, 2); (100, 3)].
Proof.
  destruct (get_favorites_pagination nat Examples.listing_240
              [seq 0 100; seq 100 100] (seq 200 40) Scanner.init 10)
    as (s' & Hrun & Hcalls & _).
  - intros [|[|i]] p Hp; cbn in Hp; try discriminate;
      injection Hp as <-; split; [reflexivity | cbn; lia | reflexivity | cbn; lia].
  - reflexivity.
  - cbn; lia.
  - cbn; lia.
  - exists s'. split; [exact Hrun|]. split; [reflexivity | exact Hcalls].
Defined.

(** C3. From any point of the favorites fetch (any records accumulated, any
    page, fewer than five errors counted), a fetch that raises is counted and
    the same page is requested again; when the fetches keep raising until
    the count reaches 5 the operation stops requesting and returns, without
    raising, the records it had accumulated. *)
Theorem get_favorites_error_bound :
  forall (Data : Type) (get_items : nat -> Z -> Z -> result (list Data))
         (l : Scanner.locals) (s : Scanner.t) (fuel : nat),
    let n := Z.to_nat (5 - Scanner.error_count l) in
    (forall i : nat, (i < n)%nat ->
       is_Ok (get_items (length (Scanner.get_items_calls s) + i)%nat 100 (Scanner.page l))
       = false) ->
    (n < fuel)%nat ->
    exists s' : Scanner.t,
      Scanner.loop get_items fuel l s = (Ok (Some (Scanner.items l)), s')
      /\ Scanner.get_items_calls s'
         = Scanner.get_items_calls s ++ repeat (100, Scanner.page l) n
      /\ Metrics.get_favorites_errors (Scanner.metrics s')
         = Metrics.get_favorites_errors (Scanner.metrics s) + Z.of_nat n
      /\ Scanner.amounts s' = Scanner.amounts s.
Proof.
  intros Data get_items l s fuel n Herr Hfuel.
  destruct (loop_errors get_items n l s fuel eq_refl Herr Hfuel)
    as (s' & Hrun & Hcalls & Hme & Ham & _).
  exists s'. auto.
Qed.

Lemma get_favorites_error_bound_witness :
  exists s' : Scanner.t,
    Scanner._get_favorites Examples.listing_down 6 Scanner.init = (Ok (Some []), s')
    /\ Scanner.get_items_calls s' = [(100, 1); (100, 1); (100, 1); (100, 1); (100, 1)]
    /\ Metrics.get_favorites_errors (Scanner.metrics s') = 5.
Proof.
  destruct (get_favorites_error_bound nat Examples.listing_down
              (Scanner.mk_locals [] 1 0) Scanner.init 6)
    as (s' & Hrun & Hcalls & Hme & _).
  - intros i _. reflexivity.
  - cbn; lia.
  - exists s'. split; [exact Hrun|]. split; [exact Hcalls | exact Hme].
Defined.

(** ** The session of [tgtg.py] *)

Section Polling.

Import TgtgClient.

Variable server : nat -> Response.

Lemma after_pending_0 polling_id s : Spec.after_pending 0 polling_id s = s.
Proof.
  destruct s. unfold Spec.after_pending; cbn.
  now rewrite Z.add_0_r, !app_nil_r.
Qed.

Lemma after_pending_S k polling_id s :
  Spec.after_pending k polling_id (Spec.after_pending 1 polling_id s)
  = Spec.after_pending (S k) polling_id s.
Proof.
  unfold Spec.after_pending; cbn [self clock requests sleeps repeat].
  rewrite <- !List.app_assoc. cbn [app]. f_equal. lia.
Qed.

(** One round of the polling loop, spelled out. *)
Lemma poll_S n polling_id s :
  poll server (S n) polling_id s
  = let response := server (length (requests s)) in
    let s1 := Spec.posted (Spec.polling_request (self s) polling_id) s in
    if status_code response =? ACCEPTED
    then if polling_wait_time (self s) <? 0
         then (Raise (ValueError "sleep length must be non-negative"), s1)
         else match time_sleep s (polling_wait_time (self s)) with
              | Some e => (Raise e, s1)
              | None =>
                  poll server n polling_id
                    (mk_state (self s1)
                       (clock s1 + polling_wait_time (self s) * 1000000)
                       (requests s1) (sleeps s1 ++ [polling_wait_time (self s)])
                       (time_sleep s))
              end
    else if status_code response =? OK
    then match json_access_token response, json_refresh_token response with
         | Some a, Some r =>
             match Spec.user_id_of response with
             | Ok u => (Ok tt, set_self (Spec.logged_in a r u (clock s)) s1)
             | Raise e => (Raise e, set_self (Spec.refreshed a r (clock s)) s1)
             end
         | Some a, None =>
             (Raise (KeyError "refresh_token"), set_self (set_access_token a) s1)
         | None, _ => (Raise (KeyError "access_token"), s1)
         end
    else if status_code response =? TOO_MANY_REQUESTS
    then (Raise (TgtgAPIError [AStr "429 - Too many requests. Try again later."]), s1)
    else (Raise (TgtgLoginError [AInt (status_code response); AStr (content response)]),
          s1).
Proof.
  cbn [poll].
  unfold bind, get, _request, sleep, modify, getitem, subscript, ret, raise,
    Spec.user_id_of.
  cbn zeta.
  destruct (status_code _ =? ACCEPTED).
  { destruct (polling_wait_time (self s) <? 0); [reflexivity|].
    cbn [time_sleep]. now destruct (time_sleep s (polling_wait_time (self s))). }
  destruct (status_code _ =? OK); [|destruct (status_code _ =? TOO_MANY_REQUESTS); reflexivity].
  destruct (json_access_token _); [|reflexivity].
  destruct (json_refresh_token _); [|reflexivity].
  destruct (json_startup_data _) as [[|[[|[u|]]|]]|]; reflexivity.
Qed.

(** A polling attempt answered "still pending": wait, then go on. *)
Lemma poll_pending n polling_id s :
  0 <= polling_wait_time (self s) ->
  time_sleep s (polling_wait_time (self s)) = None ->
  status_code (server (length (requests s))) = ACCEPTED ->
  poll server (S n) polling_id s
  = poll server n polling_id (Spec.after_pending 1 polling_id s).
Proof.
  intros Hwait Hsleep Hst. rewrite poll_S. cbn zeta. rewrite Hst, Z.eqb_refl, Hsleep.
  destruct (Z.ltb_spec (polling_wait_time (self s)) 0) as [Hneg|_]; [lia|].
  unfold Spec.after_pending, Spec.posted. cbn -[poll Z.mul].
  do 2 f_equal. lia.
Qed.

(** A wait that [time.sleep] refuses, a negative one or one the platform
    cannot hold: the first attempt answered "still pending" is the last
    one. *)
Lemma poll_refused_wait n polling_id s :
  status_code (server (length (requests s))) = ACCEPTED ->
  (polling_wait_time (self s) < 0 ->
   poll server (S n) polling_id s
   = (Raise (ValueError "sleep length must be non-negative"),
      Spec.posted (Spec.polling_request (self s) polling_id) s))
  /\ (forall e, 0 <= polling_wait_time (self s) ->
        time_sleep s (polling_wait_time (self s)) = Some e ->
        poll server (S n) polling_id s
        = (Raise e, Spec.posted (Spec.polling_request (self s) polling_id) s)).
Proof.
  intros Hst. split.
  - intros Hwait. rewrite poll_S. cbn zeta. rewrite Hst, Z.eqb_refl.
    destruct (Z.ltb_spec (polling_wait_time (self s)) 0) as [_|Hpos]; [reflexivity | lia].
  - intros e Hwait Hsleep. rewrite poll_S. cbn zeta. rewrite Hst, Z.eqb_refl, Hsleep.
    destruct (Z.ltb_spec (polling_wait_time (self s)) 0) as [Hneg|_]; [lia | reflexivity].
Qed.

Lemma poll_pending_many k : forall n polling_id s,
  0 <= polling_wait_time (self s) ->
  time_sleep s (polling_wait_time (self s)) = None ->
  (forall i : nat, (i < k)%nat ->
     status_code (server (length (requests s) + i)%nat) = ACCEPTED) ->
  poll server (k + n) polling_id s
  = poll server n polling_id (Spec.after_pending k polling_id s).
Proof.
  induction k as [|k IH]; intros n polling_id s Hwait Hsleep Hpend.
  - now rewrite after_pending_0.
  - cbn [Nat.add]. rewrite poll_pending.
    + rewrite IH; [now rewrite after_pending_S | exact Hwait | exact Hsleep |].
      intros i Hi. cbn [Spec.after_pending requests repeat].
      rewrite length_app; cbn [length].
      replace (length (requests s) + 1 + i)%nat
        with (length (requests s) + S i)%nat by lia.
      apply Hpend; lia.
    + exact Hwait.
    + exact Hsleep.
    + specialize (Hpend 0%nat ltac:(lia)). now rewrite Nat.add_0_r in Hpend.
Qed.

(** The polling loop never posts more requests than it has rounds. *)
Lemma poll_requests_bound n : forall polling_id s,
  (length (requests (snd (poll server n polling_id s))) <= length (requests s) + n)%nat.
Proof.
  induction n as [|n IH]; intros polling_id s.
  - cbn. lia.
  - rewrite poll_S. cbn zeta.
    destruct (status_code _ =? ACCEPTED).
    + destruct (polling_wait_time (self s) <? 0).
      * cbn. rewrite length_app; cbn. lia.
      * destruct (time_sleep s (polling_wait_time (self s))).
        -- cbn. rewrite length_app; cbn. lia.
        -- etransitivity; [apply IH|]. cbn. rewrite length_app; cbn. lia.
    + destruct (status_code _ =? OK).
      * destruct (json_access_token _) as [a|]; [|cbn; rewrite length_app; cbn; lia].
        destruct (json_refresh_token _) as [r|]; [|cbn; rewrite length_app; cbn; lia].
        destruct (Spec.user_id_of _); cbn; rewrite length_app; cbn; lia.
      * destruct (status_code _ =? TOO_MANY_REQUESTS);
          cbn; rewrite length_app; cbn; lia.
Qed.

(** A polling attempt answered "confirmed". *)
Lemma poll_confirmed n polling_id s a r u :
  let response := server (length (requests s)) in
  status_code response = OK ->
  json_access_token response = Some a ->
  json_refresh_token response = Some r ->
  json_startup_data response = startup_data u ->
  poll server (S n) polling_id s
  = (Ok tt, set_self (Spec.logged_in a r u (clock s))
              (Spec.posted (Spec.polling_request (self s) polling_id) s)).
Proof.
  intros response Hst Ha Hr Hu. subst response.
  rewrite poll_S. cbn zeta. unfold Spec.user_id_of. rewrite Hst, Ha, Hr, Hu. reflexivity.
Qed.

(** The loop is exhausted. *)
Lemma poll_exhausted polling_id s :
  poll server 0 polling_id s
  = (Raise (TgtgPollingError [AStr (Spec.max_retries_message (self s))]), s).
Proof. reflexivity. Qed.

End Polling.

(** C4. Login polling posts at most [max_polling_tries] attempts (as many as
    [range(max_polling_tries)] has rounds, none for a negative value).  With
    a wait time that [time.sleep] accepts, one that is not negative and that
    the platform can hold: attempts answered "still pending"
    (202) are each followed by a sleep of [polling_wait_time] and the loop
    goes on; an attempt answered "confirmed" (200) stores the provider's
    access token, refresh token and user id, sets the refresh time to the
    current time and returns; when every attempt was answered "still
    pending" the operation raises [TgtgPollingError] with a message that
    gives [max_polling_tries * polling_wait_time] seconds. *)
Theorem start_polling_bounded :
  forall (server : nat -> TgtgClient.Response) (polling_id : string) (s : TgtgClient.state),
    let tries := Z.to_nat (TgtgClient.max_polling_tries (TgtgClient.self s)) in
    let sent := length (TgtgClient.requests s) in
    (length (TgtgClient.requests (snd (TgtgClient.start_polling server polling_id s)))
     <= sent + tries)%nat
    /\ (0 <= TgtgClient.max_polling_tries (TgtgClient.self s) ->
        Z.of_nat (length (TgtgClient.requests
                            (snd (TgtgClient.start_polling server polling_id s))))
        - Z.of_nat sent
        <= TgtgClient.max_polling_tries (TgtgClient.self s))
    /\ (forall (k : nat) (a r u : string),
          0 <= TgtgClient.polling_wait_time (TgtgClient.self s) ->
          TgtgClient.time_sleep s (TgtgClient.polling_wait_time (TgtgClient.self s)) = None ->
          (k < tries)%nat ->
          (forall i : nat, (i < k)%nat ->
             TgtgClient.status_code (server (sent + i)%nat) = TgtgClient.ACCEPTED) ->
          TgtgClient.status_code (server (sent + k)%nat) = TgtgClient.OK ->
          TgtgClient.json_access_token (server (sent + k)%nat) = Some a ->
          TgtgClient.json_refresh_token (server (sent + k)%nat) = Some r ->
          TgtgClient.json_startup_data (server (sent + k)%nat)
          = TgtgClient.startup_data u ->
          let waited := Spec.after_pending k polling_id s in
          TgtgClient.start_polling server polling_id s
          = (Ok tt,
             TgtgClient.set_self (Spec.logged_in a r u (TgtgClient.clock waited))
               (Spec.posted (Spec.polling_request (TgtgClient.self s) polling_id) waited)))
    /\ (0 <= TgtgClient.polling_wait_time (TgtgClient.self s) ->
        TgtgClient.time_sleep s (TgtgClient.polling_wait_time (TgtgClient.self s)) = None ->
        (forall i : nat, (i < tries)%nat ->
           TgtgClient.status_code (server (sent + i)%nat) = TgtgClient.ACCEPTED) ->
        TgtgClient.start_polling server polling_id s
        = (Raise (TgtgPollingError
                    [AStr ("Max retries ("
                           +:+ pretty (TgtgClient.max_polling_tries (TgtgClient.self s)
                                       * TgtgClient.polling_wait_time (TgtgClient.self s))
                           +:+ " seconds) reached. Try again.")]),
           Spec.after_pending tries polling_id s)).
Proof.
  intros server polling_id s tries sent.
  unfold TgtgClient.start_polling, bind, get. fold tries.
  pose proof (poll_requests_bound server tries polling_id s) as Hbound.
  split; [exact Hbound|]. split; [|split].
  - intros Hnonneg. fold tries sent in Hbound |- *. lia.
  - intros k a r u Hwait Hsleep Hk Hpend Hst Ha Hr Hu.
    replace tries with (k + S (tries - S k))%nat by lia.
    rewrite poll_pending_many by assumption.
    set (waited := Spec.after_pending k polling_id s).
    assert (length (TgtgClient.requests waited) = (sent + k)%nat) as Hlen.
    { subst waited. cbn. now rewrite length_app, repeat_length. }
    rewrite (poll_confirmed server _ polling_id waited a r u); rewrite ?Hlen; auto.
  - intros Hwait Hsleep Hpend.
    replace tries with (tries + 0)%nat at 1 by lia.
    rewrite poll_pending_many by assumption.
    apply poll_exhausted.
Qed.

(** The scenario of the specification, [max_polling_tries = 3] and
    [polling_wait_time = 0]: three "pending" answers end in
    [TgtgPollingError]; "confirmed" on the second attempt leaves the
    provider's tokens stored. *)
Lemma start_polling_bounded_witness :
  (exists s',
     TgtgClient.start_polling (Examples.always Examples.pending) "poll-1"
       (Examples.at_time Examples.email_only 7)
     = (Raise (TgtgPollingError [AStr "Max retries (0 seconds) reached. Try again."]), s')
     /\ length (TgtgClient.requests s') = 3%nat)
  /\ (exists s',
        TgtgClient.start_polling Examples.confirmed_on_second "poll-1"
          (Examples.at_time Examples.email_only 7) = (Ok tt, s')
        /\ TgtgClient.access_token (TgtgClient.self s') = Some "access-1"
        /\ TgtgClient.refresh_token (TgtgClient.self s') = Some "refresh-1"
        /\ TgtgClient.user_id (TgtgClient.self s') = Some "user-1"
        /\ TgtgClient.last_time_token_refreshed (TgtgClient.self s') = Some 7
        /\ TgtgClient._already_logged (TgtgClient.self s') = true
        /\ length (TgtgClient.requests s') = 2%nat).
Proof.
  split.
  - destruct (start_polling_bounded (Examples.always Examples.pending) "poll-1"
                (Examples.at_time Examples.email_only 7)) as (_ & _ & _ & Hexhausted).
    eexists. split.
    + apply Hexhausted; [cbn; lia | reflexivity |]. intros i _. reflexivity.
    + reflexivity.
  - destruct (start_polling_bounded Examples.confirmed_on_second "poll-1"
                (Examples.at_time Examples.email_only 7)) as (_ & _ & Hconfirmed & _).
    eexists. split.
    + apply (Hconfirmed 1%nat "access-1" "refresh-1" "user-1"); try reflexivity.
      * cbn; lia.
      * intros [|i] Hi; [reflexivity | lia].
    + repeat split.
Defined.

(** With a [polling_wait_time] that [time.sleep] refuses, the first "still
    pending" answer ends the polling: [ValueError] for a negative wait, the
    platform's exception for one it cannot hold, after the one request. *)
Lemma start_polling_refused_wait :
  forall (server : nat -> TgtgClient.Response) (polling_id : string) (s : TgtgClient.state),
    0 < TgtgClient.max_polling_tries (TgtgClient.self s) ->
    TgtgClient.status_code (server (length (TgtgClient.requests s))) = TgtgClient.ACCEPTED ->
    (TgtgClient.polling_wait_time (TgtgClient.self s) < 0 ->
     TgtgClient.start_polling server polling_id s
     = (Raise (ValueError "sleep length must be non-negative"),
        Spec.posted (Spec.polling_request (TgtgClient.self s) polling_id) s))
    /\ (forall e, 0 <= TgtgClient.polling_wait_time (TgtgClient.self s) ->
          TgtgClient.time_sleep s (TgtgClient.polling_wait_time (TgtgClient.self s)) = Some e ->
          TgtgClient.start_polling server polling_id s
          = (Raise e, Spec.posted (Spec.polling_request (TgtgClient.self s) polling_id) s)).
Proof.
  intros server polling_id s Htries Hst.
  unfold TgtgClient.start_polling, bind, get.
  destruct (Z.to_nat (TgtgClient.max_polling_tries (TgtgClient.self s))) as [|n] eqn:Hn;
    [lia|].
  now apply poll_refused_wait.
Qed.

Section Login.

Import TgtgClient.

Variable server : nat -> Response.

(** [login] on a session that is not logged in but has an email, spelled
    out on the answer to the email submission. *)
Lemma login_with_email s :
  truthy (email (self s)) = true ->
  _already_logged (self s) = false ->
  login server s
  = let response := server (length (requests s)) in
    let s1 := Spec.posted (Spec.email_request (self s)) s in
    if status_code response =? OK
    then match json_state response with
         | None => (Raise (KeyError "state"), s1)
         | Some st =>
             if String.eqb st "TERMS"
             then (Raise (TgtgPollingError
                            [AStr ("This email " +:+ str (email (self s))
                                   +:+ " is not linked to a tgtg account. "
                                   +:+ "Please signup with this email first.")]), s1)
             else if String.eqb st "WAIT"
             then match json_polling_id response with
                  | Some polling_id => start_polling server polling_id s1
                  | None => (Raise (KeyError "polling_id"), s1)
                  end
             else (Raise (TgtgLoginError
                            [AInt (status_code response); AStr (content response)]), s1)
         end
    else if status_code response =? 429
    then (Raise (TgtgAPIError [AStr "429 - Too many requests. Try again later."]), s1)
    else (Raise (TgtgLoginError [AInt (status_code response); AStr (content response)]),
          s1).
Proof.
  intros Hemail Hlogged. unfold login. unfold bind at 1, get.
  rewrite Hemail, Hlogged. cbn [orb negb].
  unfold bind at 1, _request. cbn zeta.
  destruct (status_code _ =? OK).
  - unfold bind at 1, getitem.
    destruct (json_state _) as [st|]; [|reflexivity].
    unfold ret. destruct (String.eqb st "TERMS"); [reflexivity|].
    destruct (String.eqb st "WAIT"); [|reflexivity].
    unfold bind at 1. destruct (json_polling_id _); reflexivity.
  - destruct (status_code _ =? 429); reflexivity.
Qed.

(** [login] on a logged-in session is [_refresh_token]. *)
Lemma login_logged s :
  _already_logged (self s) = true ->
  login server s = _refresh_token server s.
Proof.
  intros Hlogged. unfold login. unfold bind at 1, get.
  pose proof Hlogged as H. unfold _already_logged in H. rewrite H, Hlogged.
  now rewrite orb_true_r.
Qed.

(** [_refresh_token], spelled out. *)
Lemma refresh_token_run s :
  _refresh_token server s
  = if match last_time_token_refreshed (self s) with
       | Some last =>
           timedelta_seconds (clock s - last) <=? access_token_lifetime (self s)
       | None => false
       end
    then (Ok tt, s)
    else
      let response := server (length (requests s)) in
      let s1 := Spec.posted (Spec.refresh_request (self s)) s in
      if status_code response =? OK
      then match json_access_token response, json_refresh_token response with
           | Some a, Some r => (Ok tt, set_self (Spec.refreshed a r (clock s)) s1)
           | Some a, None =>
               (Raise (KeyError "refresh_token"), set_self (set_access_token a) s1)
           | None, _ => (Raise (KeyError "access_token"), s1)
           end
      else (Raise (TgtgAPIError [AInt (status_code response); AStr (content response)]),
            s1).
Proof.
  unfold _refresh_token. unfold bind at 1, get.
  destruct (match last_time_token_refreshed (self s) with
            | Some _ => _ | None => _ end); [reflexivity|].
  unfold bind at 1, _request. cbn zeta.
  destruct (status_code _ =? OK); [|reflexivity].
  unfold_monad. unfold getitem.
  destruct (json_access_token _); [|reflexivity].
  destruct (json_refresh_token _); reflexivity.
Qed.


(** While the elapsed time does not exceed the token lifetime, a logged-in
    session does nothing: no request, no change. *)
Lemma login_noop_within_lifetime s last :
  _already_logged (self s) = true ->
  last_time_token_refreshed (self s) = Some last ->
  0 <= Spec.elapsed s last <= access_token_lifetime (self s) * 1000000 ->
  login server s = (Ok tt, s).
Proof.
  intros Hlogged Hlast Hel. unfold Spec.elapsed in Hel.
  rewrite login_logged, refresh_token_run, Hlast by assumption.
  assert (timedelta_seconds (clock s - last) <= access_token_lifetime (self s)) as Hle.
  { unfold timedelta_seconds.
    assert (0 <= (clock s - last) / 1000000) by (apply Z.div_pos; lia).
    assert ((clock s - last) / 1000000 <= access_token_lifetime (self s))
      by (apply Z.div_le_upper_bound; lia).
    pose proof (Z.mod_le ((clock s - last) / 1000000) 86400 ltac:(lia) ltac:(lia)).
    lia. }
  now destruct (Z.leb_spec (timedelta_seconds (clock s - last))
                           (access_token_lifetime (self s))); [|lia].
Qed.


End Login.

(** C5, as the code has it.  A session that is not logged in and submits its
    email fails with [TgtgPollingError] on the "TERMS" state, starts polling
    on the "WAIT" state with the polling identifier of the response, and
    fails with [TgtgLoginError] on any other state of a 200 response; a 429
    response fails with [TgtgAPIError], any other status with
    [TgtgLoginError]. *)
Theorem login_email_outcomes :
  forall (server : nat -> TgtgClient.Response) (s : TgtgClient.state),
    TgtgClient.truthy (TgtgClient.email (TgtgClient.self s)) = true ->
    TgtgClient._already_logged (TgtgClient.self s) = false ->
    let response := server (length (TgtgClient.requests s)) in
    let s1 := Spec.posted (Spec.email_request (TgtgClient.self s)) s in
    let status := TgtgClient.status_code response in
    (status = 200 -> TgtgClient.json_state response = Some "TERMS" ->
     TgtgClient.login server s
     = (Raise (TgtgPollingError
                 [AStr ("This email " +:+ TgtgClient.str (TgtgClient.email (TgtgClient.self s))
                        +:+ " is not linked to a tgtg account. "
                        +:+ "Please signup with this email first.")]), s1))
    /\ (forall polling_id,
          status = 200 -> TgtgClient.json_state response = Some "WAIT" ->
          TgtgClient.json_polling_id response = Some polling_id ->
          TgtgClient.login server s = TgtgClient.start_polling server polling_id s1)
    /\ (forall st,
          status = 200 -> TgtgClient.json_state response = Some st ->
          st <> "TERMS" -> st <> "WAIT" ->
          TgtgClient.login server s
          = (Raise (TgtgLoginError [AInt status; AStr (TgtgClient.content response)]), s1))
    /\ (status = 429 ->
        TgtgClient.login server s
        = (Raise (TgtgAPIError [AStr "429 - Too many requests. Try again later."]), s1))
    /\ (status <> 200 -> status <> 429 ->
        TgtgClient.login server s
        = (Raise (TgtgLoginError [AInt status; AStr (TgtgClient.content response)]), s1)).
Proof.
  intros server s Hemail Hlogged response s1 status.
  rewrite (login_with_email server s Hemail Hlogged). cbn zeta.
  fold response s1 status. unfold TgtgClient.OK.
  repeat split.
  - intros -> ->. reflexivity.
  - intros polling_id -> -> ->. reflexivity.
  - intros st -> -> Hterms Hwait. cbn.
    destruct (String.eqb_spec st "TERMS"); [contradiction|].
    destruct (String.eqb_spec st "WAIT"); [contradiction | reflexivity].
  - intros ->. reflexivity.
  - intros H200 H429.
    destruct (Z.eqb_spec status 200); [contradiction|].
    destruct (Z.eqb_spec status 429); [contradiction | reflexivity].
Qed.

Lemma login_email_outcomes_witness :
  TgtgClient.login (Examples.always Examples.too_many_requests)
    (Examples.at_time Examples.email_only 0)
  = (Raise (TgtgAPIError [AStr "429 - Too many requests. Try again later."]),
     Spec.posted (Spec.email_request Examples.email_only)
       (Examples.at_time Examples.email_only 0)).
Proof.
  destruct (login_email_outcomes (Examples.always Examples.too_many_requests)
              (Examples.at_time Examples.email_only 0) eq_refl eq_refl)
    as (_ & _ & _ & H429 & _).
  apply H429. reflexivity.
Defined.

(** C5 does not hold as stated: on "TERMS" the error is a
    [TgtgPollingError], and on status 429 a [TgtgAPIError]; neither is a
    [TgtgLoginError]. *)
Lemma login_terms_not_login_error :
  (exists e s',
      TgtgClient.login (Examples.always Examples.terms)
        (Examples.at_time Examples.email_only 0) = (Raise e, s')
      /\ is_TgtgPollingError e = true /\ is_TgtgLoginError e = false)
  /\ (exists e s',
        TgtgClient.login (Examples.always Examples.too_many_requests)
          (Examples.at_time Examples.email_only 0) = (Raise e, s')
        /\ is_TgtgAPIError e = true /\ is_TgtgLoginError e = false).
Proof.
  split; do 2 eexists; (split; [reflexivity|]); split; reflexivity.
Qed.

(** C6 fails on the code.  A logged-in session whose tokens were refreshed
    one day and ten seconds ago, with a lifetime of four hours: the elapsed
    time exceeds the lifetime, yet [login] posts nothing and changes nothing,
    because [timedelta.seconds] drops the whole days. *)
Theorem login_skips_refresh_after_a_day :
  forall server : nat -> TgtgClient.Response,
    let s := Examples.at_time Examples.credentialed Examples.a_day_and_ten_seconds in
    TgtgClient._already_logged (TgtgClient.self s) = true
    /\ TgtgClient.access_token_lifetime (TgtgClient.self s) * 1000000 < Spec.elapsed s 0
    /\ TgtgClient.timedelta_seconds (Spec.elapsed s 0) = 10
    /\ TgtgClient.login server s = (Ok tt, s).
Proof.
  intros server s. repeat split.
Qed.

(** C7 does not hold as stated: the constructor accepts a session with no
    email and no tokens. *)
Lemma init_accepts_missing_credentials :
  exists c : TgtgClient.t,
    TgtgClient.__init__ None None None None 14400 24 5 = Ok c
    /\ TgtgClient.truthy (TgtgClient.email c) = false
    /\ TgtgClient._already_logged c = false.
Proof.
  eexists. split; [reflexivity|]. split; reflexivity.
Qed.

(** C7, as the code has it.  The constructor always returns a session; one
    that has neither an email nor the three tokens is rejected by [login],
    which raises [TGTGConfigurationError] before anything is posted and
    without changing the session. *)
Theorem login_rejects_missing_credentials :
  forall (email access_token refresh_token user_id : option string)
         (lifetime tries wait : Z),
  exists c : TgtgClient.t,
    TgtgClient.__init__ email access_token refresh_token user_id lifetime tries wait = Ok c
    /\ forall (server : nat -> TgtgClient.Response) (s : TgtgClient.state),
         TgtgClient.self s = c ->
         TgtgClient.truthy email = false ->
         TgtgClient.truthy access_token && TgtgClient.truthy refresh_token
           && TgtgClient.truthy user_id = false ->
         TgtgClient.login server s
         = (Raise (TGTGConfigurationError
                     [AStr "You must provide at least email or access_token, refresh_token and user_id"]),
            s).
Proof.
  intros email access_token refresh_token user_id lifetime tries wait.
  eexists. split; [reflexivity|].
  intros server s Hself Hemail Htokens.
  unfold TgtgClient.login. unfold bind at 1, get. rewrite Hself. cbn.
  now rewrite Hemail, Htokens.
Qed.

Lemma login_rejects_missing_credentials_witness :
  TgtgClient.login (Examples.always Examples.confirmed) (Examples.at_time Examples.nothing 0)
  = (Raise (TGTGConfigurationError
              [AStr "You must provide at least email or access_token, refresh_token and user_id"]),
     Examples.at_time Examples.nothing 0).
Proof.
  destruct (login_rejects_missing_credentials None None None None 14400 24 5)
    as (c & Hc & Hlogin).
  injection Hc as <-.
  apply Hlogin; reflexivity.
Defined.

(** ** Dispatch: [models/notifier.py] and [notifiers/__init__.py] *)

Section Dispatch.

Context {B : Type}.

(** [Notifier.send] returns normally whatever [_send] does; [_send] runs on
    the backends exactly when the notifier is enabled, and what it raises is
    logged. *)
Lemma notifier_send_run (n : Notifier.t B) (item : Item.t) (w : Notifier.world B) :
  Notifier.send n item w
  = (Ok tt,
     if Notifier.enabled n
     then Notifier.mk_world
            (snd (Notifier._send n item (Notifier.backend w)))
            (Notifier.invoked w ++ [(Notifier.name n, item)])
            (Notifier.error_log w
             ++ match fst (Notifier._send n item (Notifier.backend w)) with
                | Ok _ => []
                | Raise e => [e]
                end)
     else w).
Proof.
  unfold Notifier.send, Notifier.call_send, Notifier.log_error.
  destruct (Notifier.enabled n); [|reflexivity].
  unfold_monad.
  destruct (Notifier._send n item (Notifier.backend w)) as [[[]|e] b]; cbn.
  - now rewrite app_nil_r.
  - reflexivity.
Qed.

Lemma send_each_run (ns : list (Notifier.t B)) (item : Item.t) :
  forall w : Notifier.world B,
    let sent := List.filter Notifier.enabled ns in
    Spec.send_each ns item w
    = (Ok tt,
       Notifier.mk_world
         (Spec.delivered sent item (Notifier.backend w))
         (Notifier.invoked w ++ map (fun n => (Notifier.name n, item)) sent)
         (Notifier.error_log w ++ Spec.raised sent item (Notifier.backend w))).
Proof.
  induction ns as [|n ns IH]; intros w; cbn zeta.
  - cbn. rewrite !app_nil_r. now destruct w.
  - cbn [Spec.send_each]. unfold bind. rewrite notifier_send_run.
    rewrite IH. cbn zeta. cbn [List.filter].
    destruct (Notifier.enabled n); [|reflexivity].
    cbn [Notifier.backend Notifier.invoked Notifier.error_log map
         Spec.delivered Spec.raised fold_left].
    unfold Spec.delivered.
    destruct (Notifier._send n item (Notifier.backend w)) as [[[]|e] b];
      cbn [fst snd]; rewrite <- !List.app_assoc; reflexivity.
Qed.

End Dispatch.

(** C9. Dispatching an item returns normally whatever the channels do.
    The [_send] of every enabled channel is called with that item and runs
    on the backends, in the order of the channels, and no disabled channel
    is sent to: the backends end as these runs leave them, whether they
    returned or raised, and every exception raised is logged.  A channel
    whose [_send] raises therefore does not keep the others from sending. *)
Theorem notifiers_send_isolation :
  forall (B : Type) (ns : Notifiers.t B) (item : Item.t) (w : Notifier.world B),
    let sent := List.filter Notifier.enabled (Notifiers.channels ns) in
    Notifiers.send ns item w
    = (Ok tt,
       Notifier.mk_world
         (Spec.delivered sent item (Notifier.backend w))
         (Notifier.invoked w ++ map (fun n => (Notifier.name n, item)) sent)
         (Notifier.error_log w ++ Spec.raised sent item (Notifier.backend w))).
Proof.
  intros B ns item w sent. subst sent.
  rewrite <- (send_each_run (Notifiers.channels ns) item w).
  unfold Notifiers.send, Notifiers.channels. cbn [Spec.send_each].
  unfold bind.
  destruct (Notifier.send (Notifiers.push_safer ns) item w) as [[[]|e1] w1]; [|reflexivity].
  destruct (Notifier.send (Notifiers.smtp ns) item w1) as [[[]|e2] w2]; [|reflexivity].
  destruct (Notifier.send (Notifiers.ifttt ns) item w2) as [[[]|e3] w3]; [|reflexivity].
  destruct (Notifier.send (Notifiers.webhook ns) item w3) as [[[]|e4] w4]; [|reflexivity].
  destruct (Notifier.send (Notifiers.telegram ns) item w4) as [[[]|e5] w5]; reflexivity.
Qed.

(** Four enabled channels, the second of which raises, and a disabled one:
    the four are called, the error is logged, the three deliveries happen. *)
Lemma notifiers_send_one_failing :
  Notifiers.send Examples.one_failing (Examples.bakery 3) (Notifier.mk_world 0%nat [] [])
  = (Ok tt,
     Notifier.mk_world 3%nat
       [("PushSafer", Examples.bakery 3); ("SMTP", Examples.bakery 3);
        ("WebHook", Examples.bakery 3); ("Telegram", Examples.bakery 3)]
       [ExternalError "SMTP"]).
Proof. reflexivity. Qed.

(** ** Templates: [notifiers/webhook.py] *)

Section Strings.

Lemma string_app_nil (b : string) : "" +:+ b = b.
Proof. reflexivity. Qed.

Lemma string_app_cons c (a b : string) : String c a +:+ b = String c (a +:+ b).
Proof. reflexivity. Qed.

Lemma string_app_assoc (a b c : string) : (a +:+ b) +:+ c = a +:+ (b +:+ c).
Proof.
  induction a as [|x a IH]; [reflexivity|].
  now rewrite !string_app_cons, IH.
Qed.

Lemma string_length_app (a b : string) :
  String.length (a +:+ b) = (String.length a + String.length b)%nat.
Proof.
  induction a as [|x a IH]; [reflexivity|].
  rewrite string_app_cons. cbn [String.length]. now rewrite IH.
Qed.

Lemma placeholder_app name rest :
  Py.placeholder name +:+ rest
  = String "$" (String "{" (String "{" (name +:+ String "}" (String "}" rest)))).
Proof.
  unfold Py.placeholder.
  now rewrite !string_app_assoc, !string_app_cons, !string_app_nil.
Qed.

Lemma placeholder_length name :
  String.length (Py.placeholder name) = (5 + String.length name)%nat.
Proof. unfold Py.placeholder. rewrite !string_length_app. cbn [String.length]. lia. Qed.

Lemma strip_prefix_app p rest : Py.strip_prefix p (p +:+ rest) = Some rest.
Proof.
  induction p as [|a p IH]; [now destruct rest|].
  rewrite string_app_cons. cbn [Py.strip_prefix]. now rewrite Ascii.eqb_refl.
Qed.

Lemma word_char_not_dollar c : Py.is_word_char c = true -> Ascii.eqb c "$" = false.
Proof.
  intros H. destruct (Ascii.eqb_spec c "$") as [->|]; [discriminate H | reflexivity].
Qed.

Lemma word_char_not_brace c : Py.is_word_char c = true -> Ascii.eqb c "}" = false.
Proof.
  intros H. destruct (Ascii.eqb_spec c "}") as [->|]; [discriminate H | reflexivity].
Qed.

Lemma all_word_dollar_free s : Template.all_word s = true -> Template.dollar_free s = true.
Proof.
  induction s as [|c s IH]; cbn; [reflexivity|].
  intros [Hc Hs]%andb_true_iff. now rewrite word_char_not_dollar, IH.
Qed.

Lemma is_name_all_word s : Template.is_name s = true -> Template.all_word s = true.
Proof. destruct s; [discriminate | trivial]. Qed.

Lemma dollar_free_app a b :
  Template.dollar_free (a +:+ b) = Template.dollar_free a && Template.dollar_free b.
Proof.
  induction a as [|c a IH]; [reflexivity|].
  rewrite string_app_cons. cbn [Template.dollar_free]. now rewrite IH, andb_assoc.
Qed.

(** The greedy run of word characters stops at the closing braces. *)
Lemma span_word_name name rest :
  Template.all_word name = true ->
  Py.span_word (name +:+ String "}" rest) = (name, String "}" rest).
Proof.
  induction name as [|c name IH]; [reflexivity|].
  rewrite string_app_cons. cbn [Template.all_word Py.span_word].
  intros [Hc Hs]%andb_true_iff. now rewrite Hc, IH.
Qed.

Lemma match_placeholder_hole name rest :
  Template.is_name name = true ->
  Py.match_placeholder (Py.placeholder name +:+ rest) = Some (name, rest).
Proof.
  intros Hname. rewrite placeholder_app. unfold Py.match_placeholder. cbn [Py.strip_prefix].
  rewrite !Ascii.eqb_refl, span_word_name by now apply is_name_all_word.
  destruct name; [discriminate|]. cbn. reflexivity.
Qed.

Lemma match_placeholder_other c rest :
  Ascii.eqb c "$" = false -> Py.match_placeholder (String c rest) = None.
Proof.
  intros Hc. unfold Py.match_placeholder. cbn [Py.strip_prefix].
  now rewrite Ascii.eqb_sym, Hc.
Qed.

End Strings.

Section Finditer.

Lemma finditer_from_text s : forall rest fuel,
  Template.dollar_free s = true ->
  (String.length s + String.length rest <= fuel)%nat ->
  Py.finditer_from fuel (s +:+ rest)
  = Py.finditer_from (fuel - String.length s) rest.
Proof.
  induction s as [|c s IH]; intros rest fuel Hs Hfuel.
  - rewrite string_app_nil. cbn [String.length]. now rewrite Nat.sub_0_r.
  - cbn [Template.dollar_free String.length] in Hs, Hfuel.
    apply andb_true_iff in Hs as [Hc Hs].
    apply negb_true_iff in Hc.
    destruct fuel as [|fuel]; [lia|].
    rewrite string_app_cons.
    cbn [Py.finditer_from String.length]. rewrite match_placeholder_other by exact Hc.
    rewrite IH by (auto; lia). reflexivity.
Qed.

(** On a well-formed template [re.finditer] finds the placeholders, all of
    them and in order. *)
Lemma finditer_from_show tpl : forall fuel,
  Template.well_formed tpl = true ->
  (String.length (Template.show tpl) <= fuel)%nat ->
  Py.finditer_from fuel (Template.show tpl)
  = map Template.hole_match (Template.holes tpl).
Proof.
  induction tpl as [|[s|name] tpl IH]; intros fuel Hwf Hfuel.
  - destruct fuel; reflexivity.
  - cbn in Hwf. apply andb_true_iff in Hwf as [Hs Hwf].
    cbn [Template.show Template.holes] in *.
    rewrite string_length_app in Hfuel.
    rewrite finditer_from_text by (auto; lia).
    apply IH; [exact Hwf | lia].
  - cbn in Hwf. apply andb_true_iff in Hwf as [Hname Hwf].
    cbn [Template.show Template.holes map] in *.
    rewrite string_length_app, placeholder_length in Hfuel.
    destruct fuel as [|fuel]; [lia|].
    cbn [Py.finditer_from]. rewrite match_placeholder_hole by exact Hname.
    unfold Template.hole_match at 1. f_equal.
    apply IH; [exact Hwf | lia].
Qed.

Lemma finditer_show tpl :
  Template.well_formed tpl = true ->
  Py.finditer (Template.show tpl) = map Template.hole_match (Template.holes tpl).
Proof. intros Hwf. now apply finditer_from_show. Qed.

End Finditer.

Section Replace.

Variable name : string.
Hypothesis name_ok : Template.is_name name = true.
Variable v : string.

Lemma strip_placeholder_other c rest :
  Ascii.eqb c "$" = false ->
  Py.strip_prefix (Py.placeholder name) (String c rest) = None.
Proof.
  intros Hc. unfold Py.placeholder. rewrite string_app_cons.
  cbn [Py.strip_prefix]. now rewrite Ascii.eqb_sym, Hc.
Qed.

(** [str.replace] copies text without [$] as it is. *)
Lemma replace_from_text s : forall rest fuel,
  Template.dollar_free s = true ->
  (String.length s + String.length rest <= fuel)%nat ->
  Py.replace_from fuel (Py.placeholder name) v (s +:+ rest)
  = s +:+ Py.replace_from (fuel - String.length s) (Py.placeholder name) v rest.
Proof.
  induction s as [|c s IH]; intros rest fuel Hs Hfuel.
  - rewrite !string_app_nil. cbn [String.length]. now rewrite Nat.sub_0_r.
  - cbn [Template.dollar_free String.length] in Hs, Hfuel.
    apply andb_true_iff in Hs as [Hc Hs]. apply negb_true_iff in Hc.
    destruct fuel as [|fuel]; [lia|].
    rewrite !string_app_cons. cbn [Py.replace_from String.length].
    rewrite strip_placeholder_other by exact Hc.
    rewrite IH by (auto; lia). reflexivity.
Qed.

(** Two placeholders with different names do not match each other. *)
Lemma strip_names_differ n : forall m rest,
  Template.all_word n = true ->
  Template.all_word m = true ->
  n <> m ->
  Py.strip_prefix (n +:+ "}}") (m +:+ String "}" (String "}" rest)) = None.
Proof.
  induction n as [|a n IH]; intros [|b m] rest Hn Hm Hne.
  - contradiction.
  - cbn [Template.all_word] in Hm. apply andb_true_iff in Hm as [Hb _].
    rewrite string_app_nil, string_app_cons. cbn [Py.strip_prefix].
    now rewrite Ascii.eqb_sym, word_char_not_brace.
  - cbn [Template.all_word] in Hn. apply andb_true_iff in Hn as [Ha _].
    rewrite string_app_nil, string_app_cons. cbn [Py.strip_prefix].
    now rewrite word_char_not_brace.
  - cbn [Template.all_word] in Hn, Hm.
    apply andb_true_iff in Hn as [_ Hn]. apply andb_true_iff in Hm as [_ Hm].
    rewrite !string_app_cons. cbn [Py.strip_prefix].
    destruct (Ascii.eqb_spec a b) as [->|]; [|reflexivity].
    apply IH; auto. congruence.
Qed.

Lemma strip_placeholder_differ m rest :
  Template.is_name m = true ->
  name <> m ->
  Py.strip_prefix (Py.placeholder name) (Py.placeholder m +:+ rest) = None.
Proof.
  intros Hm Hne. rewrite placeholder_app. unfold Py.placeholder.
  rewrite !string_app_cons, string_app_nil. cbn [Py.strip_prefix].
  rewrite !Ascii.eqb_refl.
  apply strip_names_differ; auto using is_name_all_word.
Qed.

Lemma placeholder_tail m rest :
  Py.placeholder m +:+ rest = String "$" (("{{" +:+ m +:+ "}}") +:+ rest).
Proof.
  unfold Py.placeholder.
  now rewrite !string_app_assoc, !string_app_cons, !string_app_nil.
Qed.

(** On a well-formed template, replacing the text of a placeholder by a
    value is replacing the placeholder itself. *)
Lemma replace_from_show tpl : forall fuel,
  Template.well_formed tpl = true ->
  (String.length (Template.show tpl) <= fuel)%nat ->
  Py.replace_from fuel (Py.placeholder name) v (Template.show tpl)
  = Template.show (Template.subst name v tpl).
Proof.
  induction tpl as [|[s|m] tpl IH]; intros fuel Hwf Hfuel.
  - destruct fuel; reflexivity.
  - cbn [Template.well_formed forallb Template.segment_ok] in Hwf.
    apply andb_true_iff in Hwf as [Hs Hwf].
    cbn [Template.show Template.subst map] in *.
    rewrite string_length_app in Hfuel.
    rewrite replace_from_text by (auto; lia).
    f_equal. apply IH; [exact Hwf | lia].
  - cbn [Template.well_formed forallb Template.segment_ok] in Hwf.
    apply andb_true_iff in Hwf as [Hm Hwf].
    cbn [Template.show Template.subst map] in *.
    rewrite string_length_app, placeholder_length in Hfuel.
    destruct fuel as [|fuel]; [lia|].
    destruct (String.eqb_spec m name) as [->|Hne].
    + cbn [Py.replace_from]. rewrite strip_prefix_app.
      cbn [Template.show]. f_equal. apply IH; [exact Hwf | lia].
    + pose proof (strip_placeholder_differ m (Template.show tpl) Hm
                    ltac:(congruence)) as Hstrip.
      cbn [Template.show]. rewrite !placeholder_tail in *.
      cbn [Py.replace_from]. rewrite Hstrip. f_equal.
      assert (String.length ("{{" +:+ m +:+ "}}") = (4 + String.length m)%nat) as Hlen
        by (rewrite !string_length_app; cbn [String.length]; lia).
      rewrite replace_from_text.
      * f_equal. apply IH; [exact Hwf | lia].
      * rewrite !dollar_free_app, (all_word_dollar_free m) by now apply is_name_all_word.
        reflexivity.
      * lia.
Qed.

End Replace.

Section Render.

Variable item : Item.t.
Hypothesis item_plain : Template.plain item.

Lemma replace_show name v tpl :
  Template.is_name name = true ->
  Template.well_formed tpl = true ->
  Py.replace (Template.show tpl) (Py.placeholder name) v
  = Template.show (Template.subst name v tpl).
Proof.
  intros Hname Hwf. unfold Py.replace.
  destruct (Py.placeholder name) eqn:E; [discriminate E|]. rewrite <- E.
  now apply replace_from_show.
Qed.

Lemma well_formed_subst name v tpl :
  Template.dollar_free v = true ->
  Template.well_formed tpl = true ->
  Template.well_formed (Template.subst name v tpl) = true.
Proof.
  intros Hv. unfold Template.well_formed, Template.subst.
  induction tpl as [|[s|m] tpl IH]; cbn [map forallb Template.segment_ok];
    [reflexivity | |].
  - intros [Hs Hwf]%andb_true_iff. now rewrite Hs, IH.
  - intros [Hm Hwf]%andb_true_iff.
    destruct (String.eqb m name); cbn [Template.segment_ok];
      [now rewrite Hv, IH | now rewrite Hm, IH].
Qed.

Lemma well_formed_step tpl name :
  Template.well_formed tpl = true ->
  Template.well_formed (Template.step item tpl name) = true.
Proof.
  intros Hwf. unfold Template.step.
  destruct (Item.getattr_str item name) as [v|] eqn:Hv; [|exact Hwf].
  apply well_formed_subst; [now apply (item_plain name) | exact Hwf].
Qed.

(** The substitution loop of [_send], run on the placeholders [names],
    follows the substitution on templates. *)
Lemma substitute_names names : forall tpl,
  Template.well_formed tpl = true ->
  Forall (fun n => Template.is_name n = true) names ->
  WebHook.substitute item (map Template.hole_match names) (Template.show tpl)
  = Template.show (fold_left (Template.step item) names tpl).
Proof.
  unfold WebHook.substitute.
  induction names as [|n names IH]; intros tpl Hwf Hnames; [reflexivity|].
  inversion Hnames as [|? ? Hn Hrest]; subst.
  cbn [map fold_left Template.hole_match Py.group0 Py.group1].
  assert ((match Item.getattr_str item n with
           | Some v => Py.replace (Template.show tpl) (Py.placeholder n) v
           | None => Template.show tpl
           end) = Template.show (Template.step item tpl n)) as ->.
  { unfold Template.step. destruct (Item.getattr_str item n); [|reflexivity].
    now apply replace_show. }
  apply IH; [now apply well_formed_step | exact Hrest].
Qed.

Lemma fill_subst name v tpl :
  Item.getattr_str item name = Some v ->
  Template.fill item (Template.subst name v tpl) = Template.fill item tpl.
Proof.
  intros Hv. unfold Template.subst.
  induction tpl as [|[s|m] tpl IH]; cbn [map Template.fill];
    [reflexivity | now rewrite IH |].
  destruct (String.eqb_spec m name) as [->|]; cbn [Template.fill]; rewrite IH;
    [|reflexivity].
  now rewrite Hv.
Qed.

Lemma fill_step tpl name :
  Template.fill item (Template.step item tpl name) = Template.fill item tpl.
Proof.
  unfold Template.step. destruct (Item.getattr_str item name) eqn:Hv; [|reflexivity].
  now apply fill_subst.
Qed.

Lemma holes_subst name v tpl m :
  In m (Template.holes (Template.subst name v tpl)) ->
  In m (Template.holes tpl) /\ m <> name.
Proof.
  unfold Template.subst.
  induction tpl as [|[s|k] tpl IH]; cbn [map Template.holes];
    [contradiction | exact IH |].
  destruct (String.eqb_spec k name) as [->|Hne]; cbn [Template.holes].
  - intros H. destruct (IH H). split; [now right | assumption].
  - intros [->|H]; [split; [now left | assumption]|].
    destruct (IH H). split; [now right | assumption].
Qed.

(** A template none of whose placeholders names an attribute is its own
    rendering. *)
Lemma show_fill_settled tpl :
  (forall m, In m (Template.holes tpl) -> Item.getattr_str item m = None) ->
  Template.show tpl = Template.fill item tpl.
Proof.
  induction tpl as [|[s|k] tpl IH];
    cbn [Template.show Template.fill Template.holes]; intros Hnone; [reflexivity | |].
  - now rewrite IH.
  - rewrite (Hnone k) by now left. cbn [default].
    rewrite IH; [reflexivity|]. intros m Hm. apply Hnone. now right.
Qed.

Lemma fold_step_fill names : forall tpl,
  (forall m, In m (Template.holes tpl) ->
             Item.getattr_str item m <> None -> In m names) ->
  Template.show (fold_left (Template.step item) names tpl) = Template.fill item tpl.
Proof.
  induction names as [|n names IH]; intros tpl Hcover; cbn [fold_left].
  - apply show_fill_settled. intros m Hm.
    destruct (Item.getattr_str item m) eqn:E; [|reflexivity].
    exfalso. apply (Hcover m Hm). congruence.
  - rewrite IH; [apply fill_step|].
    intros m Hm Hsome. unfold Template.step in Hm.
    destruct (Item.getattr_str item n) as [v|] eqn:Hn.
    + apply holes_subst in Hm as [Hm Hne].
      destruct (Hcover m Hm Hsome) as [->|]; [contradiction | assumption].
    + destruct (Hcover m Hm Hsome) as [->|]; [contradiction | assumption].
Qed.

Lemma holes_are_names tpl :
  Template.well_formed tpl = true ->
  Forall (fun n => Template.is_name n = true) (Template.holes tpl).
Proof.
  unfold Template.well_formed.
  induction tpl as [|[s|k] tpl IH]; cbn [forallb Template.segment_ok Template.holes];
    [constructor | |].
  - intros [_ Hwf]%andb_true_iff. auto.
  - intros [Hk Hwf]%andb_true_iff. constructor; auto.
Qed.

(** The substitution loop of [_send] renders a well-formed template in one
    pass: placeholders give way to the values of the attributes. *)
Lemma substitute_fill tpl :
  Template.well_formed tpl = true ->
  WebHook.substitute item (Py.finditer (Template.show tpl)) (Template.show tpl)
  = Template.fill item tpl.
Proof.
  intros Hwf. rewrite finditer_show by exact Hwf.
  rewrite substitute_names by auto using holes_are_names.
  apply fold_step_fill. auto.
Qed.

End Render.

Section PlainItems.

Lemma dollar_free_pretty_N_go x : forall s,
  Template.dollar_free s = true -> Template.dollar_free (pretty_N_go x s) = true.
Proof.
  induction (N.lt_wf_0 x) as [x _ IH]; intros s Hs.
  destruct (decide (x = 0)%N) as [->|Hx]; [now rewrite pretty_N_go_0|].
  rewrite pretty_N_go_step by lia.
  apply IH; [apply N.div_lt; lia|].
  cbn [Template.dollar_free]. rewrite Hs.
  unfold pretty_N_char. now repeat case_match.
Qed.

Lemma dollar_free_pretty_N (x : N) : Template.dollar_free (pretty x) = true.
Proof.
  unfold pretty, pretty_N. case_decide; [reflexivity|].
  now apply dollar_free_pretty_N_go.
Qed.

Lemma dollar_free_pretty_Z (x : Z) : Template.dollar_free (pretty x) = true.
Proof.
  destruct x as [|p|p]; unfold pretty, pretty_Z; [reflexivity | |].
  - apply dollar_free_pretty_N.
  - rewrite dollar_free_app. unfold pretty, pretty_positive.
    now rewrite dollar_free_pretty_N.
Qed.

(** An item is plain as soon as its textual attributes are. *)
Lemma plain_fields item :
  Template.dollar_free (Item.item_id item) = true ->
  Template.dollar_free (Item.display_name item) = true ->
  Template.dollar_free (Item.price item) = true ->
  Template.dollar_free (Item.currency item) = true ->
  Template.dollar_free (Item.pickupdate item) = true ->
  (forall name v, Item.other_attrs item name = Some v -> Template.dollar_free v = true) ->
  Template.plain item.
Proof.
  intros Hid Hname Hprice Hcur Hpick Hother name v. unfold Item.getattr_str.
  repeat (match goal with |- context [String.eqb ?a ?b] => destruct (String.eqb a b) end);
    try (intros [= <-]; auto using dollar_free_pretty_Z).
  apply Hother.
Qed.

End PlainItems.

Section WebHookRun.

Context {S : Type}.

Lemma check_matches_unknown (ms : list Py.Match) (m : Py.Match) (s : S) :
  In m ms ->
  Py.group1 m ∉ Item.ATTRS ->
  WebHook.check_matches ms s = (Raise WebHookConfigurationError, s).
Proof.
  intros Hin Hunknown. induction ms as [|m0 ms IH]; [contradiction|].
  cbn [WebHook.check_matches]. case_bool_decide; [|reflexivity].
  destruct Hin as [->|Hin]; [contradiction | now apply IH].
Qed.

Lemma check_matches_result (ms : list Py.Match) (s : S) :
  WebHook.check_matches ms s = (Ok tt, s)
  \/ WebHook.check_matches ms s = (Raise WebHookConfigurationError, s).
Proof.
  induction ms as [|m0 ms IH]; [now left|].
  cbn [WebHook.check_matches]. case_bool_decide; [exact IH | now right].
Qed.

(** With a body configured, an unknown placeholder in the body or in the
    URL makes [_init] raise [WebHookConfigurationError]. *)
Lemma init_unknown_placeholder cfg u b m (s : S) :
  WebHook.url cfg = Some u ->
  WebHook.body cfg = Some b ->
  In m (Py.finditer b) \/ In m (Py.finditer u) ->
  Py.group1 m ∉ Item.ATTRS ->
  WebHook._init cfg s = (Raise WebHookConfigurationError, s).
Proof.
  intros Hu Hb Hin Hunknown. unfold WebHook._init.
  destruct (negb (Py.truthy (WebHook.method cfg)) || negb (Py.truthy_opt (WebHook.url cfg)));
    [reflexivity|].
  rewrite Hu, Hb. unfold WebHook.finditer, bind, ret.
  destruct Hin as [Hin|Hin].
  - now rewrite (check_matches_unknown _ m s Hin Hunknown).
  - destruct (check_matches_result (Py.finditer b) s) as [-> | ->]; [|reflexivity].
    now apply (check_matches_unknown _ m).
Qed.

(** The same on templates: an unknown name among the placeholders. *)
Lemma init_unknown_hole cfg (tu tb : Template.t) name (s : S) :
  WebHook.url cfg = Some (Template.show tu) ->
  WebHook.body cfg = Some (Template.show tb) ->
  Template.well_formed tu = true ->
  Template.well_formed tb = true ->
  In name (Template.holes tb) \/ In name (Template.holes tu) ->
  name ∉ Item.ATTRS ->
  WebHook._init cfg s = (Raise WebHookConfigurationError, s).
Proof.
  intros Hu Hb Hwfu Hwfb Hin Hunknown.
  apply (init_unknown_placeholder cfg _ _ (Template.hole_match name) s Hu Hb);
    [|exact Hunknown].
  rewrite !finditer_show by assumption.
  destruct Hin as [Hin|Hin]; [left | right]; now apply in_map.
Qed.

(** Without a body, [_init] of a webhook that has a method and a URL stops
    on the scan of the body: [re.finditer] does not take [None]. *)
Lemma init_without_body cfg (s : S) :
  Py.truthy (WebHook.method cfg) = true ->
  Py.truthy_opt (WebHook.url cfg) = true ->
  WebHook.body cfg = None ->
  WebHook._init cfg s = (Raise TypeError, s).
Proof.
  intros Hm Hu Hb. unfold WebHook._init. now rewrite Hm, Hu, Hb.
Qed.

End WebHookRun.

Section WebHookSend.

Variable http : WebHook.HttpRequest -> option exn.

(** With a URL configured, [_send] makes one request and its outcome is
    that of the request: rendering never raises. *)
Lemma send_run cfg u item out :
  WebHook.url cfg = Some u ->
  exists req,
    WebHook._send http cfg item out
    = (match http req with None => Ok tt | Some e => Raise e end, out ++ [req])
    /\ WebHook.http_url req = WebHook.substitute item (Py.finditer u) u
    /\ WebHook.http_data req
       = match WebHook.body cfg with
         | Some b =>
             if Py.truthy b
             then Some (WebHook.substitute item (Py.finditer b) b)
             else None
         | None => None
         end.
Proof.
  intros Hu. unfold WebHook._send, WebHook.finditer. rewrite Hu.
  unfold bind, ret, modify, outcome, raise. cbn [default].
  destruct (WebHook.body cfg) as [b|]; [destruct (Py.truthy b)|];
    match goal with |- context [http ?r] => exists r end;
    (split; [now destruct (http _) | split; reflexivity]).
Qed.

(** On well-formed templates and plain items the request is the expected
    one. *)
Lemma send_request cfg item out (tu : Template.t) (tb : option Template.t) :
  WebHook.url cfg = Some (Template.show tu) ->
  WebHook.body cfg = Template.show <$> tb ->
  Template.well_formed tu = true ->
  (forall b, tb = Some b ->
     Template.well_formed b = true /\ Py.truthy (Template.show b) = true) ->
  Template.plain item ->
  WebHook._send http cfg item out
  = (match http (Template.request cfg item tu tb) with
     | None => Ok tt
     | Some e => Raise e
     end, out ++ [Template.request cfg item tu tb]).
Proof.
  intros Hu Hb Hwfu Hwfb Hplain.
  unfold WebHook._send, WebHook.finditer, Template.request. rewrite Hu, Hb.
  unfold bind, ret, modify, outcome, raise. cbn [default].
  rewrite substitute_fill by assumption.
  destruct tb as [b|]; cbn [fmap option_fmap option_map].
  - destruct (Hwfb b eq_refl) as [Hwf Htruthy]. rewrite Htruthy.
    rewrite substitute_fill by assumption. cbn [app]. now destruct (http _).
  - now destruct (http _).
Qed.

End WebHookSend.

(** Where the templates are rendered as intended.  For a webhook with a URL
    configured:
    with a body configured too, a placeholder in the body or the URL whose
    name is not an Item attribute makes the initialisation, and hence the
    construction of an enabled channel, raise [WebHookConfigurationError];
    sending makes one request and raises only what the request raises,
    whatever placeholders the templates hold; and when every [$] of the
    templates starts a placeholder and no printed attribute of the item
    contains a [$], the URL and the body of the request are the templates
    with each placeholder that names an attribute, [display_name] and
    [items_available] among them, replaced by the printed value of the
    attribute. *)
Theorem webhook_templates :
  forall (cfg : WebHook.Config) (u : string),
    WebHook.url cfg = Some u ->
    (forall (S : Type) (s : S) (b : string) (m : Py.Match),
        WebHook.body cfg = Some b ->
        In m (Py.finditer b) \/ In m (Py.finditer u) ->
        Py.group1 m ∉ Item.ATTRS ->
        WebHook._init cfg s = (Raise WebHookConfigurationError, s)
        /\ (WebHook.enabled cfg = true ->
            WebHook.__init__ cfg s = (Raise WebHookConfigurationError, s)))
    /\ (forall (http : WebHook.HttpRequest -> option exn) (item : Item.t)
               (out : list WebHook.HttpRequest),
          exists req,
            WebHook._send http cfg item out
            = (match http req with None => Ok tt | Some e => Raise e end, out ++ [req]))
    /\ (forall (http : WebHook.HttpRequest -> option exn) (item : Item.t)
               (out : list WebHook.HttpRequest) (tu : Template.t) (tb : option Template.t),
          u = Template.show tu ->
          WebHook.body cfg = Template.show <$> tb ->
          Template.well_formed tu = true ->
          (forall b, tb = Some b ->
             Template.well_formed b = true /\ Py.truthy (Template.show b) = true) ->
          Template.plain item ->
          WebHook._send http cfg item out
          = (match http (Template.request cfg item tu tb) with
             | None => Ok tt
             | Some e => Raise e
             end, out ++ [Template.request cfg item tu tb])).
Proof.
  intros cfg u Hu. split; [|split].
  - intros S s b m Hb Hin Hunknown.
    pose proof (init_unknown_placeholder cfg u b m s Hu Hb Hin Hunknown) as Hinit.
    split; [exact Hinit|].
    intros Hen. unfold WebHook.__init__, bind. now rewrite Hen, Hinit.
  - intros http item out.
    destruct (send_run http cfg u item out Hu) as (req & Hrun & _). eauto.
  - intros http item out tu tb -> Hb Hwfu Hwfb Hplain.
    now apply send_request.
Qed.

Lemma bakery_plain : Template.plain (Examples.bakery 3).
Proof. apply plain_fields; try reflexivity. discriminate. Defined.

Lemma webhook_templates_witness :
  WebHook.__init__ Examples.bogus_hook tt = (Raise WebHookConfigurationError, tt)
  /\ WebHook._send Examples.reachable
       (Examples.hook (Some "${{display_name}}: ${{items_available}}"))
       (Examples.bakery 3) []
     = (Ok tt,
        [WebHook.mk_http "POST" "https://example.org/hook" 60 (Some "Bakery: 3")
           [("Content-Type", "text/plain"); ("Content-Length", "9")]]).
Proof.
  split.
  - destruct (webhook_templates Examples.bogus_hook "https://example.org/${{bogus}}" eq_refl)
      as (Hinit & _ & _).
    apply (Hinit unit tt "${{display_name}}" (Py.mk_match "${{bogus}}" "bogus")).
    + reflexivity.
    + right. vm_compute. auto.
    + vm_compute. intros H. repeat (inversion H as [|? ? ? H']; clear H; rename H' into H).
    + reflexivity.
  - destruct (webhook_templates
                (Examples.hook (Some "${{display_name}}: ${{items_available}}"))
                "https://example.org/hook" eq_refl)
      as (_ & _ & Hsend).
    apply (Hsend Examples.reachable (Examples.bakery 3) []
                 [Template.Text "https://example.org/hook"]
                 (Some Examples.name_and_count)).
    + reflexivity.
    + reflexivity.
    + reflexivity.
    + intros b [= <-]. split; reflexivity.
    + exact bakery_plain.
Defined.

(** C8 fails on the code.  An enabled webhook with a URL and no body, the
    default of [WebHookConfig]: [_init] scans the body without the guard
    that [_send] has and raises [TypeError].  A URL with an unknown
    placeholder is thus not rejected with [WebHookConfigurationError], and
    a webhook with a valid URL and no body cannot be enabled at all, though
    [_send] would serve it: it renders the URL and sends no data.  With a
    body set, the unknown placeholder is rejected as the claim says.  At
    send time a value that reads like a later placeholder of the template
    is rewritten, so the text sent is not the template with the literal
    values put in. *)
Theorem webhook_init_type_error_without_body :
  forall (S : Type) (s : S),
    WebHook.body Examples.bogus_url_only = None
    /\ WebHook.__init__ Examples.bogus_url_only s = (Raise TypeError, s)
    /\ WebHook.__init__ Examples.url_only s = (Raise TypeError, s)
    /\ WebHook._send Examples.reachable Examples.url_only (Examples.bakery 3) []
       = (Ok tt,
          [WebHook.mk_http "GET" "https://example.org/Bakery" 60 None
             [("Content-Type", "text/plain")]])
    /\ WebHook.__init__ Examples.bogus_hook s = (Raise WebHookConfigurationError, s)
    /\ WebHook._init (Examples.hook (Some (Template.show Examples.name_and_count))) s
       = (Ok tt, s)
    /\ WebHook._send Examples.reachable
         (Examples.hook (Some (Template.show Examples.name_and_count)))
         Examples.odd_name []
       = (Ok tt,
          [WebHook.mk_http "POST" "https://example.org/hook" 60 (Some "3: 3")
             [("Content-Type", "text/plain"); ("Content-Length", "4")]])
    /\ Template.fill Examples.odd_name Examples.name_and_count = "${{items_available}}: 3".
Proof.
  intros S s. repeat split; vm_compute; reflexivity.
Qed.

(** * Further properties *)

(** ** The tracker over a whole run *)

Section TrackerRuns.

Import Scanner.

Lemma last_observed_None id (earlier : list Item.t) :
  Spec.last_observed id earlier = None ->
  forall m item, earlier !! m = Some item -> Item.item_id item <> id.
Proof.
  induction earlier as [|item0 earlier IH]; intros Hnone m item Hm; [discriminate|].
  cbn [Spec.last_observed] in Hnone.
  destruct (Spec.last_observed id earlier) eqn:Hlater; [discriminate|].
  destruct (String.eqb_spec (Item.item_id item0) id) as [|Hne]; [discriminate|].
  destruct m as [|m]; cbn in Hm.
  - now injection Hm as <-.
  - now apply (IH eq_refl m).
Qed.

(** The count [Spec.last_observed] gives is that of the last observation of
    the item. *)
Lemma last_observed_Some id (earlier : list Item.t) c :
  Spec.last_observed id earlier = Some c ->
  exists m item,
    earlier !! m = Some item
    /\ Item.item_id item = id
    /\ Item.items_available item = c
    /\ forall m' item', (m < m')%nat -> earlier !! m' = Some item' ->
                        Item.item_id item' <> id.
Proof.
  revert c. induction earlier as [|item0 earlier IH]; intros c Hsome; [discriminate|].
  cbn [Spec.last_observed] in Hsome.
  destruct (Spec.last_observed id earlier) as [c'|] eqn:Hlater.
  - injection Hsome as <-.
    destruct (IH c' eq_refl) as (m & item & Hm & Hid & Hc & Hlast).
    exists (S m), item. repeat split; auto.
    intros [|m'] item' Hlt Hm'; [lia|]. apply (Hlast m'); [lia | exact Hm'].
  - destruct (String.eqb_spec (Item.item_id item0) id) as [Hid|]; [|discriminate].
    injection Hsome as <-.
    exists 0%nat, item0. repeat split; auto.
    intros [|m'] item' Hlt Hm'; [lia|].
    now apply (last_observed_None id earlier Hlater m').
Qed.

Lemma lookup_observed (obs : list (effects * Item.t)) k m item :
  map snd (take k obs) !! m = Some item <->
  (m < k)%nat /\ exists fx, obs !! m = Some (fx, item).
Proof.
  revert k m. induction obs as [|[fx0 item0] obs IH]; intros k m.
  - destruct k; cbn; split; [discriminate | intros [_ [? ?]]; discriminate
                             | discriminate | intros [_ [? ?]]; discriminate].
  - destruct k as [|k]; cbn.
    + split; [discriminate | intros [? _]; lia].
    + destruct m as [|m]; cbn.
      * split.
        -- intros [= <-]. split; [lia | eauto].
        -- intros [_ [fx [= _ <-]]]. reflexivity.
      * rewrite (IH k m). split; intros [? ?]; (split; [lia | assumption]).
Qed.

End TrackerRuns.

(** X1. In any run of the item check, two notifications for the same item
    are separated by an observation of that item with count 0: an item
    never notifies twice in a row. *)
Theorem notifications_separated_by_zero :
  forall (obs : list (Scanner.effects * Item.t)) (s : Scanner.t)
         (j k : nat) (fxj fxk : Scanner.effects) (itemj itemk : Item.t),
    (j < k)%nat ->
    obs !! j = Some (fxj, itemj) ->
    obs !! k = Some (fxk, itemk) ->
    Item.item_id itemj = Item.item_id itemk ->
    Spec.notifications obs s !! j = Some true ->
    Spec.notifications obs s !! k = Some true ->
    exists (m : nat) (fxm : Scanner.effects) (itemm : Item.t),
      (j < m < k)%nat
      /\ obs !! m = Some (fxm, itemm)
      /\ Item.item_id itemm = Item.item_id itemk
      /\ Item.items_available itemm = 0.
Proof.
  intros obs s j k fxj fxk itemj itemk Hjk Hj Hk Hid Hnj Hnk.
  rewrite (notifications_lookup obs s j fxj itemj Hj) in Hnj.
  rewrite (notifications_lookup obs s k fxk itemk Hk) in Hnk.
  injection Hnj as Hnj. injection Hnk as Hnk.
  apply rising_edge_true in Hnj as [_ Hposj].
  apply rising_edge_true in Hnk as [Hreck _].
  unfold Spec.recorded_before in Hreck.
  assert (map snd (take k obs) !! j = Some itemj) as Hjin
    by (apply lookup_observed; split; [lia | eauto]).
  destruct (Spec.last_observed (Item.item_id itemk) (map snd (take k obs))) as [c|] eqn:Hlast.
  - injection Hreck as ->.
    destruct (last_observed_Some _ _ _ Hlast) as (m & itemm & Hm & Hidm & Hcm & Hafter).
    pose proof Hm as Hm'. apply lookup_observed in Hm' as [Hmk [fxm Hobs]].
    assert (~ (m < j)%nat) as Hnlt
      by (intros Hlt; now apply (Hafter j itemj Hlt Hjin)).
    assert (m <> j) as Hne.
    { intros ->. rewrite Hj in Hobs. injection Hobs as _ <-. lia. }
    exists m, fxm, itemm. repeat split; auto; lia.
  - exfalso. now apply (last_observed_None _ _ Hlast j itemj Hjin).
Qed.

Lemma notifications_separated_by_zero_witness :
  exists (m : nat) (fxm : Scanner.effects) (itemm : Item.t),
    (1 < m < 4)%nat
    /\ Examples.bakery_counts [0; 3; 2; 0; 1] !! m = Some (fxm, itemm)
    /\ Item.items_available itemm = 0.
Proof.
  destruct (notifications_separated_by_zero
              (Examples.bakery_counts [0; 3; 2; 0; 1]) Scanner.init 1 4
              Scanner.quiet Scanner.quiet (Examples.bakery 3) (Examples.bakery 1))
    as (m & fxm & itemm & Hm & Hobs & _ & Hzero);
    try reflexivity; [lia|].
  exists m, fxm, itemm. auto.
Defined.

(** X2. After any run of the item check, an item has a count on record
    exactly when it had one before or was observed during the run: entries
    are never removed; and the count of an item that was not observed is the
    one it had before. *)
Theorem tracker_entries :
  forall (obs : list (Scanner.effects * Item.t)) (s : Scanner.t) (id : string),
    let final := Scanner.amounts (snd (Spec.check_items obs s)) in
    (is_Some (final !! id) <->
     is_Some (Scanner.amounts s !! id)
     \/ exists fx item, In (fx, item) obs /\ Item.item_id item = id)
    /\ ((forall fx item, In (fx, item) obs -> Item.item_id item <> id) ->
        final !! id = Scanner.amounts s !! id).
Proof.
  intros obs s id final. subst final.
  rewrite amounts_after_check_items. unfold Spec.recorded_before.
  assert (forall m item, map snd obs !! m = Some item ->
                         exists fx, In (fx, item) obs) as Hin.
  { intros m item Hm. apply list_elem_of_lookup_2, list_elem_of_In in Hm.
    apply in_map_iff in Hm as [[fx item'] [Heq Hin]]. cbn in Heq. subst. eauto. }
  destruct (Spec.last_observed id (map snd obs)) as [c|] eqn:Hlast.
  - destruct (last_observed_Some _ _ _ Hlast) as (m & item & Hm & Hid & _).
    destruct (Hin m item Hm) as [fx Hobs].
    split.
    + split; [intros _; right; eauto | intros _; eauto].
    + intros Hnot. exfalso. now apply (Hnot fx item Hobs).
  - split; [|reflexivity].
    split; [now left|]. intros [Hbefore | (fx & item & Hobs & Hid)]; [exact Hbefore|].
    exfalso.
    assert (In item (map snd obs)) as Hitem
      by (apply in_map_iff; exists (fx, item); auto).
    apply list_elem_of_In, list_elem_of_lookup_1 in Hitem as [m Hm].
    now apply (last_observed_None _ _ Hlast m item Hm).
Qed.

Lemma tracker_entries_witness :
  Scanner.amounts (snd (Spec.check_items (Examples.bakery_counts [0; 3])
                          Examples.bakery_seen_empty)) !! "B"
  = None.
Proof.
  destruct (tracker_entries (Examples.bakery_counts [0; 3]) Examples.bakery_seen_empty "B")
    as [_ Hframe].
  rewrite Hframe; [reflexivity|].
  intros fx item [Hin | [Hin | []]]; injection Hin as _ <-; discriminate.
Defined.

(** X3. The item check writes its "new amount" log line exactly when the
    item had a count on record, the observed count differs from it, and the
    notifiers and metrics called on the way all returned: a first
    observation is not logged, and neither is a change whose dispatch or
    metric update raised. *)
Theorem check_item_new_amount_log :
  forall (fx : Scanner.effects) (item : Item.t) (s : Scanner.t),
    Scanner.new_amount_log (snd (Scanner._check_item fx item s))
    = Scanner.new_amount_log s
      ++ (if Trace.new_amount_due fx (Scanner.amounts s !! Item.item_id item)
                                  (Item.items_available item)
          then [(Item.display_name item, Item.items_available item)]
          else []).
Proof.
  intros [o1 o2 o3] item [am me se ca lo].
  unfold Scanner._check_item, Scanner._send_messages, Scanner.send_notifications_inc,
    Scanner.item_count_set, Scanner.amounts_getitem, Scanner.amounts_setitem,
    Trace.new_amount_due, Trace.try_block_returns, Spec.rising_edge.
  unfold_monad.
  cbn [Scanner.amounts Scanner.new_amount_log Scanner.send_messages_raises
       Scanner.send_notifications_inc_raises Scanner.item_count_set_raises].
  generalize (Item.items_available item) (Item.item_id item) (Item.display_name item).
  intros n id name.
  destruct (am !! id) as [a|] eqn:Ha; cbn -[Z.eqb Z.gtb Z.ltb].
  2:{ rewrite lookup_insert_eq, Z.eqb_refl. cbn. now rewrite app_nil_r. }
  rewrite Z.gtb_ltb.
  destruct (Z.eqb_spec a 0) as [->|Hne]; cbn -[Z.eqb Z.gtb Z.ltb].
  - destruct (Z.ltb_spec 0 n) as [Hgt|Hle]; cbn -[Z.eqb Z.gtb Z.ltb].
    + destruct o1, o2, o3; cbn -[Z.eqb Z.gtb Z.ltb];
        rewrite ?lookup_insert_eq, ?Ha, ?Z.eqb_refl, ?andb_false_r;
        cbn -[Z.eqb Z.gtb Z.ltb]; rewrite ?app_nil_r; try reflexivity.
      destruct (Z.eqb_spec 0 n); [lia | reflexivity].
    + destruct o3; cbn -[Z.eqb Z.gtb Z.ltb];
        rewrite ?lookup_insert_eq, ?Ha, ?Z.eqb_refl, ?andb_false_r;
        cbn -[Z.eqb Z.gtb Z.ltb]; rewrite ?app_nil_r; try reflexivity.
      destruct (Z.eqb_spec 0 n); cbn; now rewrite ?app_nil_r.
  - destruct o3; cbn -[Z.eqb Z.gtb Z.ltb];
      rewrite ?lookup_insert_eq, ?Ha, ?Z.eqb_refl, ?andb_false_r;
      cbn -[Z.eqb Z.gtb Z.ltb]; rewrite ?app_nil_r; try reflexivity.
    destruct (Z.eqb_spec a n); cbn; now rewrite ?app_nil_r.
Qed.

(** ** The page loops, whatever the provider answers *)

Section PageLoops.

Context {Data : Type}.
Variable get_items : nat -> Z -> Z -> result (list Data).

Lemma length_calls_add c (s : Scanner.t) :
  length (Scanner.get_items_calls (Scanner.add_get_items_call c s))
  = S (length (Scanner.get_items_calls s)).
Proof. cbn. rewrite length_app. cbn. lia. Qed.

(** The loop of [Scanner._get_favorites] from any of its states. *)
Lemma scanner_loop_trace fuel : forall (l : Scanner.locals) (s : Scanner.t),
  exists calls : list (Z * Z),
    let run := Scanner.loop get_items fuel l s in
    let ans := Trace.answers get_items (length (Scanner.get_items_calls s)) calls in
    Scanner.get_items_calls (snd run) = Scanner.get_items_calls s ++ calls
    /\ map fst calls = repeat Scanner.page_size (length calls)
    /\ map snd calls = Trace.pages_retrying (Scanner.page l) ans
    /\ Trace.failures ans <= Z.max 0 (5 - Scanner.error_count l)
    /\ Metrics.get_favorites_errors (Scanner.metrics (snd run))
       = Metrics.get_favorites_errors (Scanner.metrics s) + Trace.failures ans
    /\ match fst run with
       | Ok (Some items) => items = Scanner.items l ++ Trace.fetched ans
       | Ok None => True
       | Raise _ => False
       end
    /\ Scanner.amounts (snd run) = Scanner.amounts s
    /\ Scanner.sent (snd run) = Scanner.sent s.
Proof.
  induction fuel as [|fuel IH]; intros l s.
  - exists []. cbn. rewrite app_nil_r, Z.add_0_r. repeat split; auto. lia.
  - cbn [Scanner.loop].
    destruct (Z.ltb_spec (Scanner.error_count l) 5) as [He|He].
    2:{ exists []. cbn. rewrite !app_nil_r, Z.add_0_r. repeat split; auto. lia. }
    unfold bind, Scanner.loop_body.
    destruct (get_items (length (Scanner.get_items_calls s)) Scanner.page_size
                        (Scanner.page l)) as [new|e] eqn:Hans.
    + destruct (Z.ltb_spec (Z.of_nat (length new)) Scanner.page_size) as [Hshort|Hfull].
      * exists [(Scanner.page_size, Scanner.page l)].
        cbn [Trace.answers Trace.fetched Trace.failures Trace.pages_retrying
             map fst snd length repeat ret].
        rewrite Hans. cbn. rewrite app_nil_r, Z.add_0_r. repeat split; auto. lia.
      * destruct (IH (Scanner.mk_locals (Scanner.items l ++ new) (Scanner.page l + 1)
                                        (Scanner.error_count l))
                     (Scanner.add_get_items_call (Scanner.page_size, Scanner.page l) s))
          as (calls & Hcalls & Hsize & Hpages & Hfail & Hmetric & Hres & Ham & Hsent).
        cbn zeta in *. rewrite length_calls_add in *.
        cbn [Scanner.page Scanner.items Scanner.error_count] in *.
        exists ((Scanner.page_size, Scanner.page l) :: calls).
        cbn [Trace.answers]. rewrite Hans.
        cbn [Trace.fetched Trace.failures Trace.pages_retrying is_Ok map fst snd
             length repeat].
        rewrite Hcalls, Hsize, Hpages, Hmetric, Ham, Hsent. cbn.
        rewrite <- List.app_assoc. repeat split; auto.
        destruct (fst (Scanner.loop get_items fuel _ _)) as [[items|]|]; auto.
        now rewrite Hres, <- List.app_assoc.
    + destruct (IH (Scanner.mk_locals (Scanner.items l) (Scanner.page l)
                                      (Scanner.error_count l + 1))
                   (Scanner.set_metrics Metrics.get_favorites_errors_inc
                      (Scanner.add_get_items_call (Scanner.page_size, Scanner.page l) s)))
        as (calls & Hcalls & Hsize & Hpages & Hfail & Hmetric & Hres & Ham & Hsent).
      cbn zeta in *.
      change (Scanner.get_items_calls (Scanner.set_metrics ?f ?x))
        with (Scanner.get_items_calls x) in *.
      rewrite length_calls_add in *.
      cbn [Scanner.page Scanner.items Scanner.error_count] in *.
      exists ((Scanner.page_size, Scanner.page l) :: calls).
      cbn [Trace.answers]. rewrite Hans.
      cbn [Trace.fetched Trace.failures Trace.pages_retrying is_Ok map fst snd
           length repeat].
      rewrite Hcalls, Hsize, Hpages, Hmetric, Ham, Hsent. cbn.
      rewrite <- List.app_assoc. repeat split; auto; lia.
Qed.

(** The loop of [Helper.favorites] from any of its states. *)
Lemma helper_loop_trace fuel : forall (items : list Data) (page : Z) (s : Scanner.t),
  exists calls : list (Z * Z),
    let run := Helper.loop get_items fuel items page s in
    let ans := Trace.answers get_items (length (Scanner.get_items_calls s)) calls in
    Scanner.get_items_calls (snd run) = Scanner.get_items_calls s ++ calls
    /\ calls = Spec.page_requests page (length calls)
    /\ match fst run with
       | Ok (Some result) => result = items ++ Trace.fetched ans
       | Ok None => length calls = fuel
       | Raise _ => False
       end
    /\ Scanner.metrics (snd run) = Scanner.metrics s
    /\ Scanner.amounts (snd run) = Scanner.amounts s.
Proof.
  induction fuel as [|fuel IH]; intros items page s.
  - exists []. cbn. rewrite app_nil_r. repeat split; auto.
  - cbn [Helper.loop]. unfold bind, Helper.loop_body.
    destruct (get_items (length (Scanner.get_items_calls s)) Scanner.page_size page)
      as [new|e] eqn:Hans.
    + destruct (Z.ltb_spec (Z.of_nat (length new)) Scanner.page_size) as [Hshort|Hfull].
      * exists [(Scanner.page_size, page)].
        cbn [Trace.answers Trace.fetched length Spec.page_requests ret].
        rewrite Hans. cbn. rewrite app_nil_r. repeat split; auto.
      * destruct (IH (items ++ new) (page + 1)
                     (Scanner.add_get_items_call (Scanner.page_size, page) s))
          as (calls & Hcalls & Hpages & Hres & Hme & Ham).
        cbn zeta in *. rewrite length_calls_add in *.
        exists ((Scanner.page_size, page) :: calls).
        cbn [Trace.answers Trace.fetched length Spec.page_requests]. rewrite Hans.
        rewrite Hcalls, <- Hpages, Hme, Ham. cbn. rewrite <- List.app_assoc.
        repeat split; auto.
        destruct (fst (Helper.loop get_items fuel _ _ _)) as [[result|]|]; auto.
        now rewrite Hres, <- List.app_assoc.
    + destruct (IH items (page + 1)
                   (Scanner.add_get_items_call (Scanner.page_size, page) s))
        as (calls & Hcalls & Hpages & Hres & Hme & Ham).
      cbn zeta in *. rewrite length_calls_add in *.
      exists ((Scanner.page_size, page) :: calls).
      cbn [Trace.answers Trace.fetched length Spec.page_requests]. rewrite Hans.
      rewrite Hcalls, <- Hpages, Hme, Ham. cbn. rewrite <- List.app_assoc.
      repeat split; auto.
      destruct (fst (Helper.loop get_items fuel _ _ _)) as [[result|]|]; auto.
Qed.

(** While every fetch raises, the loop of [Helper.favorites] goes on. *)
Lemma helper_loop_failing fuel : forall (items : list Data) (page : Z) (s : Scanner.t),
  (forall n p, is_Ok (get_items n Scanner.page_size p) = false) ->
  Helper.loop get_items fuel items page s
  = (Ok None,
     Scanner.mk (Scanner.amounts s) (Scanner.metrics s) (Scanner.sent s)
                (Scanner.get_items_calls s ++ Spec.page_requests page fuel)
                (Scanner.new_amount_log s)).
Proof.
  induction fuel as [|fuel IH]; intros items page s Hfail.
  - cbn. rewrite app_nil_r. now destruct s.
  - cbn [Helper.loop]. unfold bind, Helper.loop_body.
    pose proof (Hfail (length (Scanner.get_items_calls s)) page) as H0.
    destruct (get_items _ _ _); [discriminate|].
    rewrite IH by assumption. cbn. now rewrite <- List.app_assoc.
Qed.

End PageLoops.

(** X4. Whatever the provider answers and however long it runs, one call of
    the favorites fetch asks for pages of 100 starting at page 1, moves to
    the next page after an answer and stays on the page after an exception;
    at most 5 of its fetches raise, each counted by the error metric; it
    never raises itself, and when it returns, the result is the records of
    all the answered fetches, in order.  The tracker is not touched. *)
Theorem get_favorites_trace :
  forall (Data : Type) (get_items : nat -> Z -> Z -> result (list Data))
         (fuel : nat) (s : Scanner.t),
  exists calls : list (Z * Z),
    let run := Scanner._get_favorites get_items fuel s in
    let ans := Trace.answers get_items (length (Scanner.get_items_calls s)) calls in
    Scanner.get_items_calls (snd run) = Scanner.get_items_calls s ++ calls
    /\ map fst calls = repeat 100 (length calls)
    /\ map snd calls = Trace.pages_retrying 1 ans
    /\ Trace.failures ans <= 5
    /\ Metrics.get_favorites_errors (Scanner.metrics (snd run))
       = Metrics.get_favorites_errors (Scanner.metrics s) + Trace.failures ans
    /\ match fst run with
       | Ok (Some items) => items = Trace.fetched ans
       | Ok None => True
       | Raise _ => False
       end
    /\ Scanner.amounts (snd run) = Scanner.amounts s.
Proof.
  intros Data get_items fuel s.
  destruct (scanner_loop_trace get_items fuel (Scanner.mk_locals [] 1 0) s)
    as (calls & Hcalls & Hsize & Hpages & Hfail & Hmetric & Hres & Ham & _).
  exists calls. cbn zeta in *. cbn [Scanner.items Scanner.page Scanner.error_count] in *.
  repeat split; auto.
Qed.

(** X5. Whatever the provider answers, the [n]-th request of
    [Helper.favorites] is for page [n]: the page moves on after an exception
    too, so a page whose fetch raised is not asked for again and its records
    are missing from the result, which is the records of the answered
    fetches only.  No metric is touched. *)
Theorem helper_favorites_trace :
  forall (Data : Type) (get_items : nat -> Z -> Z -> result (list Data))
         (fuel : nat) (s : Scanner.t),
  exists calls : list (Z * Z),
    let run := Helper.favorites get_items fuel s in
    let ans := Trace.answers get_items (length (Scanner.get_items_calls s)) calls in
    Scanner.get_items_calls (snd run) = Scanner.get_items_calls s ++ calls
    /\ calls = Spec.page_requests 1 (length calls)
    /\ match fst run with
       | Ok (Some result) => result = Trace.fetched ans
       | Ok None => length calls = fuel
       | Raise _ => False
       end
    /\ Scanner.metrics (snd run) = Scanner.metrics s.
Proof.
  intros Data get_items fuel s.
  destruct (helper_loop_trace get_items fuel [] 1 s)
    as (calls & Hcalls & Hpages & Hres & Hme & _).
  exists calls. repeat split; auto.
Qed.

(** A listing whose second page fails once: [Helper.favorites] loses the
    page, [Scanner._get_favorites] asks for it again. *)
Lemma favorites_gap :
  Helper.favorites MoreExamples.listing_gap 10 Scanner.init
  = (Ok (Some (seq 0 100 ++ seq 200 40)),
     Scanner.mk ∅ Metrics.empty [] [(100, 1); (100, 2); (100, 3)] [])
  /\ Scanner.get_items_calls
       (snd (Scanner._get_favorites MoreExamples.listing_gap 10 Scanner.init))
     = [(100, 1); (100, 2); (100, 2)].
Proof. split; reflexivity. Qed.

(** X6. [Helper.favorites] has no error bound: while every fetch raises it
    keeps asking, one page after the other, and does not return. *)
Theorem helper_favorites_unbounded :
  forall (Data : Type) (get_items : nat -> Z -> Z -> result (list Data)),
    (forall n p, is_Ok (get_items n 100 p) = false) ->
    forall (fuel : nat) (s : Scanner.t),
      fst (Helper.favorites get_items fuel s) = Ok None
      /\ Scanner.get_items_calls (snd (Helper.favorites get_items fuel s))
         = Scanner.get_items_calls s ++ Spec.page_requests 1 fuel.
Proof.
  intros Data get_items Hfail fuel s. unfold Helper.favorites.
  rewrite helper_loop_failing by exact Hfail. split; reflexivity.
Qed.

Lemma helper_favorites_unbounded_witness :
  fst (Helper.favorites Examples.listing_down 7 Scanner.init) = Ok None
  /\ length (Scanner.get_items_calls
               (snd (Helper.favorites Examples.listing_down 7 Scanner.init))) = 7%nat.
Proof.
  destruct (helper_favorites_unbounded nat Examples.listing_down
              (fun _ _ => eq_refl) 7%nat Scanner.init) as [Hres Hcalls].
  split; [exact Hres|]. rewrite Hcalls. reflexivity.
Defined.

(** ** The session of [tgtg.py], further *)

Section SessionMore.

Import TgtgClient.

Variable server : nat -> Response.

(** [login] on a session with neither an email nor the three tokens. *)
Lemma login_unconfigured s :
  truthy (email (self s)) = false ->
  _already_logged (self s) = false ->
  login server s
  = (Raise (TGTGConfigurationError
              [AStr "You must provide at least email or access_token, refresh_token and user_id"]),
     s).
Proof.
  intros Hemail Hlogged. unfold login. unfold bind at 1, get.
  unfold _already_logged in Hlogged. now rewrite Hemail, Hlogged.
Qed.

Lemma timedelta_seconds_range delta : 0 <= timedelta_seconds delta < 86400.
Proof. unfold timedelta_seconds. apply Z.mod_pos_bound. lia. Qed.

Lemma timedelta_seconds_days delta days :
  timedelta_seconds (delta + days * 86400000000) = timedelta_seconds delta.
Proof.
  unfold timedelta_seconds.
  replace (delta + days * 86400000000) with (delta + (days * 86400) * 1000000) by lia.
  rewrite Z.div_add by lia. now rewrite Z.mod_add by lia.
Qed.

(** A polling attempt answered with neither 202 nor 200. *)
Lemma poll_rejected n polling_id s :
  let response := server (length (requests s)) in
  status_code response <> ACCEPTED ->
  status_code response <> OK ->
  poll server (S n) polling_id s
  = (Raise (if status_code response =? TOO_MANY_REQUESTS
            then TgtgAPIError [AStr "429 - Too many requests. Try again later."]
            else TgtgLoginError [AInt (status_code response); AStr (content response)]),
     Spec.posted (Spec.polling_request (self s) polling_id) s).
Proof.
  intros response H202 H200. subst response. rewrite poll_S. cbn zeta.
  destruct (Z.eqb_spec (status_code (server (length (requests s)))) ACCEPTED);
    [contradiction|].
  destruct (Z.eqb_spec (status_code (server (length (requests s)))) OK);
    [contradiction|].
  now destruct (status_code _ =? TOO_MANY_REQUESTS).
Qed.

(** What the lookup of the user id raises is a [KeyError] or a
    [TypeError]. *)
Lemma user_id_of_raises response e :
  Spec.user_id_of response = Raise e ->
  e = TypeError \/ exists key, e = KeyError key.
Proof.
  unfold Spec.user_id_of.
  destruct (json_startup_data response) as [[|[[|[u|]]|]]|]; intros [= <-]; eauto.
Qed.

(** The polling loop changes the session only when it ends well, or on the
    [KeyError] or [TypeError] of an answer that lacks a key. *)
Lemma poll_failure_keeps_self n : forall polling_id s e s',
  poll server n polling_id s = (Raise e, s') ->
  Trace.not_KeyError e ->
  e <> TypeError ->
  self s' = self s.
Proof.
  induction n as [|n IH]; intros polling_id s e s' Hrun Hkey Htype.
  - cbn in Hrun. now injection Hrun as _ <-.
  - rewrite poll_S in Hrun. cbn zeta in Hrun.
    destruct (status_code _ =? ACCEPTED).
    + destruct (polling_wait_time (self s) <? 0); [now injection Hrun as _ <-|].
      destruct (time_sleep s (polling_wait_time (self s)));
        [now injection Hrun as _ <-|].
      apply IH in Hrun; [exact Hrun | exact Hkey | exact Htype].
    + destruct (status_code _ =? OK).
      * destruct (json_access_token _) as [a|];
          [|injection Hrun as <- _; now destruct (Hkey "access_token")].
        destruct (json_refresh_token _) as [r|];
          [|injection Hrun as <- _; now destruct (Hkey "refresh_token")].
        destruct (Spec.user_id_of _) as [u|e0] eqn:Hu; [discriminate|].
        injection Hrun as <- _.
        destruct (user_id_of_raises _ _ Hu) as [->|[key ->]];
          [contradiction | now destruct (Hkey key)].
      * destruct (status_code _ =? TOO_MANY_REQUESTS); now injection Hrun as _ <-.
Qed.

End SessionMore.

(** X7. With a wait time that [time.sleep] accepts (one that is not negative
    and that the platform can hold), polling stops at the first answer
    that is neither "still pending" nor "confirmed": after [k]
    pending attempts such an answer raises at once, [TgtgAPIError] for
    status 429 and [TgtgLoginError] with the status and content otherwise;
    no attempt and no sleep follows it and the session is as it was. *)
Theorem polling_stops_on_error :
  forall (server : nat -> TgtgClient.Response) (polling_id : string)
         (s : TgtgClient.state) (k : nat),
    let tries := Z.to_nat (TgtgClient.max_polling_tries (TgtgClient.self s)) in
    let sent := length (TgtgClient.requests s) in
    let response := server (sent + k)%nat in
    0 <= TgtgClient.polling_wait_time (TgtgClient.self s) ->
    TgtgClient.time_sleep s (TgtgClient.polling_wait_time (TgtgClient.self s)) = None ->
    (k < tries)%nat ->
    (forall i : nat, (i < k)%nat ->
       TgtgClient.status_code (server (sent + i)%nat) = TgtgClient.ACCEPTED) ->
    TgtgClient.status_code response <> 202 ->
    TgtgClient.status_code response <> 200 ->
    TgtgClient.start_polling server polling_id s
    = (Raise (if TgtgClient.status_code response =? 429
              then TgtgAPIError [AStr "429 - Too many requests. Try again later."]
              else TgtgLoginError [AInt (TgtgClient.status_code response);
                                   AStr (TgtgClient.content response)]),
       Spec.posted (Spec.polling_request (TgtgClient.self s) polling_id)
                   (Spec.after_pending k polling_id s)).
Proof.
  intros server polling_id s k tries sent response Hwait Hsleep Hk Hpend H202 H200.
  unfold TgtgClient.start_polling, bind, get. fold tries.
  replace tries with (k + S (tries - S k))%nat by lia.
  rewrite poll_pending_many by assumption.
  assert (length (TgtgClient.requests (Spec.after_pending k polling_id s))
          = (sent + k)%nat) as Hlen
    by (cbn; now rewrite length_app, repeat_length).
  rewrite poll_rejected; rewrite Hlen; auto.
Qed.

Lemma polling_stops_on_error_witness :
  exists s',
    TgtgClient.start_polling MoreExamples.pending_then_limited "poll-1"
      (Examples.at_time Examples.email_only 7)
    = (Raise (TgtgAPIError [AStr "429 - Too many requests. Try again later."]), s')
    /\ length (TgtgClient.requests s') = 2%nat
    /\ TgtgClient.sleeps s' = [0]
    /\ TgtgClient.self s' = Examples.email_only.
Proof.
  eexists. split.
  - apply (polling_stops_on_error MoreExamples.pending_then_limited "poll-1"
             (Examples.at_time Examples.email_only 7) 1%nat).
    + cbn; lia.
    + reflexivity.
    + cbn; lia.
    + intros [|i] Hi; [reflexivity | lia].
    + discriminate.
    + discriminate.
  - repeat split.
Defined.

(** X8. The whole login by email, with a wait time that [time.sleep]
    accepts (one that is not negative and that the platform can hold).
    For a session with an email that is not logged in: when the provider accepts the email ("WAIT" with a polling
    identifier), answers [k] polling attempts with "still pending" and the
    next with "confirmed", [login] returns after [k + 2] requests and [k]
    sleeps with the provider's tokens and user id stored and the refresh
    time set to the current time.  With non-empty tokens and a non-negative
    lifetime, calling [login] again right away posts nothing. *)
Theorem login_by_email :
  forall (server : nat -> TgtgClient.Response) (s : TgtgClient.state)
         (polling_id a r u : string) (k : nat),
    let sent := length (TgtgClient.requests s) in
    let s1 := Spec.posted (Spec.email_request (TgtgClient.self s)) s in
    let waited := Spec.after_pending k polling_id s1 in
    let final :=
      TgtgClient.set_self (Spec.logged_in a r u (TgtgClient.clock waited))
        (Spec.posted (Spec.polling_request (TgtgClient.self s) polling_id) waited) in
    TgtgClient.truthy (TgtgClient.email (TgtgClient.self s)) = true ->
    TgtgClient._already_logged (TgtgClient.self s) = false ->
    0 <= TgtgClient.polling_wait_time (TgtgClient.self s) ->
    TgtgClient.time_sleep s (TgtgClient.polling_wait_time (TgtgClient.self s)) = None ->
    TgtgClient.status_code (server sent) = 200 ->
    TgtgClient.json_state (server sent) = Some "WAIT" ->
    TgtgClient.json_polling_id (server sent) = Some polling_id ->
    (k < Z.to_nat (TgtgClient.max_polling_tries (TgtgClient.self s)))%nat ->
    (forall i : nat, (i < k)%nat ->
       TgtgClient.status_code (server (S sent + i)%nat) = 202) ->
    TgtgClient.status_code (server (S sent + k)%nat) = 200 ->
    TgtgClient.json_access_token (server (S sent + k)%nat) = Some a ->
    TgtgClient.json_refresh_token (server (S sent + k)%nat) = Some r ->
    TgtgClient.json_startup_data (server (S sent + k)%nat)
    = TgtgClient.startup_data u ->
    TgtgClient.login server s = (Ok tt, final)
    /\ length (TgtgClient.requests final) = (sent + k + 2)%nat
    /\ length (TgtgClient.sleeps final) = (length (TgtgClient.sleeps s) + k)%nat
    /\ (a <> "" -> r <> "" -> u <> "" ->
        0 <= TgtgClient.access_token_lifetime (TgtgClient.self s) ->
        TgtgClient.login server final = (Ok tt, final)).
Proof.
  intros server s polling_id a r u k sent s1 waited final
         Hemail Hlogged Hsleep Hplatform Hst Hwait Hpid Hk Hpend Hok Ha Hr Hu.
  assert (length (TgtgClient.requests s1) = S sent) as Hlen1
    by (cbn; rewrite length_app; cbn; lia).
  assert (length (TgtgClient.requests waited) = (S sent + k)%nat) as Hlenw
    by (unfold waited; cbn [Spec.after_pending TgtgClient.requests];
        rewrite length_app, repeat_length; lia).
  split; [|split; [|split]].
  - rewrite (login_with_email server s Hemail Hlogged). cbn zeta. fold sent s1.
    unfold TgtgClient.OK. rewrite Hst, Hwait, Hpid. cbn.
    unfold TgtgClient.start_polling, bind, get.
    change (TgtgClient.max_polling_tries (TgtgClient.self s1))
      with (TgtgClient.max_polling_tries (TgtgClient.self s)).
    replace (Z.to_nat (TgtgClient.max_polling_tries (TgtgClient.self s)))
      with (k + S (Z.to_nat (TgtgClient.max_polling_tries (TgtgClient.self s)) - S k))%nat
      by lia.
    rewrite poll_pending_many
      by (try exact Hsleep; try exact Hplatform;
          intros i Hi; rewrite Hlen1; now apply Hpend).
    fold waited.
    rewrite (poll_confirmed server _ polling_id waited a r u); rewrite ?Hlenw; auto.
  - unfold final. cbn [TgtgClient.set_self Spec.posted TgtgClient.requests].
    rewrite length_app, Hlenw. cbn. lia.
  - unfold final, waited, s1. cbn. now rewrite length_app, repeat_length.
  - intros Hane Hrne Hune Hlife.
    apply (login_noop_within_lifetime server final (TgtgClient.clock waited)).
    + unfold final, TgtgClient._already_logged, TgtgClient.truthy.
      cbn [TgtgClient.set_self TgtgClient.self Spec.logged_in TgtgClient.access_token
           TgtgClient.refresh_token TgtgClient.user_id].
      apply String.eqb_neq in Hane, Hrne, Hune. now rewrite Hane, Hrne, Hune.
    + reflexivity.
    + unfold Spec.elapsed, final. cbn [TgtgClient.set_self Spec.posted TgtgClient.clock
        TgtgClient.self Spec.logged_in TgtgClient.access_token_lifetime].
      change (TgtgClient.access_token_lifetime (TgtgClient.self waited))
        with (TgtgClient.access_token_lifetime (TgtgClient.self s)).
      lia.
Qed.

Lemma login_by_email_witness :
  exists final,
    TgtgClient.login MoreExamples.mail_login (Examples.at_time Examples.email_only 7)
    = (Ok tt, final)
    /\ TgtgClient.access_token (TgtgClient.self final) = Some "access-1"
    /\ TgtgClient.user_id (TgtgClient.self final) = Some "user-1"
    /\ length (TgtgClient.requests final) = 3%nat
    /\ TgtgClient.login MoreExamples.mail_login final = (Ok tt, final).
Proof.
  destruct (login_by_email MoreExamples.mail_login (Examples.at_time Examples.email_only 7)
              "poll-1" "access-1" "refresh-1" "user-1" 1%nat)
    as (Hlogin & Hreq & _ & Hagain); try reflexivity.
  - cbn; lia.
  - intros [|i] Hi; [reflexivity | lia].
  - eexists. split; [exact Hlogin|].
    split. { reflexivity. }
    split. { reflexivity. }
    split. { exact Hreq. }
    apply Hagain; discriminate.
Defined.

Section RefreshMore.

Import TgtgClient.

Variable server : nat -> Response.

(** What [login] does on a logged-in session depends on the clock only
    through [timedelta.seconds] of the elapsed time. *)
Lemma login_logged_days s days last :
  _already_logged (self s) = true ->
  last_time_token_refreshed (self s) = Some last ->
  fst (login server (Trace.days_later days s)) = fst (login server s)
  /\ requests (snd (login server (Trace.days_later days s)))
     = requests (snd (login server s)).
Proof.
  intros Hlogged Hlast.
  rewrite !login_logged by assumption. rewrite !refresh_token_run.
  cbn [Trace.days_later self clock requests]. rewrite Hlast.
  replace (clock s + days * 86400000000 - last)
    with (clock s - last + days * 86400000000) by lia.
  rewrite timedelta_seconds_days.
  destruct (timedelta_seconds (clock s - last) <=? access_token_lifetime (self s));
    [split; reflexivity|].
  cbn zeta. cbn [Spec.posted requests self Trace.days_later].
  destruct (status_code _ =? OK); [|split; reflexivity].
  destruct (json_access_token _); [|split; reflexivity].
  destruct (json_refresh_token _); split; reflexivity.
Qed.

(** A failed [login] leaves the session as it was, unless the failure is the
    [KeyError] or the [TypeError] of a malformed answer. *)
Lemma login_failure_keeps_self s e s' :
  login server s = (Raise e, s') ->
  Trace.not_KeyError e ->
  e <> TypeError ->
  self s' = self s.
Proof.
  intros Hrun Hkey Htype.
  destruct (_already_logged (self s)) eqn:Hlogged.
  - rewrite login_logged, refresh_token_run in Hrun by assumption.
    destruct (match last_time_token_refreshed (self s) with
              | Some _ => _ | None => _ end); [discriminate|].
    cbn zeta in Hrun.
    destruct (status_code _ =? OK).
    + destruct (json_access_token _) as [a|];
        [|injection Hrun as <- _; now destruct (Hkey "access_token")].
      destruct (json_refresh_token _) as [r|]; [discriminate|].
      injection Hrun as <- _. now destruct (Hkey "refresh_token").
    + now injection Hrun as _ <-.
  - destruct (truthy (email (self s))) eqn:Hemail.
    + rewrite (login_with_email server s Hemail Hlogged) in Hrun. cbn zeta in Hrun.
      destruct (status_code _ =? OK).
      * destruct (json_state _) as [st|];
          [|injection Hrun as <- _; now destruct (Hkey "state")].
        destruct (String.eqb st "TERMS"); [now injection Hrun as _ <-|].
        destruct (String.eqb st "WAIT"); [|now injection Hrun as _ <-].
        destruct (json_polling_id _) as [polling_id|];
          [|injection Hrun as <- _; now destruct (Hkey "polling_id")].
        unfold start_polling, bind, get in Hrun.
        now apply poll_failure_keeps_self in Hrun.
      * destruct (status_code _ =? 429); now injection Hrun as _ <-.
    + rewrite (login_unconfigured server s Hemail Hlogged) in Hrun.
      now injection Hrun as _ <-.
Qed.

End RefreshMore.

(** X9. With a token lifetime of 86399 seconds or more, a logged-in session
    that has refreshed once never posts a refresh again, whatever the time:
    [login] posts nothing and changes nothing. *)
Theorem login_never_refreshes_long_lifetime :
  forall (server : nat -> TgtgClient.Response) (s : TgtgClient.state) (last : Z),
    TgtgClient._already_logged (TgtgClient.self s) = true ->
    TgtgClient.last_time_token_refreshed (TgtgClient.self s) = Some last ->
    86399 <= TgtgClient.access_token_lifetime (TgtgClient.self s) ->
    TgtgClient.login server s = (Ok tt, s).
Proof.
  intros server s last Hlogged Hlast Hlife.
  rewrite login_logged, refresh_token_run, Hlast by assumption.
  pose proof (timedelta_seconds_range (TgtgClient.clock s - last)).
  now destruct (Z.leb_spec (TgtgClient.timedelta_seconds (TgtgClient.clock s - last))
                           (TgtgClient.access_token_lifetime (TgtgClient.self s)));
    [|lia].
Qed.

Lemma login_never_refreshes_long_lifetime_witness :
  TgtgClient.login (Examples.always MoreExamples.unavailable)
    (Examples.at_time MoreExamples.long_lived MoreExamples.three_days)
  = (Ok tt, Examples.at_time MoreExamples.long_lived MoreExamples.three_days).
Proof.
  apply (login_never_refreshes_long_lifetime _ _ 0); [reflexivity | reflexivity|].
  cbn; lia.
Defined.

(** X10. Whether [login] posts a refresh on a logged-in session depends on
    the time since the last refresh only up to whole days: moving the clock
    by any number of days changes neither the outcome nor the requests
    posted. *)
Theorem login_refresh_periodic :
  forall (server : nat -> TgtgClient.Response) (s : TgtgClient.state) (days last : Z),
    TgtgClient._already_logged (TgtgClient.self s) = true ->
    TgtgClient.last_time_token_refreshed (TgtgClient.self s) = Some last ->
    fst (TgtgClient.login server (Trace.days_later days s))
    = fst (TgtgClient.login server s)
    /\ TgtgClient.requests (snd (TgtgClient.login server (Trace.days_later days s)))
       = TgtgClient.requests (snd (TgtgClient.login server s)).
Proof.
  intros server s days last Hlogged Hlast. now apply (login_logged_days server s days last).
Qed.

Lemma login_refresh_periodic_witness :
  TgtgClient.requests
    (snd (TgtgClient.login (Examples.always MoreExamples.unavailable)
            (Trace.days_later 2 (Examples.at_time Examples.credentialed MoreExamples.five_hours))))
  = [Spec.refresh_request Examples.credentialed].
Proof.
  destruct (login_refresh_periodic (Examples.always MoreExamples.unavailable)
              (Examples.at_time Examples.credentialed MoreExamples.five_hours) 2 0
              eq_refl eq_refl) as [_ Hreq].
  rewrite Hreq. reflexivity.
Defined.

(** X11. A [login] that fails leaves the session (tokens, user id, refresh
    time, settings) exactly as it was, whatever the provider answered,
    unless the failure is the [KeyError] or the [TypeError] of a 200 answer
    that lacks a key or holds something else than an object where the
    client subscripts it. *)
Theorem login_failure_keeps_credentials :
  forall (server : nat -> TgtgClient.Response) (s s' : TgtgClient.state) (e : exn),
    TgtgClient.login server s = (Raise e, s') ->
    (forall key, e <> KeyError key) ->
    e <> TypeError ->
    TgtgClient.self s' = TgtgClient.self s.
Proof.
  intros server s s' e Hrun Hkey Htype.
  now apply (login_failure_keeps_self server s e s').
Qed.

Lemma login_failure_keeps_credentials_witness :
  TgtgClient.self
    (snd (TgtgClient.login (Examples.always MoreExamples.unavailable)
            (Examples.at_time Examples.credentialed MoreExamples.five_hours)))
  = Examples.credentialed.
Proof.
  apply (login_failure_keeps_credentials (Examples.always MoreExamples.unavailable)
           (Examples.at_time Examples.credentialed MoreExamples.five_hours) _
           (TgtgAPIError [AInt 503; AStr "Service Unavailable"])).
  - reflexivity.
  - discriminate.
  - discriminate.
Defined.

(** The excluded failures do change the session: a confirmed polling answer
    whose startup data is [null] raises [TypeError] after the tokens and
    the refresh time were stored. *)
Lemma login_null_startup_data :
  exists s',
    TgtgClient.login MoreExamples.mail_login_null_startup
      (Examples.at_time Examples.email_only 7)
    = (Raise TypeError, s')
    /\ TgtgClient.access_token (TgtgClient.self s') = Some "access-1"
    /\ TgtgClient.refresh_token (TgtgClient.self s') = Some "refresh-1"
    /\ TgtgClient.last_time_token_refreshed (TgtgClient.self s') = Some 7
    /\ TgtgClient.user_id (TgtgClient.self s') = None.
Proof. eexists. vm_compute. repeat split. Qed.

(** ** The item operations of [tgtg.py] *)

Section ItemOperations.

Context {Data : Type}.
Variable server : nat -> TgtgClient.Response.
Variable json_items : TgtgClient.Response -> option (list Data).
Variable json_item : TgtgClient.Response -> Data.
Variable item_url : string -> string.


Lemma after_login_ok {A} (k : M TgtgClient.state A) s s1 :
  TgtgClient.login server s = (Ok tt, s1) ->
  (TgtgClient.login server >> k) s = k s1.
Proof. intros H. unfold bind. now rewrite H. Qed.


(** The four operations when [login] returns. *)
Lemma operations_login_ok s s1 :
  TgtgClient.login server s = (Ok tt, s1) ->
  let response := server (length (TgtgClient.requests s1)) in
  let error :=
    TgtgAPIError [AInt (TgtgClient.status_code response);
                  AStr (TgtgClient.content response)] in
  (forall f,
      Api.get_items server json_items item_url f s
      = (if TgtgClient.status_code response =? 200
         then match json_items response with
              | Some items => Ok items
              | None => Raise (KeyError "items")
              end
         else Raise error,
         Spec.posted (TgtgClient.mk_request (item_url "")
                        (Api.body (Api.get_items_data (TgtgClient.self s1) f))) s1))
  /\ (forall item_id,
         Api.get_item server json_item item_url item_id s
         = (if TgtgClient.status_code response =? 200
            then Ok (json_item response)
            else Raise error,
            Spec.posted (TgtgClient.mk_request (item_url item_id)
                           [("user_id", TgtgClient.user_id (TgtgClient.self s1));
                            ("origin", None)]) s1))
  /\ (forall item_id b,
         Api.set_favorite server item_url item_id b s
         = (if TgtgClient.status_code response =? 200 then Ok tt else Raise error,
            Spec.posted (TgtgClient.mk_request (item_url (item_id +:+ "/setFavorite"))
                           [("is_favorite", Some (if b then "true" else "false"))]) s1))
  /\ Api.credentials server s
     = (Ok (TgtgClient.access_token (TgtgClient.self s1),
            TgtgClient.refresh_token (TgtgClient.self s1),
            TgtgClient.user_id (TgtgClient.self s1)), s1).
Proof.
  intros H response error. subst response error.
  unfold Api.get_items, Api.get_item, Api.set_favorite, Api.credentials.
  repeat split; intros; rewrite (after_login_ok _ s s1 H);
    unfold bind, get, TgtgClient._request, Api.api_error, ret, raise, TgtgClient.OK,
      Spec.posted;
    cbn [TgtgClient.self TgtgClient.requests].
  - destruct (TgtgClient.status_code _ =? 200); [|reflexivity].
    now destruct (json_items _).
  - now destruct (TgtgClient.status_code _ =? 200).
  - destruct (TgtgClient.status_code _ =? 200); now destruct b.
  - reflexivity.
Qed.

End ItemOperations.

(** X12. On a logged-in session whose last refresh is no older than the
    token lifetime, [get_items], [get_item] and [set_favorite] each post
    exactly one request, to the item endpoint, and leave the session as it
    is: a 200 answer is returned decoded ([KeyError] when the listing has no
    [items]), any other status raises [TgtgAPIError] with the status and
    the content; [credentials] posts nothing and returns the stored access
    token, refresh token and user id. *)
Theorem item_operations_within_lifetime :
  forall (Data : Type) (server : nat -> TgtgClient.Response)
         (json_items : TgtgClient.Response -> option (list Data))
         (json_item : TgtgClient.Response -> Data)
         (item_url : string -> string)
         (s : TgtgClient.state) (last : Z),
    TgtgClient._already_logged (TgtgClient.self s) = true ->
    TgtgClient.last_time_token_refreshed (TgtgClient.self s) = Some last ->
    0 <= Spec.elapsed s last <= TgtgClient.access_token_lifetime (TgtgClient.self s) * 1000000 ->
    let response := server (length (TgtgClient.requests s)) in
    let error :=
      TgtgAPIError [AInt (TgtgClient.status_code response);
                    AStr (TgtgClient.content response)] in
    (forall f,
        Api.get_items server json_items item_url f s
        = (if TgtgClient.status_code response =? 200
           then match json_items response with
                | Some items => Ok items
                | None => Raise (KeyError "items")
                end
           else Raise error,
           Spec.posted (TgtgClient.mk_request (item_url "")
                          (Api.body (Api.get_items_data (TgtgClient.self s) f))) s))
    /\ (forall item_id,
           Api.get_item server json_item item_url item_id s
           = (if TgtgClient.status_code response =? 200
              then Ok (json_item response)
              else Raise error,
              Spec.posted (TgtgClient.mk_request (item_url item_id)
                             [("user_id", TgtgClient.user_id (TgtgClient.self s));
                              ("origin", None)]) s))
    /\ (forall item_id b,
           Api.set_favorite server item_url item_id b s
           = (if TgtgClient.status_code response =? 200 then Ok tt else Raise error,
              Spec.posted (TgtgClient.mk_request (item_url (item_id +:+ "/setFavorite"))
                             [("is_favorite", Some (if b then "true" else "false"))]) s))
    /\ Api.credentials server s
       = (Ok (TgtgClient.access_token (TgtgClient.self s),
              TgtgClient.refresh_token (TgtgClient.self s),
              TgtgClient.user_id (TgtgClient.self s)), s).
Proof.
  intros Data server json_items json_item item_url s last Hlogged Hlast Hel.
  apply operations_login_ok.
  now apply (login_noop_within_lifetime server s last).
Qed.

Lemma item_operations_within_lifetime_witness :
  Api.set_favorite (Examples.always MoreExamples.unavailable) MoreExamples.item_path
    "42" true (Examples.at_time Examples.credentialed 1000000)
  = (Raise (TgtgAPIError [AInt 503; AStr "Service Unavailable"]),
     Spec.posted (TgtgClient.mk_request "item/v7/42/setFavorite"
                    [("is_favorite", Some "true")])
       (Examples.at_time Examples.credentialed 1000000)).
Proof.
  destruct (item_operations_within_lifetime nat (Examples.always MoreExamples.unavailable)
              MoreExamples.no_items MoreExamples.no_item MoreExamples.item_path
              (Examples.at_time Examples.credentialed 1000000) 0)
    as (_ & _ & Hfav & _).
  - reflexivity.
  - reflexivity.
  - unfold Spec.elapsed. cbn. lia.
  - apply (Hfav "42" true).
Defined.



(** ** What [WebHook._init] accepts *)

Section WebHookAccepts.

Context {S : Type}.

Lemma check_matches_known (ms : list Py.Match) (s : S) :
  WebHook.check_matches ms s = (Ok tt, s)
  <-> Forall (fun m => Py.group1 m ∈ Item.ATTRS) ms.
Proof.
  induction ms as [|m ms IH]; [now split|].
  cbn [WebHook.check_matches]. case_bool_decide as Hm; cbn [negb].
  - rewrite IH. split; [now constructor | now inversion 1].
  - split; [discriminate | now inversion 1].
Qed.

Lemma init_with_body cfg u b (s : S) :
  Py.truthy (WebHook.method cfg) = true ->
  WebHook.url cfg = Some u ->
  Py.truthy u = true ->
  WebHook.body cfg = Some b ->
  WebHook._init cfg s
  = if bool_decide (Forall (fun m => Py.group1 m ∈ Item.ATTRS) (Py.finditer b)
                    /\ Forall (fun m => Py.group1 m ∈ Item.ATTRS) (Py.finditer u))
    then (Ok tt, s)
    else (Raise WebHookConfigurationError, s).
Proof.
  intros Hm Hu Htu Hb. unfold WebHook._init. rewrite Hm, Hu, Hb.
  cbn [Py.truthy_opt negb orb]. rewrite Htu. cbn [negb].
  unfold WebHook.finditer, bind, ret.
  destruct (check_matches_result (Py.finditer b) s) as [Hb1|Hb1].
  - rewrite Hb1. apply check_matches_known in Hb1.
    destruct (check_matches_result (Py.finditer u) s) as [Hu1|Hu1]; rewrite Hu1.
    + apply check_matches_known in Hu1. now rewrite bool_decide_eq_true_2.
    + rewrite bool_decide_eq_false_2; [reflexivity|].
      intros [_ Hk]. apply (check_matches_known _ s) in Hk. congruence.
  - rewrite Hb1. rewrite bool_decide_eq_false_2; [reflexivity|].
    intros [Hk _]. apply (check_matches_known _ s) in Hk. congruence.
Qed.

Lemma init_unset cfg (s : S) :
  Py.truthy (WebHook.method cfg) = false \/ Py.truthy_opt (WebHook.url cfg) = false ->
  WebHook._init cfg s = (Raise WebHookConfigurationError, s).
Proof.
  intros H. unfold WebHook._init.
  destruct H as [-> | ->]; [reflexivity|].
  now destruct (Py.truthy (WebHook.method cfg)).
Qed.

End WebHookAccepts.

(** X14. What the webhook initialisation accepts.  [_init] returns exactly
    when the method and the URL are set and non-empty, a body is set, and
    every placeholder of the body and of the URL names an Item attribute;
    it raises [TypeError] exactly when the method and the URL are set and
    no body is; in every other case it raises
    [WebHookConfigurationError].  It never changes anything else, and the
    constructor of the channel succeeds exactly when the channel is
    disabled or [_init] returns. *)
Theorem webhook_init_outcomes :
  forall (S : Type) (cfg : WebHook.Config) (s : S),
    let known (x : string) : Prop :=
      Forall (fun m => Py.group1 m ∈ Item.ATTRS) (Py.finditer x) in
    let accepted : Prop :=
      Py.truthy (WebHook.method cfg) = true
      /\ exists u b,
          WebHook.url cfg = Some u /\ Py.truthy u = true
          /\ WebHook.body cfg = Some b /\ known b /\ known u in
    let no_body : Prop :=
      Py.truthy (WebHook.method cfg) = true
      /\ Py.truthy_opt (WebHook.url cfg) = true
      /\ WebHook.body cfg = None in
    (WebHook._init cfg s = (Ok tt, s) <-> accepted)
    /\ (WebHook._init cfg s = (Raise TypeError, s) <-> no_body)
    /\ (WebHook._init cfg s = (Raise WebHookConfigurationError, s)
        <-> ~ accepted /\ ~ no_body)
    /\ (WebHook.__init__ cfg s = (Ok cfg, s)
        <-> WebHook.enabled cfg = false \/ accepted).
Proof.
  intros S cfg s known accepted no_body.
  assert (Hcases :
    (WebHook._init cfg s = (Ok tt, s) /\ accepted /\ ~ no_body)
    \/ (WebHook._init cfg s = (Raise TypeError, s) /\ ~ accepted /\ no_body)
    \/ (WebHook._init cfg s = (Raise WebHookConfigurationError, s)
        /\ ~ accepted /\ ~ no_body)).
  { subst accepted no_body known. cbn beta.
    destruct (Py.truthy (WebHook.method cfg)) eqn:Hm.
    2:{ right; right. split; [apply init_unset; now left|].
        split; intros [? _]; discriminate. }
    destruct (WebHook.url cfg) as [u|] eqn:Hu.
    2:{ right; right. split; [apply init_unset; right; now rewrite Hu|].
        split; [intros (_ & u & b & ? & _) | intros (_ & ? & _)]; discriminate. }
    destruct (Py.truthy u) eqn:Htu.
    2:{ right; right.
        split; [apply init_unset; right; rewrite Hu; exact Htu|].
        split; [intros (_ & u' & b & Hu' & Htu' & _) | intros (_ & Htu' & _)].
        - congruence.
        - cbn [Py.truthy_opt] in Htu'. congruence. }
    destruct (WebHook.body cfg) as [b|] eqn:Hb.
    - rewrite (init_with_body cfg u b s Hm Hu Htu Hb).
      case_bool_decide as Hk.
      + left. split; [reflexivity|]. split; [|intros (_ & _ & ?); discriminate].
        split; [reflexivity|]. exists u, b. tauto.
      + right; right. split; [reflexivity|].
        split; [|intros (_ & _ & ?); discriminate].
        intros (_ & u' & b' & Hu' & _ & Hb' & Hkb & Hku).
        apply Hk. now simplify_eq.
    - right; left. split; [apply init_without_body; try assumption; now rewrite ?Hu|].
      split; [intros (_ & u' & b' & _ & _ & ? & _); discriminate|].
      split; [reflexivity|]. split; [exact Htu | reflexivity]. }
  assert (Hinit : WebHook._init cfg s = (Ok tt, s) <-> accepted).
  { destruct Hcases as [(H & Ha & Hn) | [(H & Ha & Hn) | (H & Ha & Hn)]];
      rewrite H; split; try tauto; try discriminate. }
  split; [exact Hinit|].
  split.
  { destruct Hcases as [(H & Ha & Hn) | [(H & Ha & Hn) | (H & Ha & Hn)]];
      rewrite H; split; try tauto; try discriminate. }
  split.
  { destruct Hcases as [(H & Ha & Hn) | [(H & Ha & Hn) | (H & Ha & Hn)]];
      rewrite H; split; try tauto; try discriminate. }
  unfold WebHook.__init__, bind, ret.
  destruct (WebHook.enabled cfg).
  - destruct Hcases as [(H & Ha & Hn) | [(H & Ha & Hn) | (H & Ha & Hn)]];
      rewrite H; split; try tauto; try discriminate;
      intros [?|?]; try discriminate; tauto.
  - split; [now left | reflexivity].
Qed.

(** ** One round of the application loop: [Scanner._job] *)




Section JobRun.

Context {Data : Type}.
Variable get_item : nat -> string -> result Data.
Variable get_items : nat -> Z -> Z -> result (list Data).
Variable new_item : Data -> result Item.t.
Variable fx : nat -> Scanner.effects.
Variable client_credentials : nat -> Job.Credentials.






End JobRun.


(** A round with a failed lookup and a favorite that cannot be built: the
    other id is still looked up and checked, and the credentials are
    saved. *)
Lemma job_example :
  let run :=
    Job._job MoreExamples.lookup_second MoreExamples.one_favorite
      MoreExamples.item_of_record (fun _ => Scanner.quiet)
      (fun _ => MoreExamples.stored) 5 ["1"; ""; "2"] MoreExamples.job_start in
  fst run = Ok (Some tt)
  /\ Job.get_item_calls (snd run) = ["1"; "2"]
  /\ Job.checked (snd run) = [Examples.bakery 3]
  /\ Scanner.amounts (Job.scanner (snd run)) !! "A" = Some 3
  /\ Job.saved (snd run) = [MoreExamples.stored].
Proof. vm_compute. repeat split; reflexivity. Qed.

(** ** The token store of [models/config.py] *)

Lemma string_app_inj_l (p a b : string) : p +:+ a = p +:+ b -> a = b.
Proof.
  induction p as [|c p IH]; intros H.
  - now rewrite !string_app_nil in H.
  - rewrite !string_app_cons in H. injection H as H. now apply IH.
Qed.

(** [path_join] puts the same prefix in front of every plain file name. *)
Lemma path_join_prefix (dir : string) :
  exists prefix,
    forall name, Config.starts_with_slash name = false ->
      Config.path_join dir name = prefix +:+ name.
Proof.
  destruct (negb (Py.truthy dir) || Config.ends_with_slash dir) eqn:H.
  - exists dir. intros name Hn. unfold Config.path_join. now rewrite Hn, H.
  - exists (dir +:+ "/"). intros name Hn. unfold Config.path_join.
    rewrite Hn, H. now rewrite string_app_assoc.
Qed.

Lemma token_files_differ (dir : string) :
  Config.path_join dir "accessToken" <> Config.path_join dir "refreshToken"
  /\ Config.path_join dir "accessToken" <> Config.path_join dir "userID"
  /\ Config.path_join dir "refreshToken" <> Config.path_join dir "userID".
Proof.
  destruct (path_join_prefix dir) as (prefix & Hp).
  rewrite !Hp by reflexivity.
  repeat split; intros H; apply string_app_inj_l in H; discriminate.
Qed.

(** Text without a carriage return is read back as it was written. *)
Lemma universal_newlines_cr_free (s : string) :
  Config.cr_free s = true -> Config.universal_newlines s = s.
Proof.
  induction s as [|c s IH]; [reflexivity|].
  cbn [Config.cr_free Config.universal_newlines].
  destruct (Ascii.eqb c "013"); [discriminate|].
  cbn [negb andb]. intros H. now rewrite IH.
Qed.

Section TokenStore.

Variable denied : string -> bool.
Variable encodable : string -> bool.
Variable ini_save :
  string -> option string -> option string -> option string
  -> M (gmap string string) unit.

(** Neither half of [save_tokens] lets an exception out, and the
    configuration object is left as it is. *)
Lemma save_tokens_returns a r u (w : Config.world) :
  exists d,
    Config.save_tokens denied encodable ini_save a r u w = (Ok tt, Config.mk_world (Config.self w) d).
Proof.
  unfold Config.save_tokens, bind, get, ret.
  assert (Hini : exists d1,
    match Config._file (Config.self w) with
    | Some file =>
        if Py.truthy file
        then try_except (Config.on_disk (ini_save file a r u)) (fun _ s => (Ok tt, s))
        else fun s => (Ok tt, s)
    | None => fun s => (Ok tt, s)
    end w = (Ok tt, Config.mk_world (Config.self w) d1)).
  { destruct (Config._file (Config.self w)) as [file|]; [destruct (Py.truthy file)|];
      try (exists (Config.disk w); now destruct w).
    unfold try_except, Config.on_disk.
    destruct (ini_save file a r u (Config.disk w)) as [[[]|e] d1]; now exists d1. }
  destruct Hini as (d1 & ->). cbn [Config.self].
  destruct (Config._token_path (Config.self w)) as [dir|]; [|now exists d1].
  destruct (Py.truthy dir); [|now exists d1].
  unfold try_except, Config.write_file, Config.set_disk. cbn [Config.self Config.disk].
  destruct (denied (Config.path_join dir "accessToken")); [now exists d1|].
  destruct a as [a|]; [destruct (encodable a)|]; try (eexists; reflexivity).
  cbn [Config.self Config.disk].
  destruct (denied (Config.path_join dir "refreshToken")); [eexists; reflexivity|].
  destruct r as [r|]; [destruct (encodable r)|]; try (eexists; reflexivity).
  cbn [Config.self Config.disk].
  destruct (denied (Config.path_join dir "userID")); [eexists; reflexivity|].
  destruct u as [u|]; [destruct (encodable u)|]; eexists; reflexivity.
Qed.

(** With the three files writable, the token half of [save_tokens] leaves
    the three credentials on disk. *)
Lemma save_tokens_files a r u dir (w : Config.world) :
  Config._token_path (Config.self w) = Some dir ->
  Py.truthy dir = true ->
  denied (Config.path_join dir "accessToken") = false ->
  denied (Config.path_join dir "refreshToken") = false ->
  denied (Config.path_join dir "userID") = false ->
  encodable a = true -> encodable r = true -> encodable u = true ->
  let d := Config.disk (snd (Config.save_tokens denied encodable ini_save (Some a) (Some r) (Some u) w)) in
  d !! Config.path_join dir "accessToken" = Some a
  /\ d !! Config.path_join dir "refreshToken" = Some r
  /\ d !! Config.path_join dir "userID" = Some u.
Proof.
  intros Hdir Htruthy H1 H2 H3 Ea Er Eu.
  destruct (token_files_differ dir) as (D12 & D13 & D23).
  unfold Config.save_tokens, bind, get, ret.
  assert (Hini : exists d1,
    match Config._file (Config.self w) with
    | Some file =>
        if Py.truthy file
        then try_except
               (Config.on_disk (ini_save file (Some a) (Some r) (Some u)))
               (fun _ s => (Ok tt, s))
        else fun s => (Ok tt, s)
    | None => fun s => (Ok tt, s)
    end w = (Ok tt, Config.mk_world (Config.self w) d1)).
  { destruct (Config._file (Config.self w)) as [file|]; [destruct (Py.truthy file)|];
      try (exists (Config.disk w); now destruct w).
    unfold try_except, Config.on_disk.
    destruct (ini_save file (Some a) (Some r) (Some u) (Config.disk w)) as [[[]|e] d1];
      now exists d1. }
  destruct Hini as (d1 & ->). cbn [Config.self]. rewrite Hdir, Htruthy.
  unfold try_except, Config.write_file, Config.set_disk. cbn [Config.self Config.disk].
  rewrite H1, Ea. cbn [Config.self Config.disk]. rewrite H2, Er.
  cbn [Config.self Config.disk]. rewrite H3, Eu. cbn [snd Config.disk].
  repeat split.
  - rewrite lookup_insert_ne by congruence. rewrite lookup_insert_ne by congruence.
    apply lookup_insert_eq.
  - rewrite lookup_insert_ne by congruence. apply lookup_insert_eq.
  - apply lookup_insert_eq.
Qed.

(** With the three files in place and readable, [_load_tokens] takes the
    three credentials from them. *)
Lemma load_tokens_files a r u dir (w : Config.world) :
  Config._token_path (Config.self w) = Some dir ->
  Py.truthy dir = true ->
  denied (Config.path_join dir "accessToken") = false ->
  denied (Config.path_join dir "refreshToken") = false ->
  denied (Config.path_join dir "userID") = false ->
  Config.disk w !! Config.path_join dir "accessToken" = Some a ->
  Config.disk w !! Config.path_join dir "refreshToken" = Some r ->
  Config.disk w !! Config.path_join dir "userID" = Some u ->
  Config._load_tokens denied w
  = (Ok tt,
     Config.mk_world
       (Config.mk (Config._file (Config.self w)) (Some dir)
          (Some (Config.universal_newlines a)) (Some (Config.universal_newlines r))
          (Some (Config.universal_newlines u)))
       (Config.disk w)).
Proof.
  intros Hdir Htruthy H1 H2 H3 Ha Hr Hu.
  unfold Config._load_tokens, bind, get, ret. rewrite Hdir, Htruthy.
  unfold try_except, Config.read_file, modify, Config.set_self.
  rewrite H1, Ha. cbn [Config.self Config.disk]. rewrite H2, Hr.
  cbn [Config.self Config.disk]. rewrite H3, Hu.
  unfold Config.set_user_id, Config.set_refresh_token, Config.set_access_token.
  cbn [Config._file Config._token_path Config.access_token Config.refresh_token
       Config.user_id]. now rewrite Hdir.
Qed.

(** [_load_tokens] never lets an exception out and never touches the
    disk. *)
Lemma load_tokens_returns (w : Config.world) :
  exists c, Config._load_tokens denied w = (Ok tt, Config.mk_world c (Config.disk w)).
Proof.
  unfold Config._load_tokens, bind, get, ret.
  destruct (Config._token_path (Config.self w)) as [dir|]; [|exists (Config.self w); now destruct w].
  destruct (Py.truthy dir); [|exists (Config.self w); now destruct w].
  unfold try_except, Config.read_file, modify, Config.set_self.
  destruct (denied (Config.path_join dir "accessToken"));
    [exists (Config.self w); now destruct w|].
  destruct (Config.disk w !! Config.path_join dir "accessToken");
    [|exists (Config.self w); now destruct w].
  cbn [Config.self Config.disk].
  destruct (denied (Config.path_join dir "refreshToken")); [eexists; reflexivity|].
  destruct (Config.disk w !! Config.path_join dir "refreshToken"); [|eexists; reflexivity].
  cbn [Config.self Config.disk].
  destruct (denied (Config.path_join dir "userID")); [eexists; reflexivity|].
  destruct (Config.disk w !! Config.path_join dir "userID"); eexists; reflexivity.
Qed.

End TokenStore.

(** X16. The token store.  [save_tokens] and [_load_tokens] never raise,
    whatever the credentials, the disk and the [config.ini] half are and
    do; [save_tokens] leaves the configuration object as it is and
    [_load_tokens] leaves the disk as it is.  With a non-empty token path
    whose three files can be opened, and credentials the encoding of the
    files can hold, the credentials handed to [save_tokens] are the ones a
    later [_load_tokens] (of any configuration with the same token path, on
    the disk as it was left) puts into the configuration, as reading in
    text mode gives them back: unchanged when they hold no carriage
    return, and with every carriage return (and a line feed after it) turned
    into a line feed otherwise. *)
Theorem tokens_round_trip :
  forall (denied encodable : string -> bool)
         (ini_save : string -> option string -> option string -> option string
                     -> M (gmap string string) unit)
         (w : Config.world),
    (forall a r u : option string,
        exists d,
          Config.save_tokens denied encodable ini_save a r u w
          = (Ok tt, Config.mk_world (Config.self w) d))
    /\ (exists c,
          Config._load_tokens denied w = (Ok tt, Config.mk_world c (Config.disk w)))
    /\ (forall (a r u : string) (dir : string),
          Config._token_path (Config.self w) = Some dir ->
          dir <> "" ->
          denied (Config.path_join dir "accessToken") = false ->
          denied (Config.path_join dir "refreshToken") = false ->
          denied (Config.path_join dir "userID") = false ->
          encodable a = true -> encodable r = true -> encodable u = true ->
          let saved :=
            Config.save_tokens denied encodable ini_save (Some a) (Some r) (Some u) w in
          forall next : Config.t,
            Config._token_path next = Some dir ->
            Config._load_tokens denied (Config.mk_world next (Config.disk (snd saved)))
            = (Ok tt,
               Config.mk_world
                 (Config.mk (Config._file next) (Some dir)
                    (Some (Config.universal_newlines a))
                    (Some (Config.universal_newlines r))
                    (Some (Config.universal_newlines u)))
                 (Config.disk (snd saved))))
    /\ (forall text : string,
          Config.cr_free text = true -> Config.universal_newlines text = text).
Proof.
  intros denied encodable ini_save w.
  split; [intros a r u; apply save_tokens_returns|].
  split; [apply load_tokens_returns|].
  split; [|apply universal_newlines_cr_free].
  intros a r u dir Hdir Hne H1 H2 H3 Ea Er Eu saved.
  assert (Htruthy : Py.truthy dir = true).
  { unfold Py.truthy. apply negb_true_iff. now apply String.eqb_neq. }
  destruct (save_tokens_files denied encodable ini_save a r u dir w
              Hdir Htruthy H1 H2 H3 Ea Er Eu)
    as (Fa & Fr & Fu).
  fold saved in Fa, Fr, Fu. clearbody saved.
  intros next Hnext.
  now apply (load_tokens_files denied a r u dir (Config.mk_world next (Config.disk (snd saved)))).
Qed.

Lemma tokens_round_trip_witness :
  let saved :=
    Config.save_tokens MoreExamples.open_disk MoreExamples.any_text MoreExamples.no_ini
      (Some "access-1") (Some "refresh-1") (Some "user-1") MoreExamples.from_environment in
  Config._load_tokens MoreExamples.open_disk
    (Config.mk_world (Config.mk None (Some "/tokens") None None None)
       (Config.disk (snd saved)))
  = (Ok tt,
     Config.mk_world
       (Config.mk None (Some "/tokens") (Some "access-1") (Some "refresh-1") (Some "user-1"))
       (Config.disk (snd saved))).
Proof.
  destruct (tokens_round_trip MoreExamples.open_disk MoreExamples.any_text
              MoreExamples.no_ini MoreExamples.from_environment)
    as (_ & _ & Htrip & _).
  apply (Htrip "access-1" "refresh-1" "user-1" "/tokens"
           eq_refl ltac:(discriminate) eq_refl eq_refl eq_refl eq_refl eq_refl eq_refl
           (Config.mk None (Some "/tokens") None None None)).
  reflexivity.
Defined.

(** A credential with a carriage return does not come back as it was
    saved. *)
Lemma tokens_carriage_return :
  let saved :=
    Config.save_tokens MoreExamples.open_disk MoreExamples.any_text MoreExamples.no_ini
      (Some (String "a" (String "013" "b"))) (Some "r") (Some "u")
      MoreExamples.from_environment in
  Config.access_token
    (Config.self
       (snd (Config._load_tokens MoreExamples.open_disk
               (Config.mk_world (Config.mk None (Some "/tokens") None None None)
                  (Config.disk (snd saved))))))
  = Some (String "a" (String "010" "b")).
Proof. vm_compute. reflexivity. Qed.

(** ** Signing up: [TgtgClient.signup_by_email] *)

(** X17. [signup_by_email] posts exactly one request, whatever credentials
    the session holds (it does not log in first).  An answer other than 200
    raises [TgtgAPIError] with the status and the content, and a 200 answer
    without a login response raises [KeyError]; both leave the session as
    it was.  A 200 answer with a complete login response stores its access
    token, refresh token and user id with the current time as refresh
    time, and leaves the email of the session as it was; when the three
    are non-empty and the lifetime is not negative, a [login] right after
    posts nothing. *)
Theorem signup_by_email_outcomes :
  forall (server : nat -> TgtgClient.Response)
         (json_login_response : TgtgClient.Response -> option Api.LoginResponse)
         (s : TgtgClient.state) (email name country_id : string)
         (newsletter_opt_in push_notification_opt_in : bool),
    let request :=
      TgtgClient.mk_request Api.SIGNUP_BY_EMAIL_ENDPOINT
        [("country_id", Some country_id);
         ("device_type", Some (TgtgClient.device_type (TgtgClient.self s)));
         ("email", Some email);
         ("name", Some name);
         ("newsletter_opt_in", Some (if newsletter_opt_in then "true" else "false"));
         ("push_notification_opt_in",
          Some (if push_notification_opt_in then "true" else "false"))] in
    let response := server (length (TgtgClient.requests s)) in
    let run :=
      Api.signup_by_email server json_login_response email name country_id
        newsletter_opt_in push_notification_opt_in s in
    (TgtgClient.status_code response <> 200 ->
     run = (Raise (TgtgAPIError [AInt (TgtgClient.status_code response);
                                 AStr (TgtgClient.content response)]),
            Spec.posted request s))
    /\ (TgtgClient.status_code response = 200 ->
        json_login_response response = None ->
        run = (Raise (KeyError "login_response"), Spec.posted request s))
    /\ (forall a r u : string,
          TgtgClient.status_code response = 200 ->
          json_login_response response
          = Some (Api.mk_login_response (Some a) (Some r) (Some u)) ->
          let final :=
            TgtgClient.set_self (Spec.logged_in a r u (TgtgClient.clock s))
              (Spec.posted request s) in
          run = (Ok tt, final)
          /\ (a <> "" -> r <> "" -> u <> "" ->
              0 <= TgtgClient.access_token_lifetime (TgtgClient.self s) ->
              forall server' : nat -> TgtgClient.Response,
                TgtgClient.login server' final = (Ok tt, final))).
Proof.
  intros server json_login_response s email name country_id n p request response run.
  assert (Hreq : forall b : bool, Api.print (Api.JBool b) = Some (if b then "true" else "false"))
    by (now intros []).
  assert (Hrun : run
    = (if TgtgClient.status_code response =? 200
       then
         let! l := Api.login_response_of json_login_response response in
         let! a := TgtgClient.getitem "access_token" (Api.login_access_token l) in
         modify (TgtgClient.set_self (TgtgClient.set_access_token a)) >>
         let! l := Api.login_response_of json_login_response response in
         let! r := TgtgClient.getitem "refresh_token" (Api.login_refresh_token l) in
         modify (TgtgClient.set_self (TgtgClient.set_refresh_token r)) >>
         let! s' := get in
         modify (TgtgClient.set_self
                   (TgtgClient.set_last_time_token_refreshed (TgtgClient.clock s'))) >>
         let! l := Api.login_response_of json_login_response response in
         let! u := TgtgClient.getitem "user_id" (Api.login_user_id l) in
         modify (TgtgClient.set_self (TgtgClient.set_user_id u))
       else Api.api_error response) (Spec.posted request s)).
  { subst run request response. unfold Api.signup_by_email.
    unfold bind at 1, get at 1. unfold bind at 1. unfold TgtgClient._request at 1.
    unfold Spec.posted. now rewrite !Hreq. }
  clearbody run. subst run.
  split; [|split].
  - intros Hst. apply Z.eqb_neq in Hst. now rewrite Hst.
  - intros Hst Hnone. rewrite Hst. cbn [Z.eqb Pos.eqb].
    unfold bind, Api.login_response_of. now rewrite Hnone.
  - intros a r u Hst Hl final. rewrite Hst. cbn [Z.eqb Pos.eqb].
    split.
    + unfold bind, Api.login_response_of. rewrite Hl.
      unfold ret, TgtgClient.getitem, modify, get, ret. reflexivity.
    + intros Hane Hrne Hune Hlife server'.
      apply (login_noop_within_lifetime server' final (TgtgClient.clock s)).
      * unfold final, TgtgClient._already_logged, TgtgClient.truthy.
        cbn [TgtgClient.set_self TgtgClient.self Spec.logged_in TgtgClient.access_token
             TgtgClient.refresh_token TgtgClient.user_id].
        apply String.eqb_neq in Hane, Hrne, Hune. now rewrite Hane, Hrne, Hune.
      * reflexivity.
      * unfold Spec.elapsed, final.
        cbn [TgtgClient.set_self Spec.posted TgtgClient.clock TgtgClient.self
             Spec.logged_in TgtgClient.access_token_lifetime].
        lia.
Qed.

Lemma signup_by_email_outcomes_witness :
  let final :=
    TgtgClient.set_self (Spec.logged_in "access-1" "refresh-1" "user-1" 0)
      (Spec.posted
         (TgtgClient.mk_request Api.SIGNUP_BY_EMAIL_ENDPOINT
            [("country_id", Some "GB"); ("device_type", Some "ANDROID");
             ("email", Some "me@example.org"); ("name", Some "");
             ("newsletter_opt_in", Some "false");
             ("push_notification_opt_in", Some "true")])
         (Examples.at_time Examples.nothing 0)) in
  Api.signup_by_email (Examples.always MoreExamples.signed_up) MoreExamples.welcome
    "me@example.org" "" "GB" false true (Examples.at_time Examples.nothing 0)
  = (Ok tt, final)
  /\ TgtgClient.login (Examples.always MoreExamples.unavailable) final = (Ok tt, final).
Proof.
  destruct (signup_by_email_outcomes (Examples.always MoreExamples.signed_up)
              MoreExamples.welcome (Examples.at_time Examples.nothing 0)
              "me@example.org" "" "GB" false true)
    as (_ & _ & Hok).
  destruct (Hok "access-1" "refresh-1" "user-1" eq_refl eq_refl) as [Hrun Hlogin].
  split; [exact Hrun|].
  apply Hlogin; discriminate.
Defined.

(** ** Removing the favorites: [Helper.remove_all_favorites] *)

Section RemovalRun.

Context {Data : Type}.
Variable get_items : nat -> Z -> Z -> result (list Data).
Variable tgtg_client_set_favorite : nat -> string -> bool -> result unit.
Variable item_id_of : Data -> result string.

(** The loop over the ids: it goes on until the first refusal. *)
Lemma unset_each_run (ids : list string) : forall (s : Helper.state),
  let n := length (Helper.set_favorite_calls s) in
  let run := Helper.unset_each tgtg_client_set_favorite ids s in
  Helper.scanner (snd run) = Helper.scanner s
  /\ ((fst run = Ok tt
       /\ (forall j id, ids !! j = Some id ->
             tgtg_client_set_favorite (n + j)%nat id false = Ok tt)
       /\ Helper.set_favorite_calls (snd run)
          = Helper.set_favorite_calls s ++ map (fun id => (id, false)) ids)
      \/ (exists j id e,
             ids !! j = Some id
             /\ tgtg_client_set_favorite (n + j)%nat id false = Raise e
             /\ (forall i id', (i < j)%nat -> ids !! i = Some id' ->
                   tgtg_client_set_favorite (n + i)%nat id' false = Ok tt)
             /\ fst run = Raise e
             /\ Helper.set_favorite_calls (snd run)
                = Helper.set_favorite_calls s
                  ++ map (fun id => (id, false)) (take (S j) ids))).
Proof.
  induction ids as [|id0 ids IH]; intros s; cbn zeta.
  - split; [reflexivity|]. left. cbn. rewrite app_nil_r.
    repeat split. intros j id H. discriminate.
  - cbn [Helper.unset_each]. unfold bind, Helper.unset_favorite, Helper.call_set_favorite.
    destruct (tgtg_client_set_favorite (length (Helper.set_favorite_calls s)) id0 false)
      as [[]|e] eqn:Hans.
    + specialize (IH (Helper.mk_state (Helper.scanner s)
                        (Helper.set_favorite_calls s ++ [(id0, false)]))).
      cbn zeta in IH. cbn [Helper.scanner Helper.set_favorite_calls] in IH.
      rewrite length_app in IH. cbn [length] in IH.
      destruct IH as [Hsc [(Hok & Hall & Hcalls) | (j & id & e & Hj & Hraise & Hbefore & Hres & Hcalls)]].
      * split; [exact Hsc|]. left. split; [exact Hok|]. split.
        -- intros [|j] id Hj.
           ++ cbn in Hj. injection Hj as <-. now rewrite Nat.add_0_r.
           ++ cbn in Hj. specialize (Hall j id Hj).
              now replace (length (Helper.set_favorite_calls s) + S j)%nat
                with (length (Helper.set_favorite_calls s) + 1 + j)%nat by lia.
        -- rewrite Hcalls, <- app_assoc. reflexivity.
      * split; [exact Hsc|]. right. exists (S j), id, e.
        split; [exact Hj|]. split.
        { now replace (length (Helper.set_favorite_calls s) + S j)%nat
            with (length (Helper.set_favorite_calls s) + 1 + j)%nat by lia. }
        split.
        { intros [|i] id' Hi Hid'.
          - cbn in Hid'. injection Hid' as <-. now rewrite Nat.add_0_r.
          - cbn in Hid'.
            replace (length (Helper.set_favorite_calls s) + S i)%nat
              with (length (Helper.set_favorite_calls s) + 1 + i)%nat by lia.
            apply Hbefore; [lia | exact Hid']. }
        split; [exact Hres|].
        rewrite Hcalls, <- app_assoc. reflexivity.
    + split; [reflexivity|]. right. exists 0%nat, id0, e.
      rewrite Nat.add_0_r. repeat split; try assumption.
      intros i id' Hi. lia.
Qed.

End RemovalRun.

(** X18. [remove_all_favorites], once the favorites are listed.  When a
    record of the listing lacks its id, the error is raised before any
    favorite is touched.  Otherwise the favorites are unset one by one in
    the order of the listing, with [is_favorite] false in every call, up to
    the first call the client refuses: either every call is accepted, all
    favorites are unset and the function returns, or the exception of the
    first refused call is raised and the favorites after it are left as
    they are. *)
Theorem remove_all_favorites_prefix :
  forall (Data : Type)
         (get_items : nat -> Z -> Z -> result (list Data))
         (tgtg_client_set_favorite : nat -> string -> bool -> result unit)
         (item_id_of : Data -> result string)
         (fuel : nat) (s : Helper.state) (records : list Data) (sc : Scanner.t),
    Helper.favorites get_items fuel (Helper.scanner s) = (Ok (Some records), sc) ->
    let n := length (Helper.set_favorite_calls s) in
    let run :=
      Helper.remove_all_favorites get_items tgtg_client_set_favorite item_id_of fuel s in
    Helper.scanner (snd run) = sc
    /\ match Helper.item_ids_of item_id_of records with
       | Raise e =>
           fst run = Raise e
           /\ Helper.set_favorite_calls (snd run) = Helper.set_favorite_calls s
       | Ok ids =>
           (fst run = Ok (Some tt)
            /\ (forall j id, ids !! j = Some id ->
                  tgtg_client_set_favorite (n + j)%nat id false = Ok tt)
            /\ Helper.set_favorite_calls (snd run)
               = Helper.set_favorite_calls s ++ map (fun id => (id, false)) ids)
           \/ (exists j id e,
                  ids !! j = Some id
                  /\ tgtg_client_set_favorite (n + j)%nat id false = Raise e
                  /\ (forall i id', (i < j)%nat -> ids !! i = Some id' ->
                        tgtg_client_set_favorite (n + i)%nat id' false = Ok tt)
                  /\ fst run = Raise e
                  /\ Helper.set_favorite_calls (snd run)
                     = Helper.set_favorite_calls s
                       ++ map (fun id => (id, false)) (take (S j) ids))
       end.
Proof.
  intros Data get_items set_fav item_id_of fuel s records sc Hfav n run.
  subst run n. unfold Helper.remove_all_favorites. rewrite Hfav.
  destruct (Helper.item_ids_of item_id_of records) as [ids|e]; [|now repeat split].
  destruct (unset_each_run set_fav ids (Helper.mk_state sc (Helper.set_favorite_calls s)))
    as [Hsc Hcases].
  cbn zeta in Hsc, Hcases. cbn [Helper.scanner Helper.set_favorite_calls] in Hsc, Hcases.
  unfold bind, ret.
  destruct (Helper.unset_each set_fav ids (Helper.mk_state sc (Helper.set_favorite_calls s)))
    as [[[]|e] s'] eqn:Hrun; cbn [fst snd] in *.
  - split; [exact Hsc|].
    destruct Hcases as [(_ & Hall & Hcalls) | (j & id & e & _ & _ & _ & Hres & _)];
      [|discriminate].
    left. repeat split; assumption.
  - split; [exact Hsc|].
    destruct Hcases as [(Hok & _) | (j & id & e' & Hj & Hraise & Hbefore & Hres & Hcalls)];
      [discriminate|].
    right. exists j, id, e'.
    split; [exact Hj|]. split; [exact Hraise|]. split; [exact Hbefore|].
    split; [congruence | exact Hcalls].
Qed.

Lemma remove_all_favorites_prefix_witness :
  let run :=
    Helper.remove_all_favorites MoreExamples.three_favorites MoreExamples.second_refused
      MoreExamples.id_of_record 3 MoreExamples.helper_start in
  fst run = Raise (TgtgAPIError [AInt 403; AStr "Forbidden"])
  /\ Helper.set_favorite_calls (snd run) = [("1", false); ("2", false)].
Proof.
  pose proof (remove_all_favorites_prefix nat MoreExamples.three_favorites
                MoreExamples.second_refused MoreExamples.id_of_record 3
                MoreExamples.helper_start [1; 2; 3]%nat
                (snd (Helper.favorites MoreExamples.three_favorites 3 Scanner.init))
                eq_refl) as [_ H].
  change (Helper.item_ids_of MoreExamples.id_of_record [1; 2; 3]%nat)
    with (@Ok (list string) ["1"; "2"; "3"]) in H.
  cbv beta iota in H.
  destruct H as [(_ & Hall & _) | (j & id & e & Hj & Hraise & Hbefore & Hres & Hcalls)].
  - specialize (Hall 1%nat "2" eq_refl). vm_compute in Hall. discriminate.
  - destruct j as [|[|[|j]]]; cbn in Hj; try discriminate.
    injection Hj as <-. vm_compute in Hraise. injection Hraise as <-.
    split; [exact Hres | exact Hcalls].
Defined.

(** ** The pickup label: [Item.pickupdate] *)

Lemma dollar_free_fmt_02d (n : Z) : Template.dollar_free (Pickup.fmt_02d n) = true.
Proof.
  unfold Pickup.fmt_02d. cbn zeta.
  destruct (String.length (pretty n) <? 2)%nat.
  - rewrite dollar_free_app, dollar_free_pretty_Z. reflexivity.
  - apply dollar_free_pretty_Z.
Qed.

Lemma dollar_free_prange pfrom pto : Template.dollar_free (Pickup.prange pfrom pto) = true.
Proof.
  unfold Pickup.prange. now rewrite !dollar_free_app, !dollar_free_fmt_02d.
Qed.

(** Two characters for every number from 0 to 99. *)
Lemma length_fmt_02d (n : Z) :
  0 <= n < 100 -> String.length (Pickup.fmt_02d n) = 2%nat.
Proof.
  intros Hn.
  assert (Hall : forallb (fun k => (String.length (Pickup.fmt_02d (Z.of_nat k)) =? 2)%nat)
                         (seq 0 100) = true) by (vm_compute; reflexivity).
  rewrite forallb_forall in Hall.
  specialize (Hall (Z.to_nat n)). rewrite Z2Nat.id in Hall by lia.
  apply Nat.eqb_eq, Hall, in_seq. lia.
Qed.

(** X19. The pickup label of an item.  Whatever the interval and the
    current time, the label contains no [$], so that putting it into a
    webhook template never makes up a placeholder.  For an item with an
    interval whose hours and minutes are clock values, the label ends with
    the time range, which has always 13 characters ("HH:MM - HH:MM"), after
    "Today, " when the pickup starts on the current day, "Tomorrow, " when
    it starts on the next day, and the day and the month of the start
    otherwise, also for a start in the past. *)
Theorem pickupdate_label :
  forall (now : Pickup.datetime) (interval : option (Pickup.datetime * Pickup.datetime)),
    Template.dollar_free (Pickup.pickupdate now interval) = true
    /\ forall pfrom pto : Pickup.datetime,
         interval = Some (pfrom, pto) ->
         Pickup.on_the_clock pfrom ->
         Pickup.on_the_clock pto ->
         let days := Pickup.ordinal pfrom - Pickup.ordinal now in
         String.length (Pickup.prange pfrom pto) = 13%nat
         /\ Pickup.pickupdate now interval
            = (if days =? 0 then "Today, "
               else if days =? 1 then "Tomorrow, "
               else pretty (Pickup.day pfrom) +:+ "/" +:+ pretty (Pickup.month pfrom) +:+ ", ")
              +:+ Pickup.prange pfrom pto.
Proof.
  intros now interval. split.
  - destruct interval as [[pfrom pto]|]; [|reflexivity].
    unfold Pickup.pickupdate.
    destruct (Pickup.ordinal now =? Pickup.ordinal pfrom);
      [|destruct (Pickup.ordinal pfrom - Pickup.ordinal now =? 1)];
      rewrite !dollar_free_app, ?dollar_free_pretty_Z, dollar_free_prange; reflexivity.
  - intros pfrom pto -> [Hh Hm] [Hh' Hm'] days. split.
    + unfold Pickup.prange.
      rewrite !string_length_app, !length_fmt_02d by lia. reflexivity.
    + unfold Pickup.pickupdate. subst days.
      destruct (Z.eqb_spec (Pickup.ordinal now) (Pickup.ordinal pfrom)) as [Heq|Hne].
      * rewrite Heq, Z.sub_diag. reflexivity.
      * destruct (Z.eqb_spec (Pickup.ordinal pfrom - Pickup.ordinal now) 0) as [H0|_];
          [lia|].
        destruct (Pickup.ordinal pfrom - Pickup.ordinal now =? 1);
          [reflexivity|].
        now rewrite !string_app_assoc.
Qed.

Lemma pickupdate_label_witness :
  Pickup.pickupdate MoreExamples.day_before
    (Some (MoreExamples.evening_start, MoreExamples.evening_end))
  = "Tomorrow, " +:+ Pickup.prange MoreExamples.evening_start MoreExamples.evening_end
  /\ String.length (Pickup.prange MoreExamples.evening_start MoreExamples.evening_end)
     = 13%nat.
Proof.
  destruct (pickupdate_label MoreExamples.day_before
              (Some (MoreExamples.evening_start, MoreExamples.evening_end)))
    as [_ H].
  destruct (H MoreExamples.evening_start MoreExamples.evening_end eq_refl) as [Hlen Hlabel].
  - unfold Pickup.on_the_clock. cbn. lia.
  - unfold Pickup.on_the_clock. cbn. lia.
  - split; [exact Hlabel | exact Hlen].
Defined.
